(** * go-reconnectwifi: the Wi-Fi reconnect agent and its specification

    The repository holds three generations of one small Windows agent that
    keeps a wireless interface associated with one network by scraping the
    text printed by [netsh wlan ...]:

    - [Part000]: the file [src/unnamed/part_000], the oldest generation
      (no visibility scan, 30 s interval);
    - [MainGo]:  the file [src/main.go] (visibility scan added, 15 s interval);
    - [Slog]:    the Go program stored after the prose of [src/README.md]
      (command runner with timeouts, [log/slog], command-line flags).

    Every function is embedded under its own name in the module of the file
    it comes from.  Go strings are byte strings; they are modelled by
    [string], whose literals are read byte by byte, so that the UTF-8 labels
    of the source keep the bytes the Go compiler gives them. *)

From Stdlib Require Import String Ascii List Bool ZArith NArith Lia.
From Stdlib Require Import DecimalString HexadecimalString.
Import ListNotations.
Local Open Scope list_scope.
Local Open Scope bool_scope.
Local Open Scope string_scope.

(* ===================================================================== *)
(** * The functions of Go's [strings] package the program calls          *)
(* ===================================================================== *)

Module GoStrings.

(** A string made of the given byte values. *)
Definition bytes (l : list nat) : string :=
  string_of_list_ascii (map ascii_of_nat l).

(** The double quote and the line feed, which a literal cannot hold. *)
Definition dquote : string := bytes [34].
Definition LF : ascii := ascii_of_nat 10.
Definition colon : ascii := ascii_of_nat 58.

(** [strings.HasPrefix(s, prefix)]. *)
Fixpoint HasPrefix (s prefix : string) {struct prefix} : bool :=
  match prefix with
  | EmptyString => true
  | String p prefix' =>
      match s with
      | EmptyString => false
      | String c s' => Ascii.eqb c p && HasPrefix s' prefix'
      end
  end.

(** [strings.Contains(s, substr)]. *)
Fixpoint Contains (s substr : string) : bool :=
  HasPrefix s substr ||
  match s with
  | EmptyString => false
  | String _ s' => Contains s' substr
  end.

(** Puts a byte in front of the first piece of a split. *)
Definition consHead (c : ascii) (pieces : list string) : list string :=
  match pieces with
  | [] => [String c EmptyString]
  | p :: ps => String c p :: ps
  end.

(** [strings.Split(s, sep)] for a separator of one byte (the program only
    splits at the line feed); [strings.SplitSeq] yields the same pieces in
    the same order. *)
Fixpoint Split (s : string) (sep : ascii) : list string :=
  match s with
  | EmptyString => [EmptyString]
  | String c s' =>
      if Ascii.eqb c sep then EmptyString :: Split s' sep
      else consHead c (Split s' sep)
  end.

(** The pieces of [SplitN] when at most [n] of them are asked for. *)
Fixpoint splitAtMost (sep : ascii) (n : nat) (s : string) {struct s} : list string :=
  match n with
  | 0 => []
  | 1 => [s]
  | S n' =>
      match s with
      | EmptyString => [EmptyString]
      | String c s' =>
          if Ascii.eqb c sep then EmptyString :: splitAtMost sep n' s'
          else consHead c (splitAtMost sep n s')
      end
  end.

(** [strings.SplitN(s, sep, n)] for a separator of one byte: no piece for
    [n = 0], every piece for [n < 0], otherwise at most [n] pieces, the last
    one being the unsplit rest. *)
Definition SplitN (s : string) (sep : ascii) (n : Z) : list string :=
  if (n =? 0)%Z then []
  else if (n <? 0)%Z then Split s sep
  else splitAtMost sep (Z.to_nat n) s.

(** [strings.Join(elems, sep)]. *)
Fixpoint Join (elems : list string) (sep : string) : string :=
  match elems with
  | [] => EmptyString
  | [e] => e
  | e :: rest => e ++ sep ++ Join rest sep
  end.

(** ** [strings.TrimSpace]

    [TrimSpace] removes the leading and the trailing runes for which
    [unicode.IsSpace] holds.  A rune is decoded from UTF-8, an invalid
    sequence decodes to [RuneError], which is no space, and the decoder
    accepts shortest encodings only: so the function removes exactly the
    byte sequences below, from the front and then from the back. *)

Definition byteIn (c : ascii) (lo hi : N) : bool :=
  (lo <=? N_of_ascii c)%N && (N_of_ascii c <=? hi)%N.

Definition byteIs (c : ascii) (b : N) : bool := (N_of_ascii c =? b)%N.

(** The spaces of one byte: tab, line feed, vertical tab, form feed,
    carriage return and the blank. *)
Definition isSpace1 (a : ascii) : bool := byteIn a 9 13 || byteIs a 32.

(** U+0085 and U+00A0. *)
Definition isSpace2 (a b : ascii) : bool :=
  byteIs a 194 && (byteIs b 133 || byteIs b 160).

(** U+1680, U+2000..U+200A, U+2028, U+2029, U+202F, U+205F and U+3000. *)
Definition isSpace3 (a b c : ascii) : bool :=
  (byteIs a 225 && byteIs b 154 && byteIs c 128)
  || (byteIs a 226 && byteIs b 128
      && (byteIn c 128 138 || byteIs c 168 || byteIs c 169 || byteIs c 175))
  || (byteIs a 226 && byteIs b 129 && byteIs c 159)
  || (byteIs a 227 && byteIs b 128 && byteIs c 128).

(** [strings.TrimLeftFunc(s, unicode.IsSpace)] on the bytes of [s]. *)
Fixpoint trimLeft (l : list ascii) : list ascii :=
  match l with
  | [] => []
  | a :: l1 =>
      if isSpace1 a then trimLeft l1
      else
        match l1 with
        | [] => l
        | b :: l2 =>
            if isSpace2 a b then trimLeft l2
            else
              match l2 with
              | [] => l
              | c :: l3 => if isSpace3 a b c then trimLeft l3 else l
              end
        end
  end.

(** The same on the reversed bytes: the last byte of a rune comes first. *)
Fixpoint trimLeftRev (l : list ascii) : list ascii :=
  match l with
  | [] => []
  | a :: l1 =>
      if isSpace1 a then trimLeftRev l1
      else
        match l1 with
        | [] => l
        | b :: l2 =>
            if isSpace2 b a then trimLeftRev l2
            else
              match l2 with
              | [] => l
              | c :: l3 => if isSpace3 c b a then trimLeftRev l3 else l
              end
        end
  end.

(** [strings.TrimRightFunc(s, unicode.IsSpace)] on the bytes of [s]. *)
Definition trimRight (l : list ascii) : list ascii :=
  rev (trimLeftRev (rev l)).

Definition TrimSpace (s : string) : string :=
  string_of_list_ascii (trimRight (trimLeft (list_ascii_of_string s))).

(** ** [strings.ToLower]

    On a string whose bytes are all below [utf8.RuneSelf], [ToLower] works
    byte by byte: the letters [A] to [Z] are moved to [a] to [z] and every
    other byte is kept.  (On other strings it maps [unicode.ToLower] over
    the runes; that table is not modelled.) *)

Definition isASCII (s : string) : bool :=
  forallb (fun c => (N_of_ascii c <? 128)%N) (list_ascii_of_string s).

Definition lowerByte (c : ascii) : ascii :=
  if byteIn c 65 90 then ascii_of_N (N_of_ascii c + 32) else c.

Fixpoint lowerASCII (s : string) : string :=
  match s with
  | EmptyString => EmptyString
  | String c s' => String (lowerByte c) (lowerASCII s')
  end.

End GoStrings.

Import GoStrings.


(* ===================================================================== *)
(** * The world outside the program                                       *)
(* ===================================================================== *)

(** What the program does to its environment is kept as a list of events;
    what the environment answers (the result of a child process, whether a
    file opens, the time a tick carries) is a function of the events so far.
    A function of the program that runs commands or logs is a computation
    [M A]: from the environment and the history it yields its result and the
    events it adds. *)

Module Os.

(** [time.Duration]: a number of nanoseconds. *)
Definition Duration := Z.
Definition Second : Duration := 1000000000%Z.

(** The error [cmd.Run] returns: the child exited with a non-zero code
    ([*exec.ExitError]), or it could not be started or waited for. *)
Inductive RunError : Type :=
| ExitError (code : Z)
| StartError (msg : string).

(** [strconv.Itoa], which the verb [%d] prints. *)
Definition Itoa (n : Z) : string := DecimalString.NilZero.string_of_int (Z.to_int n).

(** [err.Error()] of such an error.  An exit error prints its
    [ProcessState]: the code in decimal, or in hexadecimal from 65536 on,
    as Windows has it. *)
Definition RunError_Error (e : RunError) : string :=
  match e with
  | ExitError code =>
      if (code <? 65536)%Z
      then "exit status " ++ Itoa code
      else "exit status 0x" ++ HexadecimalString.NilZero.string_of_uint (N.to_hex_uint (Z.to_N code))
  | StartError msg => msg
  end.

(** An [error] value.  [fmt.Errorf] and [errors.New] are kept as the call
    that built them: the format and its operands.  [ArgWrap] is the operand
    of a [%w] verb, which [errors.As] follows. *)
Inductive error : Type :=
| OfRun (e : RunError)
| OsError (msg : string)
| ErrorsNew (msg : string)
| Errorf (format : string) (args : list fmtArg)
with fmtArg : Type :=
| ArgString (s : string)
| ArgDuration (d : Duration)
| ArgInt (n : Z)
| ArgTime (t : Z)
| ArgError (e : error)
| ArgWrap (e : error)
| ArgRunError (e : RunError).

(** [errors.As(err, &exitErr)] for [*exec.ExitError]: the exit code of the
    first exit error on the chain of wrapped errors. *)
Fixpoint asExitError (e : error) : option Z :=
  match e with
  | OfRun (ExitError code) => Some code
  | OfRun (StartError _) => None
  | OsError _ => None
  | ErrorsNew _ => None
  | Errorf _ args =>
      (fix first (l : list fmtArg) : option Z :=
         match l with
         | [] => None
         | ArgWrap e' :: _ => asExitError e'
         | _ :: rest => first rest
         end) args
  end.

(** A child process as [exec.Command] or [exec.CommandContext] starts it:
    the deadline of its context when it has one, the program, its
    arguments, and whether its console window is hidden. *)
Record Command : Type := mkCommand {
  cmdTimeout : option Duration;
  cmdName : string;
  cmdArgs : list string;
  cmdHideWindow : bool }.

(** What running it gives: the two captured buffers, the error of
    [cmd.Run], and whether the deadline of the context had passed when the
    run came back ([ctx.Err() == context.DeadlineExceeded]). *)
Record ProcResult : Type := mkProcResult {
  procStdout : string;
  procStderr : string;
  procErr : option RunError;
  procDeadlineExceeded : bool }.

(** [log.Logger] of the older generations: where it writes and its prefix. *)
Inductive LogDest : Type :=
| ToStdout
| ToFile (path : string).

Record Logger : Type := mkLogger {
  loggerDest : LogDest;
  loggerPrefix : string;
  loggerFlags : Z }.

(** [log.Ldate] and [log.Ltime]. *)
Definition Ldate : Z := 1.
Definition Ltime : Z := 2.

(** [slog.Level]. *)
Inductive Level : Type := LevelDebug | LevelInfo | LevelWarn | LevelError.

(** An attribute value of a [slog] record. *)
Inductive attrValue : Type :=
| VString (s : string)
| VDuration (d : Duration)
| VTime (t : Z)
| VLevel (l : Level)
| VAny (e : error).

Definition attr : Type := string * attrValue.

Inductive Event : Type :=
(** a child process was run, with its result *)
| EvExec (c : Command) (r : ProcResult)
(** [<-ticker.C] delivered a tick carrying this time *)
| EvTick (now : Z)
(** [os.OpenFile] of the log file, and the error it gave, if any *)
| EvOpenFile (path : string) (failure : option string)
(** [logger.Printf] and [logger.Println] of a [log.Logger] *)
| EvLogf (l : Logger) (format : string) (args : list fmtArg)
| EvLogln (l : Logger) (args : list fmtArg)
(** [fmt.Printf] and [fmt.Println] on standard output *)
| EvPrintf (format : string) (args : list fmtArg)
| EvPrintln (args : list fmtArg)
(** [fmt.Scanln] waited for a line *)
| EvScanln
(** [slog.SetDefault] of a text handler on this destination and level *)
| EvSetDefault (dest : LogDest) (lvl : Level)
(** a record sent to the default [slog] logger *)
| EvSlog (lvl : Level) (msg : string) (attrs : list attr)
(** a record sent to a logger made on the spot, writing to standard output *)
| EvSlogEarly (lvl : Level) (msg : string) (attrs : list attr)
(** [flag.Usage()] printed the usage text *)
| EvUsage
(** [time.NewTicker] started a ticker of this period *)
| EvNewTicker (period : Duration).

Record Env : Type := mkEnv {
  respond : list Event -> Command -> ProcResult;
  opens : list Event -> string -> option string;
  tickTime : list Event -> Z }.

Definition M (A : Type) : Type := Env -> list Event -> A * list Event.

Definition ret {A} (a : A) : M A := fun _ _ => (a, []).

Definition bind {A B} (m : M A) (k : A -> M B) : M B :=
  fun env h =>
    let '(a, es) := m env h in
    let '(b, es') := k a env (h ++ es)%list in
    (b, (es ++ es')%list).

(** Runs a child process and waits for it. *)
Definition run (c : Command) : M ProcResult :=
  fun env h => let r := respond env h c in (r, [EvExec c r]).

Definition emit (e : Event) : M unit := fun _ _ => (tt, [e]).

Definition openFile (path : string) : M (option error) :=
  fun env h =>
    let failure := opens env h path in
    (option_map OsError failure, [EvOpenFile path failure]).

(** Blocks until the ticker delivers. *)
Definition tick : M Z :=
  fun env h => let t := tickTime env h in (t, [EvTick t]).

(** How a run of [main] ends: it returns, it calls [os.Exit], the process
    is ended from outside while the loop waits for a tick, or a panic that
    nothing recovers ends it. *)
Inductive Termination : Type :=
| Returned
| Exited (code : Z)
| Killed
| Panicked.

(** The commands among some events, with their results, oldest first. *)
Fixpoint execs (es : list Event) : list (Command * ProcResult) :=
  match es with
  | [] => []
  | EvExec c r :: rest => (c, r) :: execs rest
  | _ :: rest => execs rest
  end.


End Os.

Import Os.

Declare Scope os_scope.
Notation "x <- m ;; k" := (bind m (fun x => k))
  (at level 61, m at next level, right associativity) : os_scope.
Notation "m ;;; k" := (bind m (fun _ => k))
  (at level 61, right associativity) : os_scope.
Local Open Scope os_scope.

(* ===================================================================== *)
(** * [src/main.go]                                                       *)
(* ===================================================================== *)

Module MainGo.

Definition targetSSID : string := "qaz_5G".
Definition wifiInterfaceName : string := "WLAN".
Definition checkInterval : Duration := (15 * Second)%Z.
Definition logFilePath : string :=
  "D:\Go编程\go-reconnectwifi\GoWiFiReconnectLog.txt".

(** [exec.Command("netsh", args...)]: no context, so no deadline, and the
    console window is not hidden. *)
Definition netsh (args : list string) : Command :=
  mkCommand None "netsh" args false.

(** The global [logger] is [nil] until [setupLogger] has run; every function
    reads it, so it is passed to them: [None] is [nil].  [setupLogger] yields
    the logger it stores. *)
Definition setupLogger : M Logger :=
  let logFlags := Z.lor Ldate Ltime in
  let logPrefix := "WIFI_RECONNECT: " in
  if logFilePath =? "" then
    let logger := mkLogger ToStdout logPrefix logFlags in
    emit (EvLogln logger [ArgString "日志将输出到标准输出。"]) ;;;
    ret logger
  else
    err <- openFile logFilePath ;;
    match err with
    | Some e =>
        let logger := mkLogger ToStdout "ERROR_LOGGER: " logFlags in
        emit (EvLogf logger "无法打开或创建日志文件 '%s': %v。日志将输出到标准输出。"
                [ArgString logFilePath; ArgError e]) ;;;
        ret logger
    | None =>
        let logger := mkLogger (ToFile logFilePath) logPrefix logFlags in
        emit (EvLogln logger [ArgString "日志记录器初始化完成，日志将写入到:"; ArgString logFilePath]) ;;;
        ret logger
    end.

(** The loop of [getWlanInterface]: [break] at the first non-empty name. *)
Fixpoint getWlanInterface_loop (lines : list string) (detectedInterfaceName : string) : string :=
  match lines with
  | [] => detectedInterfaceName
  | line :: rest =>
      let trimmedLine := TrimSpace line in
      if HasPrefix trimmedLine "名称" || HasPrefix trimmedLine "Name" then
        match SplitN trimmedLine colon 2 with
        | [_; part1] =>
            let detected := TrimSpace part1 in
            if negb (detected =? "") then detected
            else getWlanInterface_loop rest detected
        | _ => getWlanInterface_loop rest detectedInterfaceName
        end
      else getWlanInterface_loop rest detectedInterfaceName
  end.

Definition getWlanInterface (logger : option Logger) : M (string * option error) :=
  match logger with
  | None =>
      emit (EvPrintln [ArgString "CRITICAL_ERROR: getWlanInterface 调用时 logger 未初始化!"]) ;;;
      ret ("", Some (Errorf "logger not initialized in getWlanInterface" []))
  | Some _ =>
      r <- run (netsh ["wlan"; "show"; "interfaces"]) ;;
      match procErr r with
      | Some err =>
          ret ("", Some (Errorf "执行 'netsh wlan show interfaces' 失败 (getWlanInterface): %v, stderr: %s"
                           [ArgRunError err; ArgString (procStderr r)]))
      | None =>
          let lines := Split (procStdout r) LF in
          let detectedInterfaceName := getWlanInterface_loop lines "" in
          if detectedInterfaceName =? "" then
            ret ("", Some (Errorf "未能通过 'netsh wlan show interfaces' 自动检测到无线网络接口 (getWlanInterface)" []))
          else ret (detectedInterfaceName, None)
      end
  end.

(** The three variables the loop of [isConnected] updates. *)
Record scanState : Type := mkScan {
  inTargetInterfaceBlock : bool;
  blockParsedSSID : string;
  blockParsedState : string }.

Definition scanStart : scanState := mkScan false "" "".

(** What one turn of the loop does: it goes on with the next line, or the
    function returns. *)
Inductive step : Type :=
| Next (st : scanState)
| Return (connected : bool).

(** The body of the loop of [isConnected], for one line. *)
Definition isConnected_body (targetSSID_param ifaceName_param line : string)
    (st : scanState) : step :=
  let trimmedLine := TrimSpace line in
  if HasPrefix trimmedLine "名称" then
    match SplitN trimmedLine colon 2 with
    | [_; part1] =>
        let currentInterfaceNameInOutput := TrimSpace part1 in
        if currentInterfaceNameInOutput =? ifaceName_param
        then Next (mkScan true "" "")
        else Next (mkScan false (blockParsedSSID st) (blockParsedState st))
    | _ => Next st
    end
  else if inTargetInterfaceBlock st then
    let ssid :=
      if HasPrefix trimmedLine "SSID" && negb (Contains trimmedLine "AP BSSID") then
        match SplitN trimmedLine colon 2 with
        | [_; part1] => TrimSpace part1
        | _ => blockParsedSSID st
        end
      else blockParsedSSID st in
    let state :=
      if HasPrefix trimmedLine "状态" then
        match SplitN trimmedLine colon 2 with
        | [_; part1] => TrimSpace part1
        | _ => blockParsedState st
        end
      else blockParsedState st in
    if (ssid =? targetSSID_param) && (state =? "已连接") then Return true
    else if (ssid =? targetSSID_param) && negb (state =? "") && negb (state =? "已连接")
    then Return false
    else Next (mkScan true ssid state)
  else Next st.

(** The loop over the lines: where it stands when the lines are used up, or
    the value returned from inside it. *)
Fixpoint isConnected_loop (targetSSID_param ifaceName_param : string)
    (lines : list string) (st : scanState) : step :=
  match lines with
  | [] => Next st
  | line :: rest =>
      match isConnected_body targetSSID_param ifaceName_param line st with
      | Next st' => isConnected_loop targetSSID_param ifaceName_param rest st'
      | Return connected => Return connected
      end
  end.

Definition isConnected (logger : option Logger) (targetSSID_param ifaceName_param : string)
  : M (bool * option error) :=
  match logger with
  | None =>
      emit (EvPrintln [ArgString "CRITICAL_ERROR: isConnected 调用时 logger 未初始化!"]) ;;;
      ret (false, Some (Errorf "logger not initialized in isConnected" []))
  | Some _ =>
      r <- run (netsh ["wlan"; "show"; "interfaces"]) ;;
      match procErr r with
      | Some err =>
          let errMsg := procStderr r in
          let errMsg :=
            if (errMsg =? "") && (RunError_Error err =? "exit status 1")
            then "netsh wlan show interfaces returned exit status 1 (可能是WLAN AutoConfig服务未运行, 或Wi-Fi适配器被禁用/不存在)"
            else errMsg in
          ret (false, Some (Errorf "执行 'netsh wlan show interfaces' 失败 (isConnected): %v, stderr: %s"
                              [ArgRunError err; ArgString errMsg]))
      | None =>
          let lines := Split (procStdout r) LF in
          match isConnected_loop targetSSID_param ifaceName_param lines scanStart with
          | Return connected => ret (connected, None)
          | Next _ => ret (false, None)
          end
      end
  end.

(** The loop of [isNetworkAvailable]: [Some] is the value returned from
    inside it, [None] means that the lines are used up. *)
Fixpoint isNetworkAvailable_loop (logger : Logger) (targetSSID_param ifaceName_param : string)
    (lines : list string) : M (option (bool * option error)) :=
  match lines with
  | [] => ret None
  | line :: rest =>
      let trimmedLine := TrimSpace line in
      if HasPrefix trimmedLine "SSID " then
        match SplitN trimmedLine colon 2 with
        | [_; part1] =>
            let scannedSSID := TrimSpace part1 in
            if scannedSSID =? targetSSID_param then
              emit (EvLogf logger "INFO: isNetworkAvailable: Target SSID '%s' is visible on interface '%s'."
                      [ArgString targetSSID_param; ArgString ifaceName_param]) ;;;
              ret (Some (true, None))
            else isNetworkAvailable_loop logger targetSSID_param ifaceName_param rest
        | _ => isNetworkAvailable_loop logger targetSSID_param ifaceName_param rest
        end
      else isNetworkAvailable_loop logger targetSSID_param ifaceName_param rest
  end.

Definition isNetworkAvailable (logger : option Logger) (targetSSID_param ifaceName_param : string)
  : M (bool * option error) :=
  match logger with
  | None =>
      emit (EvPrintln [ArgString "CRITICAL_ERROR: isNetworkAvailable 调用时 logger 未初始化!"]) ;;;
      ret (false, Some (Errorf "logger not initialized in isNetworkAvailable" []))
  | Some logger =>
      r <- run (netsh ["wlan"; "show"; "networks";
                       "interface=" ++ dquote ++ ifaceName_param ++ dquote; "mode=bssid"]) ;;
      match procErr r with
      | Some err =>
          let errMsg := procStderr r in
          if Contains errMsg "没有无线网络可见"
             || Contains errMsg "No wireless networks are currently visible" then
            emit (EvLogf logger "INFO: isNetworkAvailable: No networks visible on interface '%s'."
                    [ArgString ifaceName_param]) ;;;
            ret (false, None)
          else
            ret (false, Some (Errorf "执行 'netsh wlan show networks' 失败 (isNetworkAvailable): %v, stderr: %s"
                                [ArgRunError err; ArgString errMsg]))
      | None =>
          let lines := Split (procStdout r) LF in
          found <- isNetworkAvailable_loop logger targetSSID_param ifaceName_param lines ;;
          match found with
          | Some result => ret result
          | None =>
              emit (EvLogf logger "INFO: isNetworkAvailable: Target SSID '%s' is NOT visible on interface '%s' after checking all scanned networks."
                      [ArgString targetSSID_param; ArgString ifaceName_param]) ;;;
              ret (false, None)
          end
      end
  end.

(** The argument vector of the connect command. *)
Definition connectArgs (ssid iface : string) : list string :=
  ["wlan"; "connect"; "name=" ++ dquote ++ ssid ++ dquote;
   "interface=" ++ dquote ++ iface ++ dquote].

Definition connectToWifi (logger : option Logger) (ssid iface : string) : M (option error) :=
  match logger with
  | None =>
      emit (EvPrintln [ArgString "CRITICAL_ERROR: connectToWifi 调用时 logger 未初始化!"]) ;;;
      ret (Some (Errorf "logger not initialized in connectToWifi" []))
  | Some logger =>
      emit (EvLogf logger "INFO: Attempting to connect to Wi-Fi: '%s' (Interface: '%s')"
              [ArgString ssid; ArgString iface]) ;;;
      r <- run (netsh (connectArgs ssid iface)) ;;
      let stdoutStr := procStdout r in
      let stderrStr := procStderr r in
      match procErr r with
      | Some err =>
          emit (EvLogf logger "ERROR: Connection command failed. Error: %v, stdout: '%s', stderr: '%s'"
                  [ArgRunError err; ArgString stdoutStr; ArgString stderrStr]) ;;;
          ret (Some (Errorf "netsh wlan connect failed: %v, stderr: %s"
                       [ArgRunError err; ArgString stderrStr]))
      | None =>
          emit (EvLogf logger "INFO: Connection command sent for '%s'. Stdout: '%s', Stderr: '%s'"
                  [ArgString ssid; ArgString stdoutStr; ArgString stderrStr]) ;;;
          ret None
      end
  end.

(** What [main] does when a tick has arrived: the body of the [case] of its
    [select].  [continue] ends it. *)
Definition onTick (logger : Logger) (effectiveIfaceName : string) (currentTime : Z) : M unit :=
  emit (EvLogf logger "INFO: Tick at %s. Checking Wi-Fi status..." [ArgTime currentTime]) ;;;
  status <- isConnected (Some logger) targetSSID effectiveIfaceName ;;
  let '(connected, err) := status in
  match err with
  | Some e =>
      emit (EvLogf logger "ERROR: Error checking connection status (isConnected): %v" [ArgError e])
  | None =>
      if negb connected then
        emit (EvLogf logger "INFO: Not connected to target SSID '%s'. Checking if network is visible..."
                [ArgString targetSSID]) ;;;
        avail <- isNetworkAvailable (Some logger) targetSSID effectiveIfaceName ;;
        let '(networkVisible, availErr) := avail in
        match availErr with
        | Some e =>
            emit (EvLogf logger "ERROR: Error checking network availability for SSID '%s' (isNetworkAvailable): %v"
                    [ArgString targetSSID; ArgError e])
        | None =>
            if networkVisible then
              emit (EvLogf logger "INFO: Target SSID '%s' is visible. Attempting reconnect..."
                      [ArgString targetSSID]) ;;;
              connectErr <- connectToWifi (Some logger) targetSSID effectiveIfaceName ;;
              match connectErr with
              | Some e =>
                  emit (EvLogf logger "ERROR: Failed to connect to '%s' (connectToWifi): %v"
                          [ArgString targetSSID; ArgError e])
              | None => ret tt
              end
            else
              emit (EvLogf logger "INFO: Target SSID '%s' is not visible. Skipping connection attempt for this cycle."
                      [ArgString targetSSID])
        end
      else
        emit (EvLogf logger "INFO: Already connected to target SSID '%s'. Status normal."
                [ArgString targetSSID])
  end.

(** The [for { select { case currentTime := <-ticker.C: ... } }] of [main],
    while [ticks] ticks arrive; the process is then ended from outside. *)
Fixpoint tickerLoop (ticks : nat) (body : Z -> M unit) : M Termination :=
  match ticks with
  | 0 => ret Killed
  | S ticks' =>
      currentTime <- tick ;;
      body currentTime ;;;
      tickerLoop ticks' body
  end.

Definition main (ticks : nat) : M Termination :=
  logger <- setupLogger ;;
  emit (EvLogln logger [ArgString "INFO: Go Wi-Fi Auto Reconnect Program Started."]) ;;;
  emit (EvLogf logger "INFO: Target SSID: '%s'" [ArgString targetSSID]) ;;;
  emit (EvLogf logger "INFO: Specified Wi-Fi Interface: '%s'" [ArgString wifiInterfaceName]) ;;;
  emit (EvLogf logger "INFO: Check Interval: %v" [ArgDuration checkInterval]) ;;;
  resolved <-
    (if wifiInterfaceName =? "" then
       emit (EvLogln logger [ArgString "INFO: Wi-Fi interface name not specified in config, attempting auto-detection..."]) ;;;
       detected <- getWlanInterface (Some logger) ;;
       let '(name, err) := detected in
       match err with
       | Some e =>
           emit (EvLogf logger "FATAL: Could not auto-determine Wi-Fi interface name: %v. Please specify 'wifiInterfaceName' in config."
                   [ArgError e]) ;;;
           emit (EvLogln logger [ArgString "INFO: Program Exiting."]) ;;;
           (if logFilePath =? "" then
              emit (EvPrintln [ArgString "Press Enter to exit..."]) ;;;
              emit EvScanln
            else ret tt) ;;;
           ret None
       | None =>
           emit (EvLogf logger "INFO: Auto-detected and will use Wi-Fi interface: '%s'" [ArgString name]) ;;;
           ret (Some name)
       end
     else
       emit (EvLogf logger "INFO: Will use specified Wi-Fi interface: '%s'" [ArgString wifiInterfaceName]) ;;;
       ret (Some wifiInterfaceName)) ;;
  match resolved with
  | None => ret Returned
  | Some effectiveIfaceName =>
      emit (EvNewTicker checkInterval) ;;;
      tickerLoop ticks (onTick logger effectiveIfaceName)
  end.

End MainGo.

(* ===================================================================== *)
(** * [src/unnamed/part_000]                                              *)
(* ===================================================================== *)

Module Part000.

Definition targetSSID : string := "qaz_5G".
Definition wifiInterfaceName : string := "WLAN".
Definition checkInterval : Duration := (30 * Second)%Z.
Definition logFilePath : string :=
  "D:\Go编程\go-reconnectwifi\GoWiFiReconnectLog.txt".

(** [setupLogger], [isConnected] and [connectToWifi] have, comments apart,
    the text they have in [src/main.go]; the file has no
    [isNetworkAvailable]. *)
Definition setupLogger : M Logger := MainGo.setupLogger.
Definition isConnected := MainGo.isConnected.
Definition connectToWifi := MainGo.connectToWifi.

(** [getWlanInterface] differs by the text of its last error. *)
Definition getWlanInterface (logger : option Logger) : M (string * option error) :=
  match logger with
  | None =>
      emit (EvPrintln [ArgString "CRITICAL_ERROR: getWlanInterface 调用时 logger 未初始化!"]) ;;;
      ret ("", Some (Errorf "logger not initialized in getWlanInterface" []))
  | Some _ =>
      r <- run (MainGo.netsh ["wlan"; "show"; "interfaces"]) ;;
      match procErr r with
      | Some err =>
          ret ("", Some (Errorf "执行 'netsh wlan show interfaces' 失败 (getWlanInterface): %v, stderr: %s"
                           [ArgRunError err; ArgString (procStderr r)]))
      | None =>
          let lines := Split (procStdout r) LF in
          let detectedInterfaceName := MainGo.getWlanInterface_loop lines "" in
          if detectedInterfaceName =? "" then
            ret ("", Some (Errorf "未能通过 'netsh wlan show interfaces' 自动检测到无线网络接口。请在配置中指定 wifiInterfaceName (getWlanInterface)" []))
          else ret (detectedInterfaceName, None)
      end
  end.

(** The body of the [case] of the [select] of [main]. *)
Definition onTick (logger : Logger) (effectiveIfaceName : string) (currentTime : Z) : M unit :=
  emit (EvLogf logger "INFO: Tick at %s. Checking Wi-Fi status..." [ArgTime currentTime]) ;;;
  status <- isConnected (Some logger) targetSSID effectiveIfaceName ;;
  let '(connected, err) := status in
  match err with
  | Some e =>
      emit (EvLogf logger "ERROR: Error checking connection status: %v" [ArgError e])
  | None =>
      if negb connected then
        emit (EvLogf logger "INFO: Not connected to target SSID '%s'. Attempting reconnect..."
                [ArgString targetSSID]) ;;;
        connectErr <- connectToWifi (Some logger) targetSSID effectiveIfaceName ;;
        match connectErr with
        | Some e =>
            emit (EvLogf logger "ERROR: Failed to connect to '%s': %v"
                    [ArgString targetSSID; ArgError e])
        | None => ret tt
        end
      else
        emit (EvLogf logger "INFO: Already connected to target SSID '%s'. Status normal."
                [ArgString targetSSID])
  end.

Definition main (ticks : nat) : M Termination :=
  logger <- setupLogger ;;
  emit (EvLogln logger [ArgString "INFO: Go Wi-Fi Auto Reconnect Program Started."]) ;;;
  emit (EvLogf logger "INFO: Target SSID: '%s'" [ArgString targetSSID]) ;;;
  emit (EvLogf logger "INFO: Specified Wi-Fi Interface: '%s'" [ArgString wifiInterfaceName]) ;;;
  emit (EvLogf logger "INFO: Check Interval: %v" [ArgDuration checkInterval]) ;;;
  resolved <-
    (if wifiInterfaceName =? "" then
       emit (EvLogln logger [ArgString "INFO: Wi-Fi interface name not specified in config, attempting auto-detection..."]) ;;;
       detected <- getWlanInterface (Some logger) ;;
       let '(name, err) := detected in
       match err with
       | Some e =>
           emit (EvLogf logger "FATAL: Could not auto-determine Wi-Fi interface name: %v. Please specify 'wifiInterfaceName' in the program configuration."
                   [ArgError e]) ;;;
           emit (EvLogln logger [ArgString "INFO: Program Exiting."]) ;;;
           (if logFilePath =? "" then
              emit (EvPrintln [ArgString "Press Enter to exit..."]) ;;;
              emit EvScanln
            else ret tt) ;;;
           ret None
       | None =>
           emit (EvLogf logger "INFO: Auto-detected and will use Wi-Fi interface: '%s'" [ArgString name]) ;;;
           ret (Some name)
       end
     else
       emit (EvLogf logger "INFO: Will use specified Wi-Fi interface: '%s'" [ArgString wifiInterfaceName]) ;;;
       ret (Some wifiInterfaceName)) ;;
  match resolved with
  | None => ret Returned
  | Some effectiveIfaceName =>
      emit (EvNewTicker checkInterval) ;;;
      MainGo.tickerLoop ticks (onTick logger effectiveIfaceName)
  end.

End Part000.

(* ===================================================================== *)
(** * The Go program of [src/README.md]                                   *)
(* ===================================================================== *)

Module Slog.

(** [commandTimeout] is the default bound of a [netsh] command. *)
Definition commandTimeout : Duration := (10 * Second)%Z.

(** The command-line flags after [flag.Parse]; the package [flag] and the
    [logLevelValue] it fills are represented by the values they yield. *)
Record Flags : Type := mkFlags {
  targetSSIDFlag : string;
  wifiInterfaceFlag : string;
  checkIntervalFlag : Duration;
  logFilePathFlag : string;
  logLevelFlag : Level }.

(** [slog.Level.String] on the four named levels, the only ones the
    program stores. *)
Definition Level_String (l : Level) : string :=
  match l with
  | LevelDebug => "DEBUG"
  | LevelInfo => "INFO"
  | LevelWarn => "WARN"
  | LevelError => "ERROR"
  end.

(** [logLevelValue], the [flag.Value] of [-loglevel]: its [levelVar] is
    [nil] ([None]) or points to a [slog.LevelVar], which holds a level.  A
    method that assigns through its receiver yields the value it leaves. *)
Record logLevelValue : Type := mkLogLevelValue {
  levelVar : option Level }.

Definition logLevelValue_String (v : logLevelValue) : string :=
  match levelVar v with
  | None => Level_String LevelInfo
  | Some l => Level_String l
  end.

Section Lowering.

(** [strings.ToLower] is a parameter of [Set]: the facts below take it to
    agree with [lowerASCII] on ASCII strings. *)
Variable ToLower : string -> string.

Definition logLevelValue_Set (v : logLevelValue) (s : string)
  : logLevelValue * option error :=
  let lowered := ToLower s in
  let chosen :=
    if lowered =? "debug" then Some LevelDebug
    else if lowered =? "info" then Some LevelInfo
    else if (lowered =? "warn") || (lowered =? "warning") then Some LevelWarn
    else if (lowered =? "error") || (lowered =? "err") then Some LevelError
    else None in
  match chosen with
  | None =>
      (v, Some (Errorf "invalid log level: %q (must be debug, info, warn, or error)"
                  [ArgString s]))
  | Some level => (mkLogLevelValue (Some level), None)
  end.

End Lowering.

Definition logLevelValue_Get (v : logLevelValue) : Level :=
  match levelVar v with
  | None => LevelInfo
  | Some l => l
  end.

Definition newLogLevelValue (defaultLevel : Level) : logLevelValue :=
  mkLogLevelValue (Some defaultLevel).

Definition setupSlog (logFilePath : string) (logLevel : Level) : M unit :=
  output <-
    (if negb (logFilePath =? "") then
       err <- openFile logFilePath ;;
       match err with
       | Some e =>
           emit (EvSlogEarly LevelError "无法打开或创建日志文件，日志将输出到标准输出"
                   [("路径", VString logFilePath); ("错误", VAny e)]) ;;;
           ret ToStdout
       | None =>
           emit (EvPrintf ("日志将写入到: %s" ++ bytes [10]) [ArgString logFilePath]) ;;;
           ret (ToFile logFilePath)
       end
     else
       emit (EvPrintln [ArgString "日志将输出到标准输出。"]) ;;;
       ret ToStdout) ;;
  emit (EvSetDefault output logLevel) ;;;
  emit (EvSlog LevelInfo "日志记录器初始化完成" []).

(** [runNetshCommand]: the command runs under a context with the given
    deadline and with its window hidden; the deadline is looked at before
    the error of the run. *)
Definition runNetshCommand (timeout : Duration) (args : list string)
  : M (string * string * option error) :=
  r <- run (mkCommand (Some timeout) "netsh" args true) ;;
  let stdout := procStdout r in
  let stderr := procStderr r in
  if procDeadlineExceeded r then
    ret (stdout, stderr,
         Some (Errorf "命令 '%s' 执行超时 (%v)" [ArgString (Join args " "); ArgDuration timeout]))
  else
    match procErr r with
    | Some err =>
        ret (stdout, stderr,
             Some (Errorf "命令 '%s' 执行失败: %w, stderr: %s"
                     [ArgString (Join args " "); ArgWrap (OfRun err); ArgString (TrimSpace stderr)]))
    | None => ret (stdout, stderr, None)
    end.

(** The loop of [getWlanInterface]: the name it returns from inside, if any. *)
Fixpoint getWlanInterface_loop (lines : list string) : option string :=
  match lines with
  | [] => None
  | line :: rest =>
      let trimmedLine := TrimSpace line in
      if HasPrefix trimmedLine "名称" || HasPrefix trimmedLine "Name" then
        match SplitN trimmedLine colon 2 with
        | [_; part1] =>
            let ifaceName := TrimSpace part1 in
            if negb (ifaceName =? "") then Some ifaceName
            else getWlanInterface_loop rest
        | _ => getWlanInterface_loop rest
        end
      else getWlanInterface_loop rest
  end.

Definition getWlanInterface : M (string * option error) :=
  emit (EvSlog LevelDebug "开始自动检测无线网络接口..." []) ;;;
  res <- runNetshCommand commandTimeout ["wlan"; "show"; "interfaces"] ;;
  let '(stdout, _, err) := res in
  match err with
  | Some e =>
      ret ("", Some (Errorf "执行 'netsh wlan show interfaces' 失败 (getWlanInterface): %w" [ArgWrap e]))
  | None =>
      match getWlanInterface_loop (Split stdout LF) with
      | Some ifaceName =>
          emit (EvSlog LevelInfo "自动检测到无线网络接口" [("接口名称", VString ifaceName)]) ;;;
          ret (ifaceName, None)
      | None =>
          ret ("", Some (ErrorsNew "未能通过 'netsh wlan show interfaces' 自动检测到无线网络接口 (getWlanInterface)"))
      end
  end.

Definition keywordInterfaceName : string := "名称".
Definition keywordSSID : string := "SSID".
Definition keywordState : string := "状态".
Definition keywordConnectedState : string := "已连接".

(** The three variables the loop of [isConnected] updates. *)
Record scanState : Type := mkScan {
  inTargetInterfaceBlock : bool;
  blockParsedSSID : string;
  blockParsedState : string }.

Definition scanStart : scanState := mkScan false "" "".

(** One turn of the loop goes on with the next line, or the function
    returns; the values it then logs are kept. *)
Inductive step : Type :=
| Next (st : scanState)
| Return (connected : bool) (ssid state : string).

(** The body of the loop of [isConnected], for one line. *)
Definition isConnected_body (targetSSID interfaceName line : string) (st : scanState) : step :=
  let trimmedLine := TrimSpace line in
  if HasPrefix trimmedLine keywordInterfaceName && Contains trimmedLine ":" then
    match SplitN trimmedLine colon 2 with
    | [_; part1] =>
        let currentInterfaceNameInOutput := TrimSpace part1 in
        if currentInterfaceNameInOutput =? interfaceName
        then Next (mkScan true "" "")
        else Next (mkScan false (blockParsedSSID st) (blockParsedState st))
    | _ => Next st
    end
  else if inTargetInterfaceBlock st then
    let '(ssid, state) :=
      if HasPrefix trimmedLine keywordSSID && negb (Contains trimmedLine "AP BSSID")
         && Contains trimmedLine ":" then
        match SplitN trimmedLine colon 2 with
        | [_; part1] => (TrimSpace part1, blockParsedState st)
        | _ => (blockParsedSSID st, blockParsedState st)
        end
      else if HasPrefix trimmedLine keywordState && Contains trimmedLine ":" then
        match SplitN trimmedLine colon 2 with
        | [_; part1] => (blockParsedSSID st, TrimSpace part1)
        | _ => (blockParsedSSID st, blockParsedState st)
        end
      else (blockParsedSSID st, blockParsedState st) in
    if negb (ssid =? "") && negb (state =? "") then
      if (ssid =? targetSSID) && (state =? keywordConnectedState) then Return true ssid state
      else if (ssid =? targetSSID) && negb (state =? keywordConnectedState)
      then Return false ssid state
      else Next (mkScan true ssid state)
    else Next (mkScan true ssid state)
  else Next st.

Fixpoint isConnected_loop (targetSSID interfaceName : string)
    (lines : list string) (st : scanState) : step :=
  match lines with
  | [] => Next st
  | line :: rest =>
      match isConnected_body targetSSID interfaceName line st with
      | Next st' => isConnected_loop targetSSID interfaceName rest st'
      | Return connected ssid state => Return connected ssid state
      end
  end.

(** [isConnected]; the [slog.Debug] of each [return] of the loop is sent
    when the loop has come back with that [return]: the loop sends nothing
    else. *)
Definition isConnected (targetSSID interfaceName : string) : M (bool * option error) :=
  emit (EvSlog LevelDebug "检查连接状态..."
          [("目标SSID", VString targetSSID); ("接口", VString interfaceName)]) ;;;
  res <- runNetshCommand commandTimeout ["wlan"; "show"; "interfaces"] ;;
  let '(stdout, stderr, err) := res in
  match err with
  | Some e =>
      let errMsg :=
        if stderr =? "" then
          match asExitError e with
          | Some code =>
              "netsh 命令返回退出状态 " ++ Itoa code
              ++ " (可能是WLAN AutoConfig服务未运行, 或Wi-Fi适配器被禁用/不存在)"
          | None => stderr
          end
        else stderr in
      ret (false, Some (Errorf "执行 'netsh wlan show interfaces' 失败 (isConnected): %w, stderr: %s"
                          [ArgWrap e; ArgString errMsg]))
  | None =>
      let lines := Split stdout LF in
      match isConnected_loop targetSSID interfaceName lines scanStart with
      | Return true ssid state =>
          emit (EvSlog LevelDebug "目标SSID已连接" [("SSID", VString ssid); ("状态", VString state)]) ;;;
          ret (true, None)
      | Return false ssid state =>
          emit (EvSlog LevelDebug "目标SSID存在但未连接或状态异常"
                  [("SSID", VString ssid); ("状态", VString state)]) ;;;
          ret (false, None)
      | Next _ =>
          emit (EvSlog LevelDebug "遍历完接口信息，未确认连接到目标SSID" []) ;;;
          ret (false, None)
      end
  end.

Section Quoting.

(** The verb [%q] of [fmt.Sprintf], that is [strconv.Quote], is not part of
    the repository: it is a parameter of the functions that use it. *)
Variable Quote : string -> string.

(** The loop of [isNetworkAvailable]: whether it returned [true] from
    inside. *)
Fixpoint isNetworkAvailable_loop (targetSSID interfaceName : string)
    (lines : list string) : M bool :=
  match lines with
  | [] => ret false
  | line :: rest =>
      let trimmedLine := TrimSpace line in
      if HasPrefix trimmedLine "SSID " then
        match SplitN trimmedLine colon 2 with
        | [_; part1] =>
            let scannedSSID := TrimSpace part1 in
            emit (EvSlog LevelDebug "扫描到可见SSID" [("可见SSID", VString scannedSSID)]) ;;;
            if scannedSSID =? targetSSID then
              emit (EvSlog LevelInfo "目标SSID可见"
                      [("SSID", VString targetSSID); ("接口", VString interfaceName)]) ;;;
              ret true
            else isNetworkAvailable_loop targetSSID interfaceName rest
        | _ => isNetworkAvailable_loop targetSSID interfaceName rest
        end
      else isNetworkAvailable_loop targetSSID interfaceName rest
  end.

(** The argument vector of the scan command. *)
Definition scanArgs (interfaceName : string) : list string :=
  ["wlan"; "show"; "networks"; "interface=" ++ Quote interfaceName; "mode=bssid"].

Definition isNetworkAvailable (targetSSID interfaceName : string) : M (bool * option error) :=
  emit (EvSlog LevelDebug "检查网络是否可见..."
          [("目标SSID", VString targetSSID); ("接口", VString interfaceName)]) ;;;
  res <- runNetshCommand commandTimeout (scanArgs interfaceName) ;;
  let '(stdout, stderr, err) := res in
  match err with
  | Some e =>
      if Contains stderr "没有无线网络可见"
         || Contains stderr "No wireless networks are currently visible" then
        emit (EvSlog LevelInfo "指定接口上没有可见的无线网络" [("接口", VString interfaceName)]) ;;;
        ret (false, None)
      else
        ret (false, Some (Errorf "执行 'netsh wlan show networks' 失败 (isNetworkAvailable): %w" [ArgWrap e]))
  | None =>
      let lines := Split stdout LF in
      found <- isNetworkAvailable_loop targetSSID interfaceName lines ;;
      if found then ret (true, None)
      else
        emit (EvSlog LevelInfo "目标SSID在扫描的网络中不可见"
                [("SSID", VString targetSSID); ("接口", VString interfaceName)]) ;;;
        ret (false, None)
  end.

(** The argument vector of the connect command. *)
Definition connectArgs (targetSSID interfaceName : string) : list string :=
  ["wlan"; "connect"; "name=" ++ Quote targetSSID; "interface=" ++ Quote interfaceName].

Definition connectToWifi (targetSSID interfaceName : string) : M (option error) :=
  emit (EvSlog LevelInfo "尝试连接到WiFi..."
          [("SSID", VString targetSSID); ("接口", VString interfaceName)]) ;;;
  res <- runNetshCommand (commandTimeout * 2)%Z (connectArgs targetSSID interfaceName) ;;
  let '(_, stderr, err) := res in
  match err with
  | Some e =>
      emit (EvSlog LevelError "连接命令发送失败"
              [("SSID", VString targetSSID); ("错误", VAny e); ("stderr", VString stderr)]) ;;;
      ret (Some (Errorf "netsh wlan connect 命令失败: %w" [ArgWrap e]))
  | None =>
      emit (EvSlog LevelInfo "连接命令已成功发送" [("SSID", VString targetSSID)]) ;;;
      ret None
  end.

Definition performCheckAndConnect (targetSSID interfaceName : string) : M unit :=
  emit (EvSlog LevelInfo "开始检查WiFi连接状态..."
          [("SSID", VString targetSSID); ("接口", VString interfaceName)]) ;;;
  status <- isConnected targetSSID interfaceName ;;
  let '(connected, err) := status in
  match err with
  | Some e => emit (EvSlog LevelError "检查连接状态时出错" [("错误", VAny e)])
  | None =>
      if connected then
        emit (EvSlog LevelInfo "已连接到目标WiFi" [("SSID", VString targetSSID)])
      else
        emit (EvSlog LevelWarn "未连接到目标WiFi，开始处理..." [("目标SSID", VString targetSSID)]) ;;;
        avail <- isNetworkAvailable targetSSID interfaceName ;;
        let '(networkVisible, availErr) := avail in
        match availErr with
        | Some e =>
            emit (EvSlog LevelError "检查网络可见性时出错"
                    [("SSID", VString targetSSID); ("错误", VAny e)])
        | None =>
            if networkVisible then
              emit (EvSlog LevelInfo "目标网络可见，尝试连接..." [("SSID", VString targetSSID)]) ;;;
              connectErr <- connectToWifi targetSSID interfaceName ;;
              match connectErr with
              | Some e =>
                  emit (EvSlog LevelError "连接尝试失败"
                          [("SSID", VString targetSSID); ("错误", VAny e)])
              | None =>
                  emit (EvSlog LevelInfo "连接命令已发送，将在下一个周期确认连接状态。" [])
              end
            else
              emit (EvSlog LevelWarn "目标网络当前不可见，跳过连接尝试。" [("SSID", VString targetSSID)])
        end
  end.

(** The loop of [main]: at each tick, one more pass. *)
Fixpoint tickerLoop (ticks : nat) (targetSSID interfaceName : string) : M Termination :=
  match ticks with
  | 0 => ret Killed
  | S ticks' =>
      currentTime <- tick ;;
      emit (EvSlog LevelDebug "定时检查触发" [("时间", VTime currentTime)]) ;;;
      performCheckAndConnect targetSSID interfaceName ;;;
      tickerLoop ticks' targetSSID interfaceName
  end.

(** [main], from the parsed flags on, while [ticks] ticks arrive.
    [flag.Duration] accepts every duration and nothing checks the interval:
    [time.NewTicker] panics when it is not positive, before the first
    pass. *)
Definition main (flags : Flags) (ticks : nat) : M Termination :=
  setupSlog (logFilePathFlag flags) (logLevelFlag flags) ;;;
  if targetSSIDFlag flags =? "" then
    emit (EvSlog LevelError "错误: 必须通过 -ssid 参数指定目标WiFi SSID" []) ;;;
    emit EvUsage ;;;
    ret (Exited 1)
  else
    emit (EvSlog LevelInfo "WiFi自动重连程序启动"
            [("目标SSID", VString (targetSSIDFlag flags));
             ("指定接口", VString (wifiInterfaceFlag flags));
             ("检查间隔", VDuration (checkIntervalFlag flags));
             ("日志级别", VLevel (logLevelFlag flags))]) ;;;
    resolved <-
      (if wifiInterfaceFlag flags =? "" then
         emit (EvSlog LevelInfo "未指定网络接口名称，尝试自动检测..." []) ;;;
         detected <- getWlanInterface ;;
         let '(name, err) := detected in
         match err with
         | Some e =>
             emit (EvSlog LevelError "无法自动检测无线网络接口，请使用 -interface 参数指定。"
                     [("错误", VAny e)]) ;;;
             ret None
         | None => ret (Some name)
         end
       else ret (Some (wifiInterfaceFlag flags))) ;;
    match resolved with
    | None => ret (Exited 1)
    | Some effectiveIfaceName =>
        emit (EvSlog LevelInfo "将使用网络接口" [("接口名称", VString effectiveIfaceName)]) ;;;
        if (checkIntervalFlag flags <=? 0)%Z then ret Panicked
        else
          emit (EvNewTicker (checkIntervalFlag flags)) ;;;
          performCheckAndConnect (targetSSIDFlag flags) effectiveIfaceName ;;;
          tickerLoop ticks (targetSSIDFlag flags) effectiveIfaceName
    end.

End Quoting.

End Slog.

(* ===================================================================== *)
(** * The status text as the specification reads it                       *)
(* ===================================================================== *)

(** Section 4.3 of the specification reads the status text as blocks, one
    per interface, each with a network name and a state.  These definitions
    follow its words; the theorems below compare them with the loops of the
    source. *)

Module StatusText.

Definition isSome {A} (o : option A) : bool :=
  match o with Some _ => true | None => false end.

(** The trimmed value after the first colon of a line that begins with the
    label. *)
Definition labelled (label line : string) : option string :=
  let t := TrimSpace line in
  if HasPrefix t label then
    match SplitN t colon 2 with
    | [_; value] => Some (TrimSpace value)
    | _ => None
    end
  else None.

(** The interface a line introduces, when it begins a block. *)
Definition blockStart (line : string) : option string := labelled "名称" line.

Definition startsBlockOf (iface line : string) : bool :=
  match blockStart line with
  | Some name => name =? iface
  | None => false
  end.

(** The network name a line gives: the line of the access-point identifier
    is no source of it. *)
Definition ssidValue (line : string) : option string :=
  if Contains (TrimSpace line) "AP BSSID" then None else labelled "SSID" line.

(** The state a line gives. *)
Definition stateValue (line : string) : option string := labelled "状态" line.

(** The value of a field in a block: that of the first line that gives
    one, the empty string when no line does. *)
Fixpoint fieldOf (field : string -> option string) (block : list string) : string :=
  match block with
  | [] => ""
  | line :: rest =>
      match field line with
      | Some v => v
      | None => fieldOf field rest
      end
  end.

(** Every value the lines of a block give for the field, in their order. *)
Fixpoint valuesOf (field : string -> option string) (block : list string) : list string :=
  match block with
  | [] => []
  | line :: rest =>
      match field line with
      | Some v => v :: valuesOf field rest
      | None => valuesOf field rest
      end
  end.

(** How many lines of a block give the field. *)
Fixpoint occurrences (field : string -> option string) (block : list string) : nat :=
  match block with
  | [] => 0
  | line :: rest => (if isSome (field line) then 1 else 0) + occurrences field rest
  end.

(** The lines of a block: those up to the next block start. *)
Fixpoint blockBody (rest : list string) : list string :=
  match rest with
  | [] => []
  | line :: rest' => if isSome (blockStart line) then [] else line :: blockBody rest'
  end.

(** The first block of the interface. *)
Fixpoint findBlock (iface : string) (lines : list string) : option (list string) :=
  match lines with
  | [] => None
  | line :: rest =>
      if startsBlockOf iface line then Some (blockBody rest) else findBlock iface rest
  end.

(** How many blocks the interface has. *)
Fixpoint blocksOf (iface : string) (lines : list string) : nat :=
  match lines with
  | [] => 0
  | line :: rest => (if startsBlockOf iface line then 1 else 0) + blocksOf iface rest
  end.

(** What the two values read so far say about the target: [Some true] is
    "connected to target", [Some false] is "present but not connected",
    [None] is no judgement yet.  [judge] is the rule of [src/main.go] and
    [src/unnamed/part_000]: the state must be populated for the second
    judgement. *)
Definition judge (target ssid state : string) : option bool :=
  if (ssid =? target) && (state =? "已连接") then Some true
  else if (ssid =? target) && negb (state =? "") && negb (state =? "已连接") then Some false
  else None.

(** The rule of the program of [src/README.md]: no judgement before both
    values are populated. *)
Definition judgePopulated (target ssid state : string) : option bool :=
  if negb (ssid =? "") && negb (state =? "") then
    if (ssid =? target) && (state =? "已连接") then Some true
    else if (ssid =? target) && negb (state =? "已连接") then Some false
    else None
  else None.

(** Where a reading of the text stands: inside a block of the interface or
    not, and the two values read in it. *)
Record reading : Type := mkReading {
  inside : bool;
  ssid : string;
  state : string }.

Definition readingStart : reading := mkReading false "" "".

Definition orElse (o : option string) (d : string) : string :=
  match o with Some v => v | None => d end.

(** Reading one line under a rule of judgement: the reading goes on
    ([inl]) or the judgement is given ([inr]). *)
Definition readLine (rule : string -> string -> option bool) (iface line : string)
    (r : reading) : reading + bool :=
  match blockStart line with
  | Some name =>
      if name =? iface then inl (mkReading true "" "")
      else inl (mkReading false (ssid r) (state r))
  | None =>
      if inside r then
        let s := orElse (ssidValue line) (ssid r) in
        let u := orElse (stateValue line) (state r) in
        match rule s u with
        | Some b => inr b
        | None => inl (mkReading true s u)
        end
      else inl r
  end.

(** Reading the lines in turn; the first judgement stands. *)
Fixpoint readLines (rule : string -> string -> option bool) (iface : string)
    (lines : list string) (r : reading) : reading + bool :=
  match lines with
  | [] => inl r
  | line :: rest =>
      match readLine rule iface line r with
      | inl r' => readLines rule iface rest r'
      | inr b => inr b
      end
  end.

(** The answer of a reading: "not connected" when no judgement was given. *)
Definition answer (x : reading + bool) : bool :=
  match x with inl _ => false | inr b => b end.

(** The lines that lie inside the blocks of the interface. *)
Fixpoint linesInside (iface : string) (inBlock : bool) (lines : list string) : list string :=
  match lines with
  | [] => []
  | line :: rest =>
      match blockStart line with
      | Some name => linesInside iface (name =? iface) rest
      | None =>
          if inBlock then line :: linesInside iface inBlock rest
          else linesInside iface inBlock rest
      end
  end.

(** The value of a line that names an interface in either spelling. *)
Definition nameValue (line : string) : option string :=
  let t := TrimSpace line in
  if HasPrefix t "名称" || HasPrefix t "Name" then
    match SplitN t colon 2 with
    | [_; value] => Some (TrimSpace value)
    | _ => None
    end
  else None.

(** The first value of a field that is not empty. *)
Fixpoint firstNonEmpty (field : string -> option string) (lines : list string) : option string :=
  match lines with
  | [] => None
  | line :: rest =>
      match field line with
      | Some v => if v =? "" then firstNonEmpty field rest else Some v
      | None => firstNonEmpty field rest
      end
  end.

(** No line of the text gives the field. *)
Definition silent (field : string -> option string) (lines : list string) : bool :=
  forallb (fun line => negb (isSome (field line))) lines.

(** No line of the text begins with the label. *)
Definition unlabelled (label : string) (lines : list string) : bool :=
  forallb (fun line => negb (HasPrefix (TrimSpace line) label)) lines.

(** The value of a line of the network list: the label is followed by a
    blank there. *)
Definition listEntrySSID (line : string) : option string := labelled "SSID " line.

(** A line of the network list names the target. *)
Definition entryIs (target line : string) : bool :=
  match listEntrySSID line with
  | Some v => v =? target
  | None => false
  end.

(** The standard error of a failed scan says that no network is visible, in
    one of the two recognized phrasings. *)
Definition saysNoNetworks (stderr : string) : bool :=
  Contains stderr "没有无线网络可见"
  || Contains stderr "No wireless networks are currently visible".

End StatusText.

Import StatusText.

(* ===================================================================== *)
(** * The loops of the source as readings                                 *)
(* ===================================================================== *)

(** The variables of the loop of [isConnected] are a reading, and a turn of
    the loop is the reading of a line. *)

Module Reads.

Definition ofMainGo (st : MainGo.scanState) : reading :=
  mkReading (MainGo.inTargetInterfaceBlock st) (MainGo.blockParsedSSID st)
            (MainGo.blockParsedState st).

Definition stepMainGo (x : MainGo.step) : reading + bool :=
  match x with
  | MainGo.Next st => inl (ofMainGo st)
  | MainGo.Return b => inr b
  end.

Definition ofSlog (st : Slog.scanState) : reading :=
  mkReading (Slog.inTargetInterfaceBlock st) (Slog.blockParsedSSID st)
            (Slog.blockParsedState st).

Definition stepSlog (x : Slog.step) : reading + bool :=
  match x with
  | Slog.Next st => inl (ofSlog st)
  | Slog.Return b _ _ => inr b
  end.

(** A reading is quiet when its two values call for no judgement. *)
Definition quiet (rule : string -> string -> option bool) (r : reading) : Prop :=
  rule (ssid r) (state r) = None.

(** A value is pending in a block when the block gives it at most once and
    nothing was read before the line that gives it. *)
Definition pending (field : string -> option string) (v : string) (block : list string) : Prop :=
  occurrences field block = 0 \/ (v = "" /\ occurrences field block <= 1).

(** The value of a field after a block, from the value before it. *)
Fixpoint fieldFrom (field : string -> option string) (v : string) (block : list string) : string :=
  match block with
  | [] => v
  | line :: rest =>
      match field line with
      | Some w => w
      | None => fieldFrom field v rest
      end
  end.

(** The record the scan loop of the program of [src/README.md] sends for an
    entry it looks at, and the one it sends when it has found the target. *)
Definition scannedRecord (v : string) : Event :=
  EvSlog LevelDebug "扫描到可见SSID" [("可见SSID", VString v)].

Definition visibleRecord (target iface : string) : Event :=
  EvSlog LevelInfo "目标SSID可见" [("SSID", VString target); ("接口", VString iface)].

(** A command of the runner came back in time with exit code zero. *)
Definition succeeded (r : ProcResult) : Prop :=
  procDeadlineExceeded r = false /\ procErr r = None.

(** The answer of a reading that judges the two values. *)
Definition judged (target s u : string) : bool :=
  match judge target s u with Some b => b | None => false end.

(** A command of the runner did not come back in time with exit code zero. *)
Definition failedRun (r : ProcResult) : bool :=
  procDeadlineExceeded r || isSome (procErr r).

(** The three outcomes of a command of the runner. *)
Inductive Outcome : Type :=
| OutcomeSuccess
| OutcomeFailure
| OutcomeTimeout.

(** The outcome, from what the environment gave. *)
Definition outcomeOf (r : ProcResult) : Outcome :=
  if procDeadlineExceeded r then OutcomeTimeout
  else if isSome (procErr r) then OutcomeFailure
  else OutcomeSuccess.

(** The outcome a caller reads off the error the runner returned: no
    error, the error of a passed deadline, any other error. *)
Definition outcomeRead (err : option error) : Outcome :=
  match err with
  | None => OutcomeSuccess
  | Some (Errorf format _) =>
      if format =? "命令 '%s' 执行超时 (%v)" then OutcomeTimeout else OutcomeFailure
  | Some _ => OutcomeFailure
  end.

(** A command is the connect command. *)
Definition isConnect (c : Command) : bool :=
  match cmdArgs c with
  | _ :: verb :: _ => verb =? "connect"
  | _ => false
  end.

(** Some of the events is a run of the connect command. *)
Definition connectRan (es : list Event) : bool :=
  existsb (fun cr => isConnect (fst cr)) (execs es).

(** Some of the events is a run of the scan command. *)
Definition scanRan (es : list Event) : bool :=
  existsb (fun cr => match cmdArgs (fst cr) with
                     | _ :: _ :: what :: _ => what =? "networks"
                     | _ => false
                     end) (execs es).

Definition isNone {A} (o : option A) : bool := negb (isSome o).

(** What the program of [src/README.md] does at a tick: the record of the
    tick, then one pass. *)
Definition Slog_atTick (Quote : string -> string) (target iface : string) (now : Z) : M unit :=
  bind (emit (EvSlog LevelDebug "定时检查触发" [("时间", VTime now)]))
       (fun _ => Slog.performCheckAndConnect Quote target iface).

(** The events of the start of [main] in the program of [src/README.md],
    when a target and an interface are given: the logger is set up, two
    records are sent and the ticker is started. *)
Definition Slog_startup (flags : Slog.Flags) (env : Env) (h : list Event) : list Event :=
  (snd (Slog.setupSlog (Slog.logFilePathFlag flags) (Slog.logLevelFlag flags) env h)
   ++ [EvSlog LevelInfo "WiFi自动重连程序启动"
         [("目标SSID", VString (Slog.targetSSIDFlag flags));
          ("指定接口", VString (Slog.wifiInterfaceFlag flags));
          ("检查间隔", VDuration (Slog.checkIntervalFlag flags));
          ("日志级别", VLevel (Slog.logLevelFlag flags))];
       EvSlog LevelInfo "将使用网络接口" [("接口名称", VString (Slog.wifiInterfaceFlag flags))];
       EvNewTicker (Slog.checkIntervalFlag flags)])%list.

(** The events of the start of [main] in [src/main.go]: the logger is set
    up, five lines are logged and the ticker is started. *)
Definition MainGo_startup (env : Env) (h : list Event) : list Event :=
  let logger := fst (MainGo.setupLogger env h) in
  (snd (MainGo.setupLogger env h)
   ++ [EvLogln logger [ArgString "INFO: Go Wi-Fi Auto Reconnect Program Started."];
       EvLogf logger "INFO: Target SSID: '%s'" [ArgString MainGo.targetSSID];
       EvLogf logger "INFO: Specified Wi-Fi Interface: '%s'" [ArgString MainGo.wifiInterfaceName];
       EvLogf logger "INFO: Check Interval: %v" [ArgDuration MainGo.checkInterval];
       EvLogf logger "INFO: Will use specified Wi-Fi interface: '%s'"
         [ArgString MainGo.wifiInterfaceName];
       EvNewTicker MainGo.checkInterval])%list.

(** The same in [src/unnamed/part_000]. *)
Definition Part000_startup (env : Env) (h : list Event) : list Event :=
  let logger := fst (Part000.setupLogger env h) in
  (snd (Part000.setupLogger env h)
   ++ [EvLogln logger [ArgString "INFO: Go Wi-Fi Auto Reconnect Program Started."];
       EvLogf logger "INFO: Target SSID: '%s'" [ArgString Part000.targetSSID];
       EvLogf logger "INFO: Specified Wi-Fi Interface: '%s'" [ArgString Part000.wifiInterfaceName];
       EvLogf logger "INFO: Check Interval: %v" [ArgDuration Part000.checkInterval];
       EvLogf logger "INFO: Will use specified Wi-Fi interface: '%s'"
         [ArgString Part000.wifiInterfaceName];
       EvNewTicker Part000.checkInterval])%list.

End Reads.

Import Reads.

(* ===================================================================== *)
(** * Sample texts and environments                                       *)
(* ===================================================================== *)

Module Samples.

Definition CRLF : string := bytes [13; 10].

(** A text of the given lines, as [netsh] ends them. *)
Definition text (lines : list string) : string := Join lines CRLF.

Definition ok (out : string) : ProcResult := mkProcResult out "" None false.

Definition exited (code : Z) (out stderr : string) : ProcResult :=
  mkProcResult out stderr (Some (ExitError code)) false.

(** The child was killed when the deadline passed. *)
Definition killed : ProcResult := mkProcResult "" "" (Some (ExitError 1)) true.

(** An environment that answers the status query, the scan and any other
    command with the given results, in which the log file opens and every
    tick carries the time 0. *)
Definition scripted (status scan other : ProcResult) : Env :=
  mkEnv
    (fun _ c =>
       match cmdArgs c with
       | _ :: _ :: what :: _ =>
           if what =? "interfaces" then status
           else if what =? "networks" then scan
           else other
       | _ => other
       end)
    (fun _ _ => None)
    (fun _ => 0%Z).

Definition always (r : ProcResult) : Env := scripted r r r.

Definition fileLogger : Logger :=
  mkLogger (ToFile MainGo.logFilePath) "WIFI_RECONNECT: " 3.

(** [strconv.Quote] on a text of printable ASCII bytes without quote or
    backslash: the text between two quotes. *)
Definition quotePlain (s : string) : string := dquote ++ s ++ dquote.

(** The status text of a Chinese Windows for one interface. *)
Definition statusOf (iface ssid stateText : string) : string :=
  text [ "";
         "系统上有 1 个接口:";
         "";
         "    名称                   : " ++ iface;
         "    描述                   : Intel(R) Wireless-AC 9560 160MHz";
         "    GUID                   : 0c2b6a5d-6b1c-4d5e-9d53-0f4c6a7b8c9d";
         "    物理地址               : 00:11:22:33:44:55";
         "    状态                   : " ++ stateText;
         "    SSID                   : " ++ ssid;
         "    BSSID                  : 66:77:88:99:aa:bb";
         "    网络类型               : 结构";
         "    无线电类型             : 802.11ac";
         "    信道                   : 149";
         "    信号                   : 99%";
         "    配置文件               : " ++ ssid;
         "";
         "    承载网络状态  : 不可用";
         "" ].

(** The same on an English Windows. *)
Definition statusEnglish (iface ssid : string) : string :=
  text [ "";
         "There is 1 interface on the system:";
         "";
         "    Name                   : " ++ iface;
         "    Description            : Intel(R) Wireless-AC 9560 160MHz";
         "    GUID                   : 0c2b6a5d-6b1c-4d5e-9d53-0f4c6a7b8c9d";
         "    Physical address       : 00:11:22:33:44:55";
         "    State                  : connected";
         "    SSID                   : " ++ ssid;
         "    BSSID                  : 66:77:88:99:aa:bb";
         "    Profile                : " ++ ssid;
         "";
         "    Hosted network status  : Not available";
         "" ].

(** The text of a scan that sees two networks. *)
Definition scanOf (iface ssid1 ssid2 : string) : string :=
  text [ "";
         "接口名称 : " ++ iface;
         "当前有 2 个网络可见。";
         "";
         "SSID 1 : " ++ ssid1;
         "    Network type            : 结构";
         "    身份验证                : WPA2 - 个人";
         "    加密                    : CCMP";
         "    BSSID 1                 : 66:77:88:99:aa:bb";
         "         信号               : 99%";
         "";
         "SSID 2 : " ++ ssid2;
         "    Network type            : 结构";
         "    身份验证                : WPA2 - 个人";
         "    加密                    : CCMP";
         "    BSSID 1                 : 66:77:88:99:aa:cc";
         "         信号               : 40%";
         "" ].

(** The lines of the first block of an interface in a text. *)
Definition blockIn (iface out : string) : list string :=
  match findBlock iface (Split out LF) with
  | Some body => body
  | None => []
  end.

(** A status text whose block gives the SSID three times. *)
Definition statusThreeSSIDs : string :=
  text [ "    名称                   : WLAN";
         "    状态                   : 已连接";
         "    SSID                   : neighbor_ap";
         "    SSID                   : home_5G";
         "    SSID                   : guest";
         "" ].

(** The lines of a block that gives its state before its SSID. *)
Definition beforeMarked : list string :=
  [ "    名称                   : WLAN";
    "    状态                   : 已连接";
    "    SSID                   : home_5G" ].

(** A line that carries the SSID label and the marker "AP BSSID", and one
    that carries the SSID label and the word "BSSID" without "AP " before
    it. *)
Definition markedLine : string := "    SSID / AP BSSID        : 66:77:88:99:aa:bb".

Definition unmarkedLine : string := "    SSID / BSSID           : 66:77:88:99:aa:bb".

(** A status text in which such a line stands between the SSID of the
    block and its state, given by the lines before that line and the lines
    after it: the loop of [isConnected] reads the line before it returns. *)
Definition upToSSID : list string :=
  [ "    名称                   : WLAN";
    "    SSID                   : home_5G" ].

Definition fromState : list string :=
  [ "    状态                   : 已连接";
    "    信道                   : 149"; "" ].

Definition lined (lines : list string) : string := Join lines (String LF "").

(** The standard error of a scan on an English and on a Chinese Windows
    when no network is in range. *)
Definition noNetworksEnglish : string :=
  "No wireless networks are currently visible." ++ CRLF.

Definition noNetworksChinese : string := "当前没有无线网络可见。" ++ CRLF.

Definition serviceStopped : string :=
  "The Wireless AutoConfig Service (wlansvc) is not running." ++ CRLF.

(** The flags of the example of the README, with the log on the console. *)
Definition sampleFlags : Slog.Flags :=
  Slog.mkFlags "home_5G" "WLAN" (30 * Second)%Z "" LevelDebug.

(** An environment in which the interface is on the target network. *)
Definition onTarget (ssid : string) : Env :=
  scripted (ok (statusOf "WLAN" ssid "已连接")) (ok (scanOf "WLAN" "neighbor_ap" ssid)) (ok "").


End Samples.

Import Samples.

(* ===================================================================== *)
(** * What a run of the program did                                       *)
(* ===================================================================== *)

Module Runs.

(** The commands among some events, oldest first. *)
Definition commands (es : list Event) : list Command := map fst (execs es).

(** Two argument vectors are the same. *)
Fixpoint sameArgs (a b : list string) : bool :=
  match a, b with
  | [], [] => true
  | x :: a', y :: b' => (x =? y) && sameArgs a' b'
  | _, _ => false
  end.

(** A command is the status query. *)
Definition isStatusQuery (c : Command) : bool :=
  sameArgs (cmdArgs c) ["wlan"; "show"; "interfaces"].

(** How many times the status query, and the connect command, were run. *)
Definition statusQueries (es : list Event) : nat :=
  length (filter isStatusQuery (commands es)).

Definition connects (es : list Event) : nat :=
  length (filter isConnect (commands es)).

(** The loggers made the default of [slog], and the files opened. *)
Fixpoint setDefaults (es : list Event) : list (LogDest * Level) :=
  match es with
  | [] => []
  | EvSetDefault dest lvl :: rest => (dest, lvl) :: setDefaults rest
  | _ :: rest => setDefaults rest
  end.

Fixpoint openedFiles (es : list Event) : list string :=
  match es with
  | [] => []
  | EvOpenFile path _ :: rest => path :: openedFiles rest
  | _ :: rest => openedFiles rest
  end.

(** The lines written to standard output with [fmt.Println]. *)
Fixpoint printlns (es : list Event) : list (list fmtArg) :=
  match es with
  | [] => []
  | EvPrintln args :: rest => args :: printlns rest
  | _ :: rest => printlns rest
  end.

(** The lines of a status text that belong to the interface: the lines
    that begin a block of it and the lines inside its blocks. *)
Fixpoint ownLines (iface : string) (inBlock : bool) (lines : list string) : list string :=
  match lines with
  | [] => []
  | line :: rest =>
      match blockStart line with
      | Some name =>
          if name =? iface then line :: ownLines iface true rest
          else ownLines iface false rest
      | None =>
          if inBlock then line :: ownLines iface true rest
          else ownLines iface false rest
      end
  end.

(** The exit code of a child that ended by itself with a code that is not
    zero, before the deadline (if it had one) had passed. *)
Definition exitCode (r : ProcResult) : option Z :=
  if procDeadlineExceeded r then None
  else match procErr r with
       | Some (ExitError code) => Some code
       | _ => None
       end.

(** The events of the start of [main] in the program of [src/README.md]
    when a target is given and no interface, up to the detection. *)
Definition Slog_beforeDetection (flags : Slog.Flags) (env : Env) (h : list Event) : list Event :=
  (snd (Slog.setupSlog (Slog.logFilePathFlag flags) (Slog.logLevelFlag flags) env h)
   ++ [EvSlog LevelInfo "WiFi自动重连程序启动"
         [("目标SSID", VString (Slog.targetSSIDFlag flags));
          ("指定接口", VString (Slog.wifiInterfaceFlag flags));
          ("检查间隔", VDuration (Slog.checkIntervalFlag flags));
          ("日志级别", VLevel (Slog.logLevelFlag flags))];
       EvSlog LevelInfo "未指定网络接口名称，尝试自动检测..." []])%list.

(** The interface [main] of the program of [src/README.md] works on: the
    one given with [-interface], or else the one its detection returns. *)
Definition Slog_effectiveInterface (flags : Slog.Flags) (env : Env) (h : list Event) : string :=
  if Slog.wifiInterfaceFlag flags =? "" then
    fst (fst (Slog.getWlanInterface env (h ++ Slog_beforeDetection flags env h)%list))
  else Slog.wifiInterfaceFlag flags.

(** The three commands of the program of [src/README.md]. *)
Definition Slog_status : Command :=
  mkCommand (Some Slog.commandTimeout) "netsh" ["wlan"; "show"; "interfaces"] true.

Definition Slog_scan (Quote : string -> string) (iface : string) : Command :=
  mkCommand (Some Slog.commandTimeout) "netsh" (Slog.scanArgs Quote iface) true.

Definition Slog_connect (Quote : string -> string) (target iface : string) : Command :=
  mkCommand (Some (Slog.commandTimeout * 2)%Z) "netsh" (Slog.connectArgs Quote target iface) true.

(** The three commands of [src/main.go]. *)
Definition MainGo_status : Command := MainGo.netsh ["wlan"; "show"; "interfaces"].

Definition MainGo_scan (iface : string) : Command :=
  MainGo.netsh ["wlan"; "show"; "networks"; "interface=" ++ dquote ++ iface ++ dquote; "mode=bssid"].

Definition MainGo_connect (target iface : string) : Command :=
  MainGo.netsh (MainGo.connectArgs target iface).

End Runs.

Import Runs.

(* ===================================================================== *)
(** * Facts about the string functions                                    *)
(* ===================================================================== *)

(** The string functions on lines of the kind [netsh] prints: a line with
    leading blanks and a carriage return, a text of three lines, and a
    value that has a colon of its own. *)
Example TrimSpace_sample :
  TrimSpace ("    SSID                   : qaz_5G" ++ bytes [13]) = "SSID                   : qaz_5G".
Proof. vm_compute. reflexivity. Qed.

Example Split_sample :
  Split ("a" ++ bytes [13; 10] ++ "b" ++ bytes [10]) LF = ["a" ++ bytes [13]; "b"; EmptyString].
Proof. vm_compute. reflexivity. Qed.

Example SplitN_sample :
  SplitN "BSSID 1 : 00:11:22:33:44:55" colon 2 = ["BSSID 1 "; " 00:11:22:33:44:55"]
  /\ SplitN "no colon here" colon 2 = ["no colon here"].
Proof. split; vm_compute; reflexivity. Qed.

Lemma splitAtMost_two (sep : ascii) (s : string) :
  splitAtMost sep 2 s = [s] \/ exists a b, splitAtMost sep 2 s = [a; b].
Proof.
  induction s as [|c s IH]; simpl.
  - now left.
  - destruct (Ascii.eqb c sep).
    + right. destruct s; simpl; eauto.
    + destruct IH as [-> | (a & b & ->)]; simpl; eauto.
Qed.

Lemma SplitN_two (s : string) :
  SplitN s colon 2 = [s] \/ exists a b, SplitN s colon 2 = [a; b].
Proof. apply splitAtMost_two. Qed.

Lemma Contains_colon_cons (c : ascii) (s : string) :
  Contains (String c s) ":" = Ascii.eqb c colon || Contains s ":".
Proof.
  cbn [Contains HasPrefix]. now rewrite andb_true_r.
Qed.

(** [SplitN] at the colon gives two pieces exactly when there is a colon. *)
Lemma SplitN_two_iff (s : string) :
  Contains s ":" = true <-> exists a b, SplitN s colon 2 = [a; b].
Proof.
  unfold SplitN. simpl Z.to_nat. cbn [Z.eqb Z.ltb Z.compare].
  induction s as [|c s IH].
  - simpl. split; [discriminate | intros (a & b & H); discriminate].
  - rewrite Contains_colon_cons.
    change (splitAtMost colon (Pos.to_nat 2) (String c s))
      with (if Ascii.eqb c colon then EmptyString :: splitAtMost colon 1 s
            else consHead c (splitAtMost colon 2 s)).
    destruct (Ascii.eqb c colon); simpl.
    + split; [intros _|reflexivity]. destruct s; simpl; eauto.
    + rewrite IH. change (Pos.to_nat 2) with 2.
      destruct (splitAtMost_two colon s) as [E | (a & b & E)]; rewrite E; simpl.
      * split; intros (a & b & H); discriminate.
      * split; intros _; eauto.
Qed.

Lemma SplitN_no_colon (s : string) :
  Contains s ":" = false -> SplitN s colon 2 = [s].
Proof.
  intros H. destruct (SplitN_two s) as [E | E]; [exact E|].
  apply SplitN_two_iff in E. congruence.
Qed.

Lemma HasPrefix_head (s q : string) (p : ascii) :
  HasPrefix s (String p q) = true -> exists s', s = String p s'.
Proof.
  destruct s as [|c s]; simpl; [discriminate|].
  intros H. apply andb_true_iff in H as [H _].
  apply Ascii.eqb_eq in H. subst c. eauto.
Qed.

(** Two labels that begin with different bytes exclude each other. *)
Lemma HasPrefix_clash (s q q' : string) (p p' : ascii) :
  p <> p' -> HasPrefix s (String p q) = true -> HasPrefix s (String p' q') = false.
Proof.
  intros Hne H. apply HasPrefix_head in H as (s' & ->). simpl.
  destruct (Ascii.eqb_spec p p') as [E|_]; [contradiction | reflexivity].
Qed.

Lemma name_not_SSID (t : string) :
  HasPrefix t "名称" = true -> HasPrefix t "SSID" = false.
Proof. apply HasPrefix_clash. discriminate. Qed.

Lemma name_not_state (t : string) :
  HasPrefix t "名称" = true -> HasPrefix t "状态" = false.
Proof. apply HasPrefix_clash. discriminate. Qed.

Lemma SSID_not_state (t : string) :
  HasPrefix t "SSID" = true -> HasPrefix t "状态" = false.
Proof. apply HasPrefix_clash. discriminate. Qed.

Lemma SSID_not_name (t : string) :
  HasPrefix t "SSID" = true -> HasPrefix t "名称" = false.
Proof. apply HasPrefix_clash. discriminate. Qed.

Lemma state_not_name (t : string) :
  HasPrefix t "状态" = true -> HasPrefix t "名称" = false.
Proof. apply HasPrefix_clash. discriminate. Qed.

(** ** The values a line gives, by its label *)

Lemma labelled_no_prefix (label line : string) :
  HasPrefix (TrimSpace line) label = false -> labelled label line = None.
Proof. unfold labelled. now intros ->. Qed.

Lemma labelled_Some_prefix (label line v : string) :
  labelled label line = Some v -> HasPrefix (TrimSpace line) label = true.
Proof.
  unfold labelled. destruct (HasPrefix (TrimSpace line) label); [reflexivity | discriminate].
Qed.

Lemma ssidValue_Some_prefix (line v : string) :
  ssidValue line = Some v -> HasPrefix (TrimSpace line) "SSID" = true.
Proof.
  unfold ssidValue. destruct (Contains (TrimSpace line) "AP BSSID"); [discriminate|].
  apply labelled_Some_prefix.
Qed.

(** A line gives at most one of: a block start, a network name, a state. *)
Lemma blockStart_excludes (line name : string) :
  blockStart line = Some name -> ssidValue line = None /\ stateValue line = None.
Proof.
  intros H. apply labelled_Some_prefix in H. split.
  - unfold ssidValue. destruct (Contains _ _); [reflexivity|].
    apply labelled_no_prefix. now apply name_not_SSID.
  - apply labelled_no_prefix. now apply name_not_state.
Qed.

Lemma name_prefix_excludes (line : string) :
  HasPrefix (TrimSpace line) "名称" = true -> ssidValue line = None /\ stateValue line = None.
Proof.
  intros H. split.
  - unfold ssidValue. destruct (Contains _ _); [reflexivity|].
    apply labelled_no_prefix. now apply name_not_SSID.
  - apply labelled_no_prefix. now apply name_not_state.
Qed.

Lemma ssidValue_excludes (line v : string) :
  ssidValue line = Some v -> stateValue line = None.
Proof.
  intros H. apply ssidValue_Some_prefix in H.
  apply labelled_no_prefix. now apply SSID_not_state.
Qed.

(* ===================================================================== *)
(** * The loop of [isConnected] reads the text as the specification does  *)
(* ===================================================================== *)

Lemma judge_start (target : string) : judge target "" "" = None.
Proof.
  unfold judge. cbn [String.eqb negb andb].
  now rewrite !andb_false_r.
Qed.

Lemma judgePopulated_start (target : string) : judgePopulated target "" "" = None.
Proof. reflexivity. Qed.

(** For a target that is not empty the two rules agree. *)
Lemma judgePopulated_judge (target s u : string) :
  target <> "" -> judgePopulated target s u = judge target s u.
Proof.
  intros Ht. unfold judgePopulated, judge.
  destruct (String.eqb_spec s target) as [->|Hs]; cbn [andb].
  - destruct (String.eqb_spec target "") as [E|_]; [contradiction|]. cbn [negb andb].
    destruct (String.eqb_spec u "已连接") as [->|Hu]; cbn [negb andb].
    + reflexivity.
    + now destruct (u =? "").
  - now destruct (negb (s =? "") && negb (u =? "")).
Qed.

(** Cases on every test of a goal about a rule of judgement. *)
Ltac by_judge :=
  unfold judge, judgePopulated in *;
  repeat match goal with
         | |- context [if ?c then _ else _] => destruct c
         | H : context [if ?c then _ else _] |- _ => destruct c
         end;
  try discriminate; try reflexivity.

(** One turn of the loop of [src/main.go] reads one line. *)
Lemma MainGo_body_reads (target iface line : string) (st : MainGo.scanState) :
  quiet (judge target) (ofMainGo st) ->
  stepMainGo (MainGo.isConnected_body target iface line st)
  = readLine (judge target) iface line (ofMainGo st).
Proof.
  intros Hq. unfold quiet in Hq. destruct st as [inb s u]. cbn in Hq.
  unfold MainGo.isConnected_body, readLine, blockStart, ssidValue, stateValue, labelled, ofMainGo.
  cbn [MainGo.inTargetInterfaceBlock MainGo.blockParsedSSID MainGo.blockParsedState
       inside ssid state].
  destruct (HasPrefix (TrimSpace line) "名称") eqn:Hname.
  - rewrite (name_not_SSID _ Hname), (name_not_state _ Hname).
    destruct (SplitN (TrimSpace line) colon 2) as [|a [|b [|c l]]]; cbn [stepMainGo ofMainGo orElse].
    1,2,4: destruct inb; cbn; rewrite ?Hq; try reflexivity;
           destruct (Contains (TrimSpace line) "AP BSSID"); cbn; now rewrite ?Hq.
    destruct (TrimSpace b =? iface); reflexivity.
  - destruct inb; [|reflexivity].
    destruct (HasPrefix (TrimSpace line) "SSID") eqn:Hssid.
    + rewrite (SSID_not_state _ Hssid). cbn [andb orElse].
      destruct (Contains (TrimSpace line) "AP BSSID"); cbn [negb orElse].
      * by_judge.
      * destruct (SplitN (TrimSpace line) colon 2) as [|a [|b [|c l]]]; cbn [orElse]; by_judge.
    + cbn [andb orElse].
      assert (E : (if Contains (TrimSpace line) "AP BSSID" then None else @None string) = None)
        by now destruct (Contains _ _).
      rewrite E. cbn [orElse].
      destruct (HasPrefix (TrimSpace line) "状态");
        [destruct (SplitN (TrimSpace line) colon 2) as [|a [|b [|c l]]]|]; cbn [orElse]; by_judge.
Qed.

(** One turn of the loop of the program of [src/README.md] reads one line. *)
Lemma Slog_body_reads (target iface line : string) (st : Slog.scanState) :
  quiet (judgePopulated target) (ofSlog st) ->
  stepSlog (Slog.isConnected_body target iface line st)
  = readLine (judgePopulated target) iface line (ofSlog st).
Proof.
  intros Hq. unfold quiet in Hq. destruct st as [inb s u]. cbn in Hq.
  unfold Slog.isConnected_body, readLine, blockStart, ssidValue, stateValue, labelled, ofSlog,
    Slog.keywordInterfaceName, Slog.keywordSSID, Slog.keywordState, Slog.keywordConnectedState.
  cbn [Slog.inTargetInterfaceBlock Slog.blockParsedSSID Slog.blockParsedState
       inside ssid state].
  destruct (Contains (TrimSpace line) ":") eqn:Hcolon.
  - apply SplitN_two_iff in Hcolon as (a & b & Hsplit). rewrite Hsplit.
    destruct (HasPrefix (TrimSpace line) "名称") eqn:Hname; cbn [andb].
    + destruct (TrimSpace b =? iface); reflexivity.
    + destruct inb; [|reflexivity].
      destruct (HasPrefix (TrimSpace line) "SSID") eqn:Hssid.
      * rewrite (SSID_not_state _ Hssid).
        destruct (Contains (TrimSpace line) "AP BSSID"); cbn [negb andb orElse]; by_judge.
      * cbn [andb].
        assert (E : (if Contains (TrimSpace line) "AP BSSID" then None else @None string) = None)
          by now destruct (Contains _ _).
        rewrite E.
        destruct (HasPrefix (TrimSpace line) "状态"); cbn [negb andb orElse]; by_judge.
  - rewrite (SplitN_no_colon _ Hcolon). rewrite !andb_false_r.
    destruct (HasPrefix (TrimSpace line) "名称"), (HasPrefix (TrimSpace line) "SSID"),
      (HasPrefix (TrimSpace line) "状态"), (Contains (TrimSpace line) "AP BSSID"), inb;
      cbn [andb negb orElse]; cbv beta iota; try reflexivity; by_judge.
Qed.

(** A quiet reading stays quiet while no judgement is given. *)
Lemma readLine_quiet rule (iface line : string) (r r' : reading) :
  rule "" "" = None -> quiet rule r ->
  readLine rule iface line r = inl r' -> quiet rule r'.
Proof.
  unfold readLine, quiet. intros H0 Hq.
  destruct (blockStart line) as [name|].
  - destruct (name =? iface); intros H; inversion H; subst; cbn; assumption.
  - destruct (inside r); [|intros H; inversion H; subst; assumption].
    destruct (rule (orElse _ _) (orElse _ _)) eqn:E; [discriminate|].
    intros H; inversion H; subst; cbn; assumption.
Qed.

Lemma MainGo_loop_reads (target iface : string) (lines : list string) :
  forall st, quiet (judge target) (ofMainGo st) ->
  stepMainGo (MainGo.isConnected_loop target iface lines st)
  = readLines (judge target) iface lines (ofMainGo st).
Proof.
  induction lines as [|line rest IH]; intros st Hq; [reflexivity|].
  cbn [MainGo.isConnected_loop readLines].
  rewrite <- (MainGo_body_reads target iface line st Hq).
  destruct (MainGo.isConnected_body target iface line st) as [st'|b] eqn:E; [|reflexivity].
  cbn [stepMainGo]. apply IH.
  apply (readLine_quiet _ iface line (ofMainGo st)); [apply judge_start | exact Hq |].
  rewrite <- (MainGo_body_reads target iface line st Hq), E. reflexivity.
Qed.

Lemma Slog_loop_reads (target iface : string) (lines : list string) :
  forall st, quiet (judgePopulated target) (ofSlog st) ->
  stepSlog (Slog.isConnected_loop target iface lines st)
  = readLines (judgePopulated target) iface lines (ofSlog st).
Proof.
  induction lines as [|line rest IH]; intros st Hq; [reflexivity|].
  cbn [Slog.isConnected_loop readLines].
  rewrite <- (Slog_body_reads target iface line st Hq).
  destruct (Slog.isConnected_body target iface line st) as [st'|b s u] eqn:E; [|reflexivity].
  cbn [stepSlog]. apply IH.
  apply (readLine_quiet _ iface line (ofSlog st)); [apply judgePopulated_start | exact Hq |].
  rewrite <- (Slog_body_reads target iface line st Hq), E. reflexivity.
Qed.

(** The reading depends on the rule through its values only. *)
Lemma readLines_ext rule rule' (iface : string) (lines : list string) :
  (forall s u, rule s u = rule' s u) ->
  forall r, readLines rule iface lines r = readLines rule' iface lines r.
Proof.
  intros Hext. induction lines as [|line rest IH]; intros r; [reflexivity|].
  cbn [readLines]. unfold readLine. rewrite Hext.
  destruct (blockStart line) as [name|].
  - destruct (name =? iface); apply IH.
  - destruct (inside r); [|apply IH].
    destruct (rule' _ _); [reflexivity | apply IH].
Qed.

(** ** Readings outside the blocks of the interface *)

Lemma readLines_outside rule (iface : string) (lines : list string) :
  forall r, inside r = false -> blocksOf iface lines = 0 ->
  exists r', readLines rule iface lines r = inl r' /\ inside r' = false
             /\ ssid r' = ssid r /\ state r' = state r.
Proof.
  induction lines as [|line rest IH]; intros r Hr Hn; cbn [readLines].
  - eauto.
  - cbn [blocksOf] in Hn. unfold readLine, startsBlockOf in *.
    destruct (blockStart line) as [name|].
    + destruct (name =? iface); [discriminate|].
      destruct (IH (mkReading false (ssid r) (state r)) eq_refl Hn) as (r' & -> & ? & ? & ?).
      eauto.
    + rewrite Hr. apply IH; assumption.
Qed.

(** ** The values a block gives *)

Lemma fieldFrom_absent field (v : string) (block : list string) :
  occurrences field block = 0 -> fieldFrom field v block = v.
Proof.
  induction block as [|line rest IH]; cbn [occurrences fieldFrom]; [reflexivity|].
  destruct (field line); cbn [isSome]; [discriminate | exact IH].
Qed.

Lemma fieldFrom_empty field (block : list string) :
  fieldFrom field "" block = fieldOf field block.
Proof.
  induction block as [|line rest IH]; cbn [fieldFrom fieldOf]; [reflexivity|].
  now destruct (field line).
Qed.

(** A value that is read is final: nothing pending can replace it. *)
Lemma pending_populated field (v : string) (block : list string) :
  pending field v block -> v <> "" -> fieldFrom field v block = v.
Proof.
  intros [H0 | [-> _]] Hv; [now apply fieldFrom_absent | contradiction].
Qed.

Lemma pending_step field (v line : string) (block : list string) :
  pending field v (line :: block) ->
  pending field (orElse (field line) v) block
  /\ fieldFrom field v (line :: block) = fieldFrom field (orElse (field line) v) block.
Proof.
  unfold pending. cbn [occurrences fieldFrom].
  destruct (field line) as [w|]; cbn [isSome orElse]; intros H.
  - assert (H0 : occurrences field block = 0) by lia.
    split; [now left | now rewrite fieldFrom_absent].
  - split; [exact H | reflexivity].
Qed.

Lemma judge_Some (target s u : string) (b : bool) :
  judge target s u = Some b -> s = target /\ u <> "".
Proof.
  unfold judge.
  destruct (String.eqb_spec s target) as [->|]; cbn [andb]; [|discriminate].
  destruct (String.eqb_spec u "已连接") as [->|]; cbn [negb andb].
  - intros _. split; [reflexivity | discriminate].
  - destruct (String.eqb_spec u "") as [->|]; cbn [negb]; [discriminate|].
    now intros _.
Qed.

Lemma judged_spec (target s u : string) :
  judged target s u = (s =? target) && (u =? "已连接").
Proof.
  unfold judged, judge. destruct ((s =? target) && (u =? "已连接")); [reflexivity|].
  now destruct ((s =? target) && negb (u =? "") && negb (u =? "已连接")).
Qed.

(** ** Reading a block that gives each value at most once *)

Lemma readLines_block (target iface : string) (rest : list string) :
  target <> "" ->
  forall s u,
    blocksOf iface rest = 0 ->
    judge target s u = None ->
    pending ssidValue s (blockBody rest) ->
    pending stateValue u (blockBody rest) ->
    answer (readLines (judge target) iface rest (mkReading true s u))
    = judged target (fieldFrom ssidValue s (blockBody rest))
                    (fieldFrom stateValue u (blockBody rest)).
Proof.
  intros Ht. induction rest as [|line rest IH]; intros s u Hn Hq Hs Hu.
  - cbn. unfold judged. now rewrite Hq.
  - cbn [readLines blockBody blocksOf] in *. unfold readLine, startsBlockOf in *.
    destruct (blockStart line) as [name|] eqn:Hstart; cbn [isSome] in *.
    + cbn [fieldFrom]. unfold judged. rewrite Hq.
      destruct (name =? iface); [discriminate|]. cbn [inside ssid state].
      destruct (readLines_outside (judge target) iface rest
                  (mkReading false s u) eq_refl Hn) as (r' & -> & _).
      reflexivity.
    + cbn [inside ssid state].
      apply pending_step in Hs as [Hs ->]. apply pending_step in Hu as [Hu ->].
      destruct (judge target (orElse (ssidValue line) s) (orElse (stateValue line) u))
        as [b|] eqn:J.
      * cbn [answer]. destruct (judge_Some _ _ _ _ J) as [Es Eu].
        rewrite (pending_populated _ _ _ Hs), (pending_populated _ _ _ Hu Eu).
        -- unfold judged. now rewrite J.
        -- rewrite Es. exact Ht.
      * apply IH; assumption.
Qed.

(** ** Reading a text that has one block of the interface *)

Lemma readLines_one_block (target iface : string) (lines : list string) :
  target <> "" ->
  forall r body,
    inside r = false ->
    findBlock iface lines = Some body ->
    blocksOf iface lines = 1 ->
    occurrences ssidValue body <= 1 ->
    occurrences stateValue body <= 1 ->
    answer (readLines (judge target) iface lines r)
    = (fieldOf ssidValue body =? target) && (fieldOf stateValue body =? "已连接").
Proof.
  intros Ht. induction lines as [|line rest IH]; intros r body Hr Hfind Hone Hs Hu.
  - discriminate.
  - cbn [readLines findBlock blocksOf] in *. unfold readLine.
    unfold startsBlockOf in *.
    destruct (blockStart line) as [name|].
    + destruct (name =? iface).
      * injection Hfind as <-.
        rewrite readLines_block; try assumption.
        -- now rewrite !fieldFrom_empty, judged_spec.
        -- lia.
        -- apply judge_start.
        -- right. now split.
        -- right. now split.
      * apply IH; try assumption. reflexivity.
    + rewrite Hr. apply IH; assumption.
Qed.

(* ===================================================================== *)
(** * What the functions return, from what their command gave             *)
(* ===================================================================== *)

(** Runs the computations of a goal. *)
Ltac run_m :=
  cbv beta iota zeta delta [bind ret run emit openFile tick];
  cbn [fst snd app execs].

(** The status query of the two older generations. *)
Lemma MainGo_isConnected_run (env : Env) (h : list Event) (lg : Logger)
    (target iface : string) :
  let c := MainGo.netsh ["wlan"; "show"; "interfaces"] in
  let r := respond env h c in
  snd (MainGo.isConnected (Some lg) target iface env h) = [EvExec c r]
  /\ (procErr r = None ->
      fst (MainGo.isConnected (Some lg) target iface env h)
      = (answer (readLines (judge target) iface (Split (procStdout r) LF) readingStart), None))
  /\ (procErr r <> None ->
      exists e, fst (MainGo.isConnected (Some lg) target iface env h) = (false, Some e)).
Proof.
  intros c r. unfold MainGo.isConnected. run_m. fold c. fold r.
  destruct (procErr r) as [err|] eqn:E.
  - run_m. split; [reflexivity|]. split; [discriminate|]. intros _. eauto.
  - pose proof (MainGo_loop_reads target iface (Split (procStdout r) LF) MainGo.scanStart
                  (judge_start target)) as L.
    change (ofMainGo MainGo.scanStart) with readingStart in L. rewrite <- L.
    destruct (MainGo.isConnected_loop target iface (Split (procStdout r) LF) MainGo.scanStart);
      run_m; (split; [reflexivity|]); (split; [reflexivity|]); intros H; now destruct H.
Qed.

(** The three outcomes of the command runner. *)
Lemma Slog_runNetshCommand_run (env : Env) (h : list Event) (timeout : Duration)
    (args : list string) :
  let c := mkCommand (Some timeout) "netsh" args true in
  let r := respond env h c in
  Slog.runNetshCommand timeout args env h
  = ((procStdout r, procStderr r,
      if procDeadlineExceeded r then
        Some (Errorf "命令 '%s' 执行超时 (%v)" [ArgString (Join args " "); ArgDuration timeout])
      else
        match procErr r with
        | Some err =>
            Some (Errorf "命令 '%s' 执行失败: %w, stderr: %s"
                    [ArgString (Join args " "); ArgWrap (OfRun err);
                     ArgString (TrimSpace (procStderr r))])
        | None => None
        end),
     [EvExec c r]).
Proof.
  intros c r. unfold Slog.runNetshCommand. run_m. fold c. fold r.
  destruct (procDeadlineExceeded r); [reflexivity|].
  destruct (procErr r); reflexivity.
Qed.

Lemma Slog_isConnected_run (env : Env) (h : list Event) (target iface : string) :
  let c := mkCommand (Some Slog.commandTimeout) "netsh" ["wlan"; "show"; "interfaces"] true in
  let r := respond env (h ++ [EvSlog LevelDebug "检查连接状态..."
                                [("目标SSID", VString target); ("接口", VString iface)]])%list c in
  execs (snd (Slog.isConnected target iface env h)) = [(c, r)]
  /\ (succeeded r ->
      fst (Slog.isConnected target iface env h)
      = (answer (readLines (judgePopulated target) iface (Split (procStdout r) LF) readingStart),
         None))
  /\ (~ succeeded r ->
      exists e, fst (Slog.isConnected target iface env h) = (false, Some e)).
Proof.
  intros c r. unfold Slog.isConnected, succeeded.
  cbv beta iota delta [bind emit]. rewrite Slog_runNetshCommand_run. fold c. fold r.
  cbv beta iota.
  destruct (procDeadlineExceeded r).
  { run_m. split; [reflexivity|]. split; [intros [H _]; discriminate|]. intros _. eauto. }
  destruct (procErr r) as [err|].
  { run_m. split; [reflexivity|]. split; [intros [_ H]; discriminate|]. intros _. eauto. }
  pose proof (Slog_loop_reads target iface (Split (procStdout r) LF) Slog.scanStart
                (judgePopulated_start target)) as L.
  change (ofSlog Slog.scanStart) with readingStart in L. rewrite <- L.
  destruct (Slog.isConnected_loop target iface (Split (procStdout r) LF) Slog.scanStart)
    as [st|[|] s u]; run_m;
    (split; [reflexivity|]); (split; [reflexivity|]); intros H; now destruct H.
Qed.

(* ===================================================================== *)
(** * The Status Parser                                                   *)
(* ===================================================================== *)

Lemma MainGo_isConnected_one_block (env : Env) (h : list Event) (lg : Logger)
    (target iface : string) (c : Command) (r : ProcResult) (body : list string) :
  execs (snd (MainGo.isConnected (Some lg) target iface env h)) = [(c, r)] ->
  procErr r = None ->
  (target =? "") = false ->
  findBlock iface (Split (procStdout r) LF) = Some body ->
  blocksOf iface (Split (procStdout r) LF) = 1 ->
  occurrences ssidValue body <= 1 ->
  occurrences stateValue body <= 1 ->
  fst (MainGo.isConnected (Some lg) target iface env h)
  = ((fieldOf ssidValue body =? target) && (fieldOf stateValue body =? "已连接"), None).
Proof.
  intros Hex Hok Ht Hfind Hone Hs Hu.
  destruct (MainGo_isConnected_run env h lg target iface) as (Hev & Hrun & _).
  rewrite Hev in Hex. cbn [execs] in Hex. injection Hex as <- <-.
  rewrite (Hrun Hok). f_equal.
  apply readLines_one_block; try assumption; [|reflexivity].
  intros ->. discriminate.
Qed.

Lemma Slog_isConnected_one_block (env : Env) (h : list Event)
    (target iface : string) (c : Command) (r : ProcResult) (body : list string) :
  execs (snd (Slog.isConnected target iface env h)) = [(c, r)] ->
  succeeded r ->
  (target =? "") = false ->
  findBlock iface (Split (procStdout r) LF) = Some body ->
  blocksOf iface (Split (procStdout r) LF) = 1 ->
  occurrences ssidValue body <= 1 ->
  occurrences stateValue body <= 1 ->
  fst (Slog.isConnected target iface env h)
  = ((fieldOf ssidValue body =? target) && (fieldOf stateValue body =? "已连接"), None).
Proof.
  intros Hex Hok Ht Hfind Hone Hs Hu.
  assert (Hne : target <> "") by (intros ->; discriminate).
  destruct (Slog_isConnected_run env h target iface) as (Hev & Hrun & _).
  rewrite Hev in Hex. injection Hex as <- <-.
  rewrite (Hrun Hok). f_equal.
  rewrite (readLines_ext _ (judge target)) by (intros; now apply judgePopulated_judge).
  apply readLines_one_block; try assumption. reflexivity.
Qed.

(** C1, as amended: when the target network name is not empty and the
    status text holds exactly one block of the requested interface, in
    which at most one line gives the SSID and at most one gives the state,
    [isConnected] (of [src/main.go] and of the program of [src/README.md])
    returns no error and returns [true] exactly when the SSID of the block
    equals the target and its state equals "已连接"; in particular it
    returns [(false, nil)] when the SSID equals the target and the state is
    populated with another value. *)
Theorem isConnected_judges_the_block :
  (forall env h lg target iface c r body,
      execs (snd (MainGo.isConnected (Some lg) target iface env h)) = [(c, r)] ->
      procErr r = None ->
      (target =? "") = false ->
      findBlock iface (Split (procStdout r) LF) = Some body ->
      blocksOf iface (Split (procStdout r) LF) = 1 ->
      occurrences ssidValue body <= 1 ->
      occurrences stateValue body <= 1 ->
      exists connected,
        fst (MainGo.isConnected (Some lg) target iface env h) = (connected, None)
        /\ (connected = true <->
            fieldOf ssidValue body = target /\ fieldOf stateValue body = "已连接")
        /\ (fieldOf ssidValue body = target -> fieldOf stateValue body <> "" ->
            fieldOf stateValue body <> "已连接" -> connected = false))
  /\
  (forall env h target iface c r body,
      execs (snd (Slog.isConnected target iface env h)) = [(c, r)] ->
      succeeded r ->
      (target =? "") = false ->
      findBlock iface (Split (procStdout r) LF) = Some body ->
      blocksOf iface (Split (procStdout r) LF) = 1 ->
      occurrences ssidValue body <= 1 ->
      occurrences stateValue body <= 1 ->
      exists connected,
        fst (Slog.isConnected target iface env h) = (connected, None)
        /\ (connected = true <->
            fieldOf ssidValue body = target /\ fieldOf stateValue body = "已连接")
        /\ (fieldOf ssidValue body = target -> fieldOf stateValue body <> "" ->
            fieldOf stateValue body <> "已连接" -> connected = false)).
Proof.
  assert (Hiff : forall s u target : string,
             ((s =? target) && (u =? "已连接") = true <-> s = target /\ u = "已连接")
             /\ (s = target -> u <> "" -> u <> "已连接" ->
                 (s =? target) && (u =? "已连接") = false)).
  { intros s u target. split.
    - rewrite andb_true_iff, !String.eqb_eq. reflexivity.
    - intros -> _ Hu. apply String.eqb_neq in Hu. rewrite Hu. apply andb_false_r. }
  split.
  - intros env h lg target iface c r body Hex Hok Ht Hfind Hone Hs Hu.
    eexists. split.
    + eapply MainGo_isConnected_one_block; eassumption.
    + apply Hiff.
  - intros env h target iface c r body Hex Hok Ht Hfind Hone Hs Hu.
    eexists. split.
    + eapply Slog_isConnected_one_block; eassumption.
    + apply Hiff.
Qed.

Example isConnected_scenario_connected :
  fst (MainGo.isConnected (Some fileLogger) "home_5G" "WLAN"
         (always (ok (statusOf "WLAN" "home_5G" "已连接"))) [])
  = (true, None)
  /\ fst (Slog.isConnected "home_5G" "WLAN"
            (always (ok (statusOf "WLAN" "home_5G" "已连接"))) [])
     = (true, None).
Proof. split; vm_compute; reflexivity. Qed.

Example isConnected_scenario_other_network :
  fst (MainGo.isConnected (Some fileLogger) "home_5G" "WLAN"
         (always (ok (statusOf "WLAN" "neighbor_ap" "已连接"))) [])
  = (false, None)
  /\ fst (Slog.isConnected "home_5G" "WLAN"
            (always (ok (statusOf "WLAN" "neighbor_ap" "已连接"))) [])
     = (false, None).
Proof. split; vm_compute; reflexivity. Qed.

(** The sample text with a connected interface meets the conditions of
    [isConnected_judges_the_block], for both programs. *)
Lemma isConnected_judges_the_block_witness :
  (findBlock "WLAN" (Split (statusOf "WLAN" "home_5G" "已连接") LF)
   = Some (blockIn "WLAN" (statusOf "WLAN" "home_5G" "已连接"))
   /\ blocksOf "WLAN" (Split (statusOf "WLAN" "home_5G" "已连接") LF) = 1
   /\ occurrences ssidValue (blockIn "WLAN" (statusOf "WLAN" "home_5G" "已连接")) = 1
   /\ occurrences stateValue (blockIn "WLAN" (statusOf "WLAN" "home_5G" "已连接")) = 1)
  /\ (exists connected,
        fst (MainGo.isConnected (Some fileLogger) "home_5G" "WLAN"
               (always (ok (statusOf "WLAN" "home_5G" "已连接"))) [])
        = (connected, None)
        /\ (connected = true <->
            fieldOf ssidValue (blockIn "WLAN" (statusOf "WLAN" "home_5G" "已连接")) = "home_5G"
            /\ fieldOf stateValue (blockIn "WLAN" (statusOf "WLAN" "home_5G" "已连接")) = "已连接")
        /\ (fieldOf ssidValue (blockIn "WLAN" (statusOf "WLAN" "home_5G" "已连接")) = "home_5G" ->
            fieldOf stateValue (blockIn "WLAN" (statusOf "WLAN" "home_5G" "已连接")) <> "" ->
            fieldOf stateValue (blockIn "WLAN" (statusOf "WLAN" "home_5G" "已连接")) <> "已连接" ->
            connected = false))
  /\ (exists connected,
        fst (Slog.isConnected "home_5G" "WLAN"
               (always (ok (statusOf "WLAN" "home_5G" "已连接"))) [])
        = (connected, None)
        /\ (connected = true <->
            fieldOf ssidValue (blockIn "WLAN" (statusOf "WLAN" "home_5G" "已连接")) = "home_5G"
            /\ fieldOf stateValue (blockIn "WLAN" (statusOf "WLAN" "home_5G" "已连接")) = "已连接")
        /\ (fieldOf ssidValue (blockIn "WLAN" (statusOf "WLAN" "home_5G" "已连接")) = "home_5G" ->
            fieldOf stateValue (blockIn "WLAN" (statusOf "WLAN" "home_5G" "已连接")) <> "" ->
            fieldOf stateValue (blockIn "WLAN" (statusOf "WLAN" "home_5G" "已连接")) <> "已连接" ->
            connected = false)).
Proof.
  split; [repeat split; vm_compute; reflexivity|].
  split.
  - apply (proj1 isConnected_judges_the_block
             (always (ok (statusOf "WLAN" "home_5G" "已连接"))) [] fileLogger "home_5G" "WLAN"
             (MainGo.netsh ["wlan"; "show"; "interfaces"])
             (ok (statusOf "WLAN" "home_5G" "已连接")));
      vm_compute; solve [reflexivity | lia].
  - apply (proj2 isConnected_judges_the_block
             (always (ok (statusOf "WLAN" "home_5G" "已连接"))) [] "home_5G" "WLAN"
             (mkCommand (Some Slog.commandTimeout) "netsh" ["wlan"; "show"; "interfaces"] true)
             (ok (statusOf "WLAN" "home_5G" "已连接")));
      vm_compute; solve [reflexivity | lia | split; reflexivity].
Defined.

(** C1 as it is stated fails in three ways.  With an empty target
    [isConnected] of [src/main.go] answers "connected" at the state line of
    a block whose SSID is another network; with an empty target that of
    [src/README.md] answers "not connected" for a block whose SSID is the
    (empty) target and whose state is "已连接"; and when a block gives the
    SSID several times the answer follows the value that completes a
    judgement first, here the second of three, which is neither the first
    nor the last value of the block. *)
Lemma isConnected_block_counterexample :
  (fst (MainGo.isConnected (Some fileLogger) "" "WLAN"
          (always (ok (statusOf "WLAN" "neighbor_ap" "已连接"))) [])
   = (true, None)
   /\ blocksOf "WLAN" (Split (statusOf "WLAN" "neighbor_ap" "已连接") LF) = 1
   /\ fieldOf ssidValue (blockIn "WLAN" (statusOf "WLAN" "neighbor_ap" "已连接")) = "neighbor_ap"
   /\ fieldOf stateValue (blockIn "WLAN" (statusOf "WLAN" "neighbor_ap" "已连接")) = "已连接")
  /\
  (fst (Slog.isConnected "" "WLAN" (always (ok (statusOf "WLAN" "" "已连接"))) [])
   = (false, None)
   /\ blocksOf "WLAN" (Split (statusOf "WLAN" "" "已连接") LF) = 1
   /\ fieldOf ssidValue (blockIn "WLAN" (statusOf "WLAN" "" "已连接")) = ""
   /\ fieldOf stateValue (blockIn "WLAN" (statusOf "WLAN" "" "已连接")) = "已连接")
  /\
  (fst (MainGo.isConnected (Some fileLogger) "home_5G" "WLAN" (always (ok statusThreeSSIDs)) [])
   = (true, None)
   /\ fst (Slog.isConnected "home_5G" "WLAN" (always (ok statusThreeSSIDs)) []) = (true, None)
   /\ blocksOf "WLAN" (Split statusThreeSSIDs LF) = 1
   /\ fieldOf ssidValue (blockIn "WLAN" statusThreeSSIDs) = "neighbor_ap"
   /\ valuesOf ssidValue (blockIn "WLAN" statusThreeSSIDs) = ["neighbor_ap"; "home_5G"; "guest"]
   /\ valuesOf stateValue (blockIn "WLAN" statusThreeSSIDs) = ["已连接"]).
Proof. repeat split; vm_compute; reflexivity. Qed.

(** ** Texts without a block of the interface, blocks without values *)

Lemma readLines_absent rule (iface : string) (lines : list string) :
  blocksOf iface lines = 0 ->
  answer (readLines rule iface lines readingStart) = false.
Proof.
  intros H.
  destruct (readLines_outside rule iface lines readingStart eq_refl H) as (r' & -> & _).
  reflexivity.
Qed.


Lemma readLines_unpopulated rule (iface : string) (lines : list string) :
  rule "" "" = None ->
  forall r,
    (inside r = true -> ssid r = "" /\ state r = "") ->
    silent ssidValue (linesInside iface (inside r) lines) = true ->
    silent stateValue (linesInside iface (inside r) lines) = true ->
    answer (readLines rule iface lines r) = false.
Proof.
  intros H0. unfold silent.
  induction lines as [|line rest IH]; intros r Hr Hs Hu; [reflexivity|].
  cbn [readLines linesInside] in *. unfold readLine.
  destruct (blockStart line) as [name|].
  - destruct (name =? iface); apply IH; cbn [inside ssid state]; try assumption.
    + now intros _.
    + discriminate.
  - destruct (inside r) eqn:Hin; [|apply IH; rewrite ?Hin; assumption].
    cbn [forallb] in Hs, Hu.
    apply andb_true_iff in Hs as [Hs Hs']. apply andb_true_iff in Hu as [Hu Hu'].
    destruct (ssidValue line); [discriminate|]. destruct (stateValue line); [discriminate|].
    cbn [orElse]. destruct (Hr eq_refl) as [-> ->]. rewrite H0.
    apply IH; cbn [inside ssid state]; auto.
Qed.

(** ** The line of the access-point identifier *)

(** Reading a line that gives nothing leaves a quiet reading as it is. *)
Lemma readLine_mute rule (iface line : string) (r : reading) :
  quiet rule r ->
  blockStart line = None -> ssidValue line = None -> stateValue line = None ->
  readLine rule iface line r = inl r.
Proof.
  unfold quiet, readLine. intros Hq -> -> ->. cbn [orElse]. rewrite Hq.
  destruct r as [[|] s u]; reflexivity.
Qed.

Lemma readLines_quiet rule (iface : string) (lines : list string) :
  rule "" "" = None ->
  forall r r', quiet rule r -> readLines rule iface lines r = inl r' -> quiet rule r'.
Proof.
  intros H0. induction lines as [|line rest IH]; intros r r' Hq; cbn [readLines].
  - intros H; inversion H; subst; assumption.
  - destruct (readLine rule iface line r) as [r1|b] eqn:E; [|discriminate].
    apply IH. eapply readLine_quiet; eassumption.
Qed.

Lemma readLines_app rule (iface : string) (pre post : list string) (r : reading) :
  readLines rule iface (pre ++ post) r
  = match readLines rule iface pre r with
    | inl r' => readLines rule iface post r'
    | inr b => inr b
    end.
Proof.
  revert r. induction pre as [|line rest IH]; intros r; cbn [readLines app]; [reflexivity|].
  destruct (readLine rule iface line r); [apply IH | reflexivity].
Qed.

(** A line that carries the SSID label and the marker "AP BSSID" gives
    nothing. *)
Lemma marked_line_gives_nothing (line : string) :
  HasPrefix (TrimSpace line) "SSID" = true ->
  Contains (TrimSpace line) "AP BSSID" = true ->
  blockStart line = None /\ ssidValue line = None /\ stateValue line = None.
Proof.
  intros Hp Hm. repeat split.
  - apply labelled_no_prefix. now apply SSID_not_name.
  - unfold ssidValue. now rewrite Hm.
  - apply labelled_no_prefix. now apply SSID_not_state.
Qed.

(** Leaving such a line out of the text changes nothing. *)
Lemma readLines_without_marked_line rule (iface line : string) (pre post : list string) :
  rule "" "" = None ->
  HasPrefix (TrimSpace line) "SSID" = true ->
  Contains (TrimSpace line) "AP BSSID" = true ->
  readLines rule iface (pre ++ line :: post) readingStart
  = readLines rule iface (pre ++ post) readingStart.
Proof.
  intros H0 Hp Hm. rewrite !readLines_app.
  destruct (readLines rule iface pre readingStart) as [r|b] eqn:E; [|reflexivity].
  cbn [readLines].
  destruct (marked_line_gives_nothing line Hp Hm) as (Hb & Hs & Hu).
  rewrite readLine_mute; try assumption; [reflexivity|].
  eapply readLines_quiet; [exact H0 | | exact E]. exact H0.
Qed.

(** C3, as amended: a line that carries the SSID label and also contains
    the text "AP BSSID", the marker the code tests, is no source of the
    SSID.  A turn of the loop of [isConnected] on such a line leaves
    [blockParsedSSID] as it was, a [return] taken at that line reports the
    SSID read before it, and the answer of [isConnected] is the one it gives
    for the text without that line; in [src/main.go] and in the program of
    [src/README.md].  Every other line that carries the SSID label and has a
    colon is a source of the SSID, a line that contains "BSSID" without
    "AP " before it too: inside a block of the interface, a turn of the loop
    on it leaves its value in [blockParsedSSID], and a [return] taken at it
    judges that value. *)
Theorem marked_SSID_line_is_ignored :
  (forall target iface line : string,
    HasPrefix (TrimSpace line) "SSID" = true ->
    Contains (TrimSpace line) "AP BSSID" = true ->
    (forall st st',
        MainGo.isConnected_body target iface line st = MainGo.Next st' ->
        MainGo.blockParsedSSID st' = MainGo.blockParsedSSID st)
    /\ (forall st,
          match Slog.isConnected_body target iface line st with
          | Slog.Next st' => Slog.blockParsedSSID st' = Slog.blockParsedSSID st
          | Slog.Return _ ssid _ => ssid = Slog.blockParsedSSID st
          end)
    /\ (forall env h env' h' lg pre post,
          let r := respond env h MainGo_status in
          let r' := respond env' h' MainGo_status in
          procErr r = None -> procErr r' = None ->
          Split (procStdout r) LF = (pre ++ line :: post)%list ->
          Split (procStdout r') LF = (pre ++ post)%list ->
          execs (snd (MainGo.isConnected (Some lg) target iface env h)) = [(MainGo_status, r)]
          /\ fst (MainGo.isConnected (Some lg) target iface env h)
             = fst (MainGo.isConnected (Some lg) target iface env' h'))
    /\ (forall env h env' h' pre post,
          let r := respond env
                     (h ++ [EvSlog LevelDebug "检查连接状态..."
                              [("目标SSID", VString target); ("接口", VString iface)]])%list
                     Slog_status in
          let r' := respond env'
                      (h' ++ [EvSlog LevelDebug "检查连接状态..."
                                [("目标SSID", VString target); ("接口", VString iface)]])%list
                      Slog_status in
          succeeded r -> succeeded r' ->
          Split (procStdout r) LF = (pre ++ line :: post)%list ->
          Split (procStdout r') LF = (pre ++ post)%list ->
          execs (snd (Slog.isConnected target iface env h)) = [(Slog_status, r)]
          /\ fst (Slog.isConnected target iface env h)
             = fst (Slog.isConnected target iface env' h')))
  /\
  (forall target iface line label value : string,
    HasPrefix (TrimSpace line) "SSID" = true ->
    Contains (TrimSpace line) "AP BSSID" = false ->
    SplitN (TrimSpace line) colon 2 = [label; value] ->
    (forall st,
        MainGo.inTargetInterfaceBlock st = true ->
        match MainGo.isConnected_body target iface line st with
        | MainGo.Next st' => MainGo.blockParsedSSID st' = TrimSpace value
        | MainGo.Return _ => TrimSpace value = target
        end)
    /\ (forall st,
          Slog.inTargetInterfaceBlock st = true ->
          match Slog.isConnected_body target iface line st with
          | Slog.Next st' => Slog.blockParsedSSID st' = TrimSpace value
          | Slog.Return _ ssid _ => ssid = TrimSpace value /\ ssid = target
          end)).
Proof.
  split.
  { intros target iface line Hp Hm. split; [|split; [|split]].
  - intros st st'. unfold MainGo.isConnected_body.
    rewrite (SSID_not_name _ Hp), Hp, Hm, (SSID_not_state _ Hp). cbn [andb negb].
    destruct (MainGo.inTargetInterfaceBlock st); [|intros H; inversion H; reflexivity].
    repeat match goal with |- context [if ?c then _ else _] => destruct c end;
      intros H; inversion H; reflexivity.
  - intros st. unfold Slog.isConnected_body, Slog.keywordInterfaceName, Slog.keywordSSID,
      Slog.keywordState.
    rewrite (SSID_not_name _ Hp), Hp, Hm, (SSID_not_state _ Hp). cbn [andb negb].
    destruct (Slog.inTargetInterfaceBlock st); [|reflexivity].
    repeat match goal with |- context [if ?c then _ else _] => destruct c end; reflexivity.
  - intros env h env' h' lg pre post r r' Hok Hok' Hl Hl'.
    destruct (MainGo_isConnected_run env h lg target iface) as (Hev & Hrun & _).
    destruct (MainGo_isConnected_run env' h' lg target iface) as (_ & Hrun' & _).
    split; [rewrite Hev; reflexivity|].
    unfold r, r', MainGo_status in *.
    rewrite (Hrun Hok), (Hrun' Hok'), Hl, Hl'.
    now rewrite (readLines_without_marked_line _ _ _ _ _ (judge_start target) Hp Hm).
  - intros env h env' h' pre post r r' Hok Hok' Hl Hl'.
    destruct (Slog_isConnected_run env h target iface) as (Hev & Hrun & _).
    destruct (Slog_isConnected_run env' h' target iface) as (_ & Hrun' & _).
    split; [exact Hev|].
    unfold r, r', Slog_status in *.
    rewrite (Hrun Hok), (Hrun' Hok'), Hl, Hl'.
    now rewrite (readLines_without_marked_line _ _ _ _ _ (judgePopulated_start target) Hp Hm). }
  intros target iface line label value Hp Hm Hsplit.
  assert (Hc : Contains (TrimSpace line) ":" = true) by (apply SplitN_two_iff; eauto).
  split.
  - intros st Hin. unfold MainGo.isConnected_body.
    rewrite (SSID_not_name _ Hp), Hp, Hm, (SSID_not_state _ Hp), Hsplit, Hin.
    cbn [andb negb].
    destruct (TrimSpace value =? target) eqn:E; cbn [andb].
    + apply String.eqb_eq in E.
      repeat match goal with |- context [if ?c then _ else _] => destruct c end;
        solve [exact E | reflexivity].
    + reflexivity.
  - intros st Hin. unfold Slog.isConnected_body, Slog.keywordInterfaceName, Slog.keywordSSID,
      Slog.keywordState.
    rewrite (SSID_not_name _ Hp), Hp, Hm, Hc, Hsplit, Hin. cbn [andb negb].
    destruct (negb (TrimSpace value =? "") && negb (Slog.blockParsedState st =? ""));
      [|reflexivity].
    destruct (TrimSpace value =? target) eqn:E; cbn [andb]; [|reflexivity].
    apply String.eqb_eq in E.
    repeat match goal with |- context [if ?c then _ else _] => destruct c end;
      solve [now split | reflexivity].
Qed.

(** A text with a marked line between the SSID of the block and its state,
    and the text without it: the loop reads the line, and the answer is
    [true] on both. *)
Lemma marked_SSID_line_is_ignored_witness :
  (HasPrefix (TrimSpace markedLine) "SSID" = true
   /\ Contains (TrimSpace markedLine) "AP BSSID" = true)
  /\ (fst (MainGo.isConnected (Some fileLogger) "home_5G" "WLAN"
             (always (ok (lined (upToSSID ++ markedLine :: fromState)%list))) [])
      = fst (MainGo.isConnected (Some fileLogger) "home_5G" "WLAN"
               (always (ok (lined (upToSSID ++ fromState)%list))) [])
      /\ fst (MainGo.isConnected (Some fileLogger) "home_5G" "WLAN"
                (always (ok (lined (upToSSID ++ fromState)%list))) []) = (true, None))
  /\ (fst (Slog.isConnected "home_5G" "WLAN"
             (always (ok (lined (upToSSID ++ markedLine :: fromState)%list))) [])
      = fst (Slog.isConnected "home_5G" "WLAN"
               (always (ok (lined (upToSSID ++ fromState)%list))) [])
      /\ fst (Slog.isConnected "home_5G" "WLAN"
                (always (ok (lined (upToSSID ++ fromState)%list))) []) = (true, None)).
Proof.
  split; [split; vm_compute; reflexivity|].
  pose proof (proj1 marked_SSID_line_is_ignored "home_5G" "WLAN" markedLine eq_refl eq_refl)
    as (_ & _ & HM & HS).
  split; (split; [|vm_compute; reflexivity]).
  - apply (HM (always (ok (lined (upToSSID ++ markedLine :: fromState)%list))) []
              (always (ok (lined (upToSSID ++ fromState)%list))) [] fileLogger
              upToSSID fromState); vm_compute; reflexivity.
  - apply (HS (always (ok (lined (upToSSID ++ markedLine :: fromState)%list))) []
              (always (ok (lined (upToSSID ++ fromState)%list))) []
              upToSSID fromState); vm_compute; solve [reflexivity | split; reflexivity].
Defined.

(** C3 as it is stated fails: a line that carries the SSID label and
    contains "BSSID", but not "AP BSSID", is taken as a source of the SSID.
    Between the SSID of the block and its state, it replaces the SSID, and
    [isConnected] answers [false] where it answers [true] without the line;
    and when the value of the line is the target, [isConnected] answers
    [true] on a block that gives no other SSID. *)
Lemma marked_SSID_line_counterexample :
  (HasPrefix (TrimSpace unmarkedLine) "SSID" = true
   /\ Contains (TrimSpace unmarkedLine) "BSSID" = true
   /\ ssidValue unmarkedLine = Some "66:77:88:99:aa:bb")
  /\ (fst (MainGo.isConnected (Some fileLogger) "home_5G" "WLAN"
             (always (ok (lined (upToSSID ++ unmarkedLine :: fromState)%list))) [])
      = (false, None)
      /\ fst (MainGo.isConnected (Some fileLogger) "home_5G" "WLAN"
                (always (ok (lined (upToSSID ++ fromState)%list))) [])
         = (true, None)
      /\ fst (MainGo.isConnected (Some fileLogger) "66:77:88:99:aa:bb" "WLAN"
                (always (ok (lined ("    名称                   : WLAN"
                                    :: unmarkedLine :: fromState)))) [])
         = (true, None))
  /\ (fst (Slog.isConnected "home_5G" "WLAN"
             (always (ok (lined (upToSSID ++ unmarkedLine :: fromState)%list))) [])
      = (false, None)
      /\ fst (Slog.isConnected "home_5G" "WLAN"
                (always (ok (lined (upToSSID ++ fromState)%list))) [])
         = (true, None)
      /\ fst (Slog.isConnected "66:77:88:99:aa:bb" "WLAN"
                (always (ok (lined ("    名称                   : WLAN"
                                    :: unmarkedLine :: fromState)))) [])
         = (true, None)).
Proof. repeat split; vm_compute; reflexivity. Qed.

Example marked_line_would_change_the_SSID :
  labelled "SSID" markedLine = Some "66:77:88:99:aa:bb" /\ ssidValue markedLine = None.
Proof. split; reflexivity. Qed.

Example only_the_whole_marker_excludes :
  ssidValue "SSID beside BSSID : home_5G" = Some "home_5G"
  /\ ssidValue "SSID beside AP BSSID : home_5G" = None.
Proof. split; vm_compute; reflexivity. Qed.



(** Without a logger [isConnected] of [src/main.go] runs no command. *)
Lemma MainGo_isConnected_nil_logger (env : Env) (h : list Event) (target iface : string) :
  execs (snd (MainGo.isConnected None target iface env h)) = []
  /\ exists e, fst (MainGo.isConnected None target iface env h) = (false, Some e).
Proof. split; [reflexivity|]. eexists. reflexivity. Qed.

(** C4: when the status command has been run and has succeeded,
    [isConnected] returns no error, whatever the text; and it returns
    [(false, nil)] when the text has no block of the interface, and when no
    line inside the blocks of the interface gives an SSID or a state.  In
    [src/main.go] (whose text of [isConnected] is that of
    [src/unnamed/part_000]), with or without a logger, and in the program
    of [src/README.md]. *)
Theorem isConnected_success_is_no_error :
  (forall env h logger target iface c r,
      execs (snd (MainGo.isConnected logger target iface env h)) = [(c, r)] ->
      procErr r = None ->
      snd (fst (MainGo.isConnected logger target iface env h)) = None
      /\ (blocksOf iface (Split (procStdout r) LF) = 0 ->
          fst (MainGo.isConnected logger target iface env h) = (false, None))
      /\ (silent ssidValue (linesInside iface false (Split (procStdout r) LF)) = true ->
          silent stateValue (linesInside iface false (Split (procStdout r) LF)) = true ->
          fst (MainGo.isConnected logger target iface env h) = (false, None)))
  /\
  (forall env h target iface c r,
      execs (snd (Slog.isConnected target iface env h)) = [(c, r)] ->
      succeeded r ->
      snd (fst (Slog.isConnected target iface env h)) = None
      /\ (blocksOf iface (Split (procStdout r) LF) = 0 ->
          fst (Slog.isConnected target iface env h) = (false, None))
      /\ (silent ssidValue (linesInside iface false (Split (procStdout r) LF)) = true ->
          silent stateValue (linesInside iface false (Split (procStdout r) LF)) = true ->
          fst (Slog.isConnected target iface env h) = (false, None))).
Proof.
  split.
  - intros env h [lg|] target iface c r Hex Hok;
      [|destruct (MainGo_isConnected_nil_logger env h target iface) as (E & _);
        rewrite E in Hex; discriminate].
    destruct (MainGo_isConnected_run env h lg target iface) as (Hev & Hrun & _).
    rewrite Hev in Hex. cbn [execs] in Hex. injection Hex as <- <-.
    rewrite (Hrun Hok). cbn [fst snd]. repeat split.
    + intros H. now rewrite readLines_absent.
    + intros Hs Hu. rewrite readLines_unpopulated; try assumption; try reflexivity.
      * apply judge_start.
      * discriminate.
  - intros env h target iface c r Hex Hok.
    destruct (Slog_isConnected_run env h target iface) as (Hev & Hrun & _).
    rewrite Hev in Hex. injection Hex as <- <-.
    rewrite (Hrun Hok). cbn [fst snd]. repeat split.
    + intros H. now rewrite readLines_absent.
    + intros Hs Hu. rewrite readLines_unpopulated; try assumption; try reflexivity.
      discriminate.
Qed.

(** The status text of a disconnected interface and the text of another
    interface. *)
Lemma isConnected_success_is_no_error_witness :
  (blocksOf "WLAN" (Split (statusOf "Wi-Fi 2" "home_5G" "已连接") LF) = 0
   /\ fst (MainGo.isConnected (Some fileLogger) "home_5G" "WLAN"
             (always (ok (statusOf "Wi-Fi 2" "home_5G" "已连接"))) [])
      = (false, None))
  /\ (silent ssidValue (linesInside "WLAN" false (Split (lined ["名称 : WLAN"; "GUID : 0c2b"]) LF))
      = true
      /\ fst (Slog.isConnected "home_5G" "WLAN"
                (always (ok (lined ["名称 : WLAN"; "GUID : 0c2b"]))) [])
         = (false, None)).
Proof.
  split; (split; [vm_compute; reflexivity|]).
  - apply (proj1 isConnected_success_is_no_error
             (always (ok (statusOf "Wi-Fi 2" "home_5G" "已连接"))) [] (Some fileLogger)
             "home_5G" "WLAN" (MainGo.netsh ["wlan"; "show"; "interfaces"])
             (ok (statusOf "Wi-Fi 2" "home_5G" "已连接")));
      vm_compute; reflexivity.
  - apply (proj2 isConnected_success_is_no_error
             (always (ok (lined ["名称 : WLAN"; "GUID : 0c2b"]))) []
             "home_5G" "WLAN"
             (mkCommand (Some Slog.commandTimeout) "netsh" ["wlan"; "show"; "interfaces"] true)
             (ok (lined ["名称 : WLAN"; "GUID : 0c2b"])));
      vm_compute; solve [reflexivity | split; reflexivity].
Defined.

(* ===================================================================== *)
(** * The Interface Resolver                                              *)
(* ===================================================================== *)

Lemma Slog_getWlanInterface_loop_first (lines : list string) :
  Slog.getWlanInterface_loop lines = firstNonEmpty nameValue lines.
Proof.
  induction lines as [|line rest IH]; cbn [Slog.getWlanInterface_loop firstNonEmpty];
    [reflexivity|].
  unfold nameValue.
  destruct (HasPrefix (TrimSpace line) "名称" || HasPrefix (TrimSpace line) "Name");
    [|exact IH].
  destruct (SplitN (TrimSpace line) colon 2) as [|a [|b [|c l]]]; try exact IH.
  destruct (TrimSpace b =? ""); [exact IH | reflexivity].
Qed.

Lemma MainGo_getWlanInterface_loop_first (lines : list string) :
  forall d, d = "" ->
  MainGo.getWlanInterface_loop lines d = orElse (firstNonEmpty nameValue lines) "".
Proof.
  induction lines as [|line rest IH]; intros d Hd;
    cbn [MainGo.getWlanInterface_loop firstNonEmpty]; [exact Hd|].
  unfold nameValue.
  destruct (HasPrefix (TrimSpace line) "名称" || HasPrefix (TrimSpace line) "Name");
    [|now apply IH].
  destruct (SplitN (TrimSpace line) colon 2) as [|a [|b [|c l]]]; try now apply IH.
  destruct (String.eqb_spec (TrimSpace b) "") as [E|E]; cbn [negb]; [now apply IH | reflexivity].
Qed.

Lemma firstNonEmpty_Some_not_empty field (lines : list string) (v : string) :
  firstNonEmpty field lines = Some v -> (v =? "") = false.
Proof.
  induction lines as [|line rest IH]; cbn [firstNonEmpty]; [discriminate|].
  destruct (field line) as [w|]; [|exact IH].
  destruct (w =? "") eqn:E; [exact IH|]. now intros [= <-].
Qed.



Lemma Slog_getWlanInterface_run (env : Env) (h : list Event) (name : string) :
  let c := mkCommand (Some Slog.commandTimeout) "netsh" ["wlan"; "show"; "interfaces"] true in
  let r := respond env (h ++ [EvSlog LevelDebug "开始自动检测无线网络接口..." []])%list c in
  execs (snd (Slog.getWlanInterface env h)) = [(c, r)]
  /\ (succeeded r ->
      firstNonEmpty nameValue (Split (procStdout r) LF) = Some name ->
      fst (Slog.getWlanInterface env h) = (name, None)).
Proof.
  intros c r. unfold Slog.getWlanInterface, succeeded.
  cbv beta iota delta [bind emit]. rewrite Slog_runNetshCommand_run. fold c. fold r.
  cbv beta iota.
  destruct (procDeadlineExceeded r).
  { run_m. split; [reflexivity|]. intros [H _]; discriminate. }
  destruct (procErr r) as [err|].
  { run_m. split; [reflexivity|]. intros [_ H]; discriminate. }
  rewrite Slog_getWlanInterface_loop_first.
  destruct (firstNonEmpty nameValue (Split (procStdout r) LF)) as [v|]; run_m.
  - split; [reflexivity|]. now intros _ [= ->].
  - split; [reflexivity|]. discriminate.
Qed.




(* ===================================================================== *)
(** * The Visibility Scanner                                              *)
(* ===================================================================== *)

(** The loop of [src/main.go] returns at the first entry that names the
    target, whatever follows it. *)
Lemma MainGo_isNetworkAvailable_loop_found (lg : Logger) (target iface line : string)
    (pre post : list string) (env : Env) (h : list Event) :
  existsb (entryIs target) pre = false ->
  entryIs target line = true ->
  MainGo.isNetworkAvailable_loop lg target iface (pre ++ line :: post) env h
  = (Some (true, None),
     [EvLogf lg "INFO: isNetworkAvailable: Target SSID '%s' is visible on interface '%s'."
        [ArgString target; ArgString iface]]).
Proof.
  unfold entryIs, listEntrySSID, labelled. revert h.
  induction pre as [|l pre IH]; intros h Hpre Hline;
    cbn [app MainGo.isNetworkAvailable_loop existsb] in *.
  - destruct (HasPrefix (TrimSpace line) "SSID "); [|discriminate].
    destruct (SplitN (TrimSpace line) colon 2) as [|a [|b [|c l]]]; try discriminate.
    rewrite Hline. reflexivity.
  - apply orb_false_iff in Hpre as [Hl Hpre].
    destruct (HasPrefix (TrimSpace l) "SSID "); [|now apply IH].
    destruct (SplitN (TrimSpace l) colon 2) as [|a [|b [|c l']]]; try now apply IH.
    rewrite Hl. now apply IH.
Qed.

Lemma MainGo_isNetworkAvailable_loop_none (lg : Logger) (target iface : string)
    (lines : list string) (env : Env) (h : list Event) :
  existsb (entryIs target) lines = false ->
  MainGo.isNetworkAvailable_loop lg target iface lines env h = (None, []).
Proof.
  unfold entryIs, listEntrySSID, labelled. revert h.
  induction lines as [|l rest IH]; intros h H;
    cbn [MainGo.isNetworkAvailable_loop existsb] in *; [reflexivity|].
  apply orb_false_iff in H as [Hl Hrest].
  destruct (HasPrefix (TrimSpace l) "SSID "); [|now apply IH].
  destruct (SplitN (TrimSpace l) colon 2) as [|a [|b [|c l']]]; try now apply IH.
  rewrite Hl. now apply IH.
Qed.

(** A list is without a match, or splits at its first match. *)
Lemma first_match {A} (p : A -> bool) (l : list A) :
  existsb p l = false
  \/ exists pre x post, l = (pre ++ x :: post)%list /\ existsb p pre = false /\ p x = true.
Proof.
  induction l as [|a l IH]; [now left|]. cbn [existsb].
  destruct (p a) eqn:E.
  - right. exists [], a, l. auto.
  - destruct IH as [H | (pre & x & post & -> & Hpre & Hx)]; [now left|].
    right. exists (a :: pre), x, post. cbn [existsb]. rewrite E. auto.
Qed.

Lemma existsb_first_match {A} (p : A -> bool) (pre post : list A) (x : A) :
  p x = true -> existsb p (pre ++ x :: post) = true.
Proof.
  intros H. rewrite existsb_app. cbn [existsb]. rewrite H. now rewrite orb_true_r.
Qed.

Lemma MainGo_isNetworkAvailable_loop_result (lg : Logger) (target iface : string)
    (lines : list string) (env : Env) (h : list Event) :
  fst (MainGo.isNetworkAvailable_loop lg target iface lines env h)
  = if existsb (entryIs target) lines then Some (true, None) else None.
Proof.
  destruct (first_match (entryIs target) lines) as [H | (pre & x & post & -> & Hpre & Hx)].
  - now rewrite H, MainGo_isNetworkAvailable_loop_none.
  - rewrite (existsb_first_match _ _ _ _ Hx).
    now rewrite MainGo_isNetworkAvailable_loop_found.
Qed.

(** The loop of the program of [src/README.md] sends a record for every
    entry up to the first that names the target, and returns there. *)
Lemma Slog_isNetworkAvailable_loop_found (target iface line : string)
    (pre post : list string) (env : Env) (h : list Event) :
  existsb (entryIs target) pre = false ->
  entryIs target line = true ->
  Slog.isNetworkAvailable_loop target iface (pre ++ line :: post) env h
  = (true,
     (map scannedRecord (valuesOf listEntrySSID pre)
      ++ [scannedRecord target; visibleRecord target iface])%list).
Proof.
  unfold entryIs, listEntrySSID, labelled. revert h.
  induction pre as [|l pre IH]; intros h Hpre Hline;
    cbn [app Slog.isNetworkAvailable_loop existsb valuesOf map] in *.
  - destruct (HasPrefix (TrimSpace line) "SSID "); [|discriminate].
    destruct (SplitN (TrimSpace line) colon 2) as [|a [|b [|c l]]]; try discriminate.
    rewrite Hline. apply String.eqb_eq in Hline. rewrite Hline. reflexivity.
  - apply orb_false_iff in Hpre as [Hl Hpre].
    destruct (HasPrefix (TrimSpace l) "SSID "); [|now apply IH].
    destruct (SplitN (TrimSpace l) colon 2) as [|a [|b [|c l']]]; try now apply IH.
    rewrite Hl. run_m. rewrite (IH _ Hpre Hline). reflexivity.
Qed.

Lemma Slog_isNetworkAvailable_loop_none (target iface : string)
    (lines : list string) (env : Env) (h : list Event) :
  existsb (entryIs target) lines = false ->
  Slog.isNetworkAvailable_loop target iface lines env h
  = (false, map scannedRecord (valuesOf listEntrySSID lines)).
Proof.
  unfold entryIs, listEntrySSID, labelled. revert h.
  induction lines as [|l rest IH]; intros h H;
    cbn [Slog.isNetworkAvailable_loop existsb valuesOf map] in *; [reflexivity|].
  apply orb_false_iff in H as [Hl Hrest].
  destruct (HasPrefix (TrimSpace l) "SSID "); [|now apply IH].
  destruct (SplitN (TrimSpace l) colon 2) as [|a [|b [|c l']]]; try now apply IH.
  rewrite Hl. run_m. rewrite (IH _ Hrest). reflexivity.
Qed.

Lemma Slog_isNetworkAvailable_loop_result (target iface : string)
    (lines : list string) (env : Env) (h : list Event) :
  fst (Slog.isNetworkAvailable_loop target iface lines env h)
  = existsb (entryIs target) lines.
Proof.
  destruct (first_match (entryIs target) lines) as [H | (pre & x & post & -> & Hpre & Hx)].
  - now rewrite H, Slog_isNetworkAvailable_loop_none.
  - rewrite (existsb_first_match _ _ _ _ Hx).
    now rewrite Slog_isNetworkAvailable_loop_found.
Qed.

Lemma Slog_isNetworkAvailable_loop_execs (target iface : string)
    (lines : list string) (env : Env) (h : list Event) :
  execs (snd (Slog.isNetworkAvailable_loop target iface lines env h)) = [].
Proof.
  assert (E : forall l, execs (map scannedRecord l) = []) by (induction l; auto).
  destruct (first_match (entryIs target) lines) as [H | (pre & x & post & -> & Hpre & Hx)].
  - rewrite Slog_isNetworkAvailable_loop_none by assumption. apply E.
  - rewrite Slog_isNetworkAvailable_loop_found by assumption. cbn [snd].
    induction (valuesOf listEntrySSID pre); auto.
Qed.

Lemma execs_app (a b : list Event) : execs (a ++ b) = (execs a ++ execs b)%list.
Proof.
  induction a as [|e a IH]; [reflexivity|].
  destruct e; cbn [app execs]; rewrite IH; reflexivity.
Qed.

Lemma MainGo_isNetworkAvailable_run (env : Env) (h : list Event) (lg : Logger)
    (target iface : string) :
  let c := MainGo.netsh ["wlan"; "show"; "networks";
                         "interface=" ++ dquote ++ iface ++ dquote; "mode=bssid"] in
  let r := respond env h c in
  execs (snd (MainGo.isNetworkAvailable (Some lg) target iface env h)) = [(c, r)]
  /\ (procErr r = None ->
      fst (MainGo.isNetworkAvailable (Some lg) target iface env h)
      = (existsb (entryIs target) (Split (procStdout r) LF), None))
  /\ (procErr r <> None ->
      if saysNoNetworks (procStderr r)
      then fst (MainGo.isNetworkAvailable (Some lg) target iface env h) = (false, None)
      else exists e, fst (MainGo.isNetworkAvailable (Some lg) target iface env h)
                     = (false, Some e)).
Proof.
  intros c r. unfold MainGo.isNetworkAvailable, saysNoNetworks.
  cbv beta iota zeta delta [bind run]. fold c. fold r. clearbody r.
  destruct (procErr r) as [err|].
  - destruct (Contains (procStderr r) "没有无线网络可见"
              || Contains (procStderr r) "No wireless networks are currently visible");
      run_m; (split; [reflexivity|]); (split; [discriminate|]); intros _; eauto.
  - destruct (first_match (entryIs target) (Split (procStdout r) LF))
      as [H | (pre & x & post & E & Hpre & Hx)].
    + rewrite H, MainGo_isNetworkAvailable_loop_none by assumption. run_m.
      split; [reflexivity|]. split; [reflexivity|]. intros C; now destruct C.
    + rewrite E, (existsb_first_match _ _ _ _ Hx),
        MainGo_isNetworkAvailable_loop_found by assumption. run_m.
      split; [reflexivity|]. split; [reflexivity|]. intros C; now destruct C.
Qed.

Lemma Slog_isNetworkAvailable_run (Quote : string -> string) (env : Env) (h : list Event)
    (target iface : string) :
  let c := mkCommand (Some Slog.commandTimeout) "netsh" (Slog.scanArgs Quote iface) true in
  let r := respond env (h ++ [EvSlog LevelDebug "检查网络是否可见..."
                                [("目标SSID", VString target); ("接口", VString iface)]])%list c in
  execs (snd (Slog.isNetworkAvailable Quote target iface env h)) = [(c, r)]
  /\ (succeeded r ->
      fst (Slog.isNetworkAvailable Quote target iface env h)
      = (existsb (entryIs target) (Split (procStdout r) LF), None))
  /\ (~ succeeded r ->
      if saysNoNetworks (procStderr r)
      then fst (Slog.isNetworkAvailable Quote target iface env h) = (false, None)
      else exists e, fst (Slog.isNetworkAvailable Quote target iface env h)
                     = (false, Some e)).
Proof.
  intros c r. unfold Slog.isNetworkAvailable, saysNoNetworks, succeeded.
  cbv beta iota delta [bind emit]. rewrite Slog_runNetshCommand_run. fold c. fold r.
  cbv beta iota.
  clearbody r.
  destruct (procDeadlineExceeded r).
  { destruct (Contains (procStderr r) "没有无线网络可见"
              || Contains (procStderr r) "No wireless networks are currently visible");
      run_m; (split; [reflexivity|]); (split; [intros [C _]; discriminate|]); intros _; eauto. }
  destruct (procErr r) as [err|].
  { destruct (Contains (procStderr r) "没有无线网络可见"
              || Contains (procStderr r) "No wireless networks are currently visible");
      run_m; (split; [reflexivity|]); (split; [intros [_ C]; discriminate|]); intros _; eauto. }
  destruct (first_match (entryIs target) (Split (procStdout r) LF))
    as [H | (pre & x & post & E & Hpre & Hx)].
  - rewrite H, Slog_isNetworkAvailable_loop_none by assumption. run_m.
    rewrite execs_app.
    assert (E : forall l, execs (map scannedRecord l) = []) by (induction l; auto).
    rewrite E. cbn [app execs].
    split; [reflexivity|]. split; [reflexivity|]. intros C; now destruct C.
  - rewrite E, (existsb_first_match _ _ _ _ Hx),
      Slog_isNetworkAvailable_loop_found by assumption. run_m.
    rewrite !execs_app.
    assert (E' : forall l, execs (map scannedRecord l) = []) by (induction l; auto).
    rewrite E'. cbn [app execs].
    split; [reflexivity|]. split; [reflexivity|]. intros C; now destruct C.
Qed.

Lemma failedRun_not_succeeded (r : ProcResult) : failedRun r = true -> ~ succeeded r.
Proof.
  unfold failedRun, succeeded. intros H [Hd He]. rewrite Hd, He in H. discriminate.
Qed.

(** C5: when the scan command has failed and its standard error contains
    "没有无线网络可见" or "No wireless networks are currently visible",
    [isNetworkAvailable] returns [(false, nil)]; when it has failed
    otherwise, it returns an error.  In [src/main.go], where a failure is an
    error of the run, and in the program of [src/README.md], where it is an
    error of the run or the deadline. *)
Theorem isNetworkAvailable_no_networks_is_no_error :
  (forall env h lg target iface c r,
      execs (snd (MainGo.isNetworkAvailable (Some lg) target iface env h)) = [(c, r)] ->
      isSome (procErr r) = true ->
      (saysNoNetworks (procStderr r) = true ->
       fst (MainGo.isNetworkAvailable (Some lg) target iface env h) = (false, None))
      /\ (saysNoNetworks (procStderr r) = false ->
          exists e, fst (MainGo.isNetworkAvailable (Some lg) target iface env h)
                    = (false, Some e)))
  /\
  (forall Quote env h target iface c r,
      execs (snd (Slog.isNetworkAvailable Quote target iface env h)) = [(c, r)] ->
      failedRun r = true ->
      (saysNoNetworks (procStderr r) = true ->
       fst (Slog.isNetworkAvailable Quote target iface env h) = (false, None))
      /\ (saysNoNetworks (procStderr r) = false ->
          exists e, fst (Slog.isNetworkAvailable Quote target iface env h)
                    = (false, Some e))).
Proof.
  split.
  - intros env h lg target iface c r Hex Hfail.
    destruct (MainGo_isNetworkAvailable_run env h lg target iface) as (Hev & _ & Hrun).
    rewrite Hev in Hex. injection Hex as <- <-.
    assert (Hne : forall o : option RunError, isSome o = true -> o <> None)
      by (intros [e|]; cbn; [discriminate | intros C; discriminate C]).
    specialize (Hrun (Hne _ Hfail)).
    destruct (saysNoNetworks _); split; intros; try discriminate; assumption.
  - intros Quote env h target iface c r Hex Hfail.
    destruct (Slog_isNetworkAvailable_run Quote env h target iface) as (Hev & _ & Hrun).
    rewrite Hev in Hex. injection Hex as <- <-.
    specialize (Hrun (failedRun_not_succeeded _ Hfail)).
    destruct (saysNoNetworks _); split; intros; try discriminate; assumption.
Qed.

(** The scan fails with exit code 1 and the English phrasing on its
    standard error. *)
Lemma isNetworkAvailable_no_networks_is_no_error_witness :
  (saysNoNetworks noNetworksEnglish = true /\ saysNoNetworks noNetworksChinese = true)
  /\ fst (MainGo.isNetworkAvailable (Some fileLogger) "home_5G" "WLAN"
            (always (exited 1 "" noNetworksEnglish)) []) = (false, None)
  /\ fst (Slog.isNetworkAvailable quotePlain "home_5G" "WLAN"
            (always (exited 1 "" noNetworksChinese)) []) = (false, None)
  /\ (exists e, fst (MainGo.isNetworkAvailable (Some fileLogger) "home_5G" "WLAN"
                       (always (exited 1 "" serviceStopped)) []) = (false, Some e))
  /\ (exists e, fst (Slog.isNetworkAvailable quotePlain "home_5G" "WLAN"
                       (always killed) []) = (false, Some e)).
Proof.
  split; [split; vm_compute; reflexivity|].
  destruct isNetworkAvailable_no_networks_is_no_error as (HM & HS).
  split; [|split; [|split]].
  - apply (HM (always (exited 1 "" noNetworksEnglish)) [] fileLogger "home_5G" "WLAN"
              (MainGo.netsh ["wlan"; "show"; "networks";
                             "interface=" ++ dquote ++ "WLAN" ++ dquote; "mode=bssid"])
              (exited 1 "" noNetworksEnglish)); vm_compute; reflexivity.
  - apply (HS quotePlain (always (exited 1 "" noNetworksChinese)) [] "home_5G" "WLAN"
              (mkCommand (Some Slog.commandTimeout) "netsh" (Slog.scanArgs quotePlain "WLAN") true)
              (exited 1 "" noNetworksChinese)); vm_compute; reflexivity.
  - apply (HM (always (exited 1 "" serviceStopped)) [] fileLogger "home_5G" "WLAN"
              (MainGo.netsh ["wlan"; "show"; "networks";
                             "interface=" ++ dquote ++ "WLAN" ++ dquote; "mode=bssid"])
              (exited 1 "" serviceStopped)); vm_compute; reflexivity.
  - apply (HS quotePlain (always killed) [] "home_5G" "WLAN"
              (mkCommand (Some Slog.commandTimeout) "netsh" (Slog.scanArgs quotePlain "WLAN") true)
              killed); vm_compute; reflexivity.
Defined.

(** C9: [isNetworkAvailable] runs the scan command, and when the
    environment answers it with success, it returns [true] exactly when
    some line of that answer begins, once trimmed, with "SSID ", has a
    colon, and has the target as the trimmed text after its first colon; it
    never returns an error then.  The loop returns at the first such line,
    whatever the lines after it are, and gives [false] only when it has
    gone through every line: the program of [src/README.md] then has sent a
    record for every entry of the list. *)
Theorem isNetworkAvailable_first_match_wins :
  (forall env h lg target iface,
      let c := MainGo_scan iface in
      let r := respond env h c in
      execs (snd (MainGo.isNetworkAvailable (Some lg) target iface env h)) = [(c, r)]
      /\ (procErr r = None ->
          fst (MainGo.isNetworkAvailable (Some lg) target iface env h)
          = (existsb (entryIs target) (Split (procStdout r) LF), None)))
  /\ (forall Quote env h target iface,
        let c := Slog_scan Quote iface in
        let r := respond env
                   (h ++ [EvSlog LevelDebug "检查网络是否可见..."
                            [("目标SSID", VString target); ("接口", VString iface)]])%list c in
        execs (snd (Slog.isNetworkAvailable Quote target iface env h)) = [(c, r)]
        /\ (succeeded r ->
            fst (Slog.isNetworkAvailable Quote target iface env h)
            = (existsb (entryIs target) (Split (procStdout r) LF), None)))
  /\ (forall lg target iface line pre post env h,
        existsb (entryIs target) pre = false ->
        entryIs target line = true ->
        MainGo.isNetworkAvailable_loop lg target iface (pre ++ line :: post) env h
        = MainGo.isNetworkAvailable_loop lg target iface (pre ++ [line]) env h
        /\ fst (MainGo.isNetworkAvailable_loop lg target iface (pre ++ line :: post) env h)
           = Some (true, None))
  /\ (forall target iface line pre post env h,
        existsb (entryIs target) pre = false ->
        entryIs target line = true ->
        Slog.isNetworkAvailable_loop target iface (pre ++ line :: post) env h
        = (true, (map scannedRecord (valuesOf listEntrySSID pre)
                  ++ [scannedRecord target; visibleRecord target iface])%list))
  /\ (forall target iface lines env h,
        existsb (entryIs target) lines = false ->
        Slog.isNetworkAvailable_loop target iface lines env h
        = (false, map scannedRecord (valuesOf listEntrySSID lines))).
Proof.
  split; [|split; [|split; [|split]]].
  - intros env h lg target iface c r.
    destruct (MainGo_isNetworkAvailable_run env h lg target iface) as (Hev & Hrun & _).
    split; [exact Hev | exact Hrun].
  - intros Quote env h target iface c r.
    destruct (Slog_isNetworkAvailable_run Quote env h target iface) as (Hev & Hrun & _).
    split; [exact Hev | exact Hrun].
  - intros lg target iface line pre post env h Hpre Hline.
    rewrite !MainGo_isNetworkAvailable_loop_found by assumption. now split.
  - intros. now apply Slog_isNetworkAvailable_loop_found.
  - intros. now apply Slog_isNetworkAvailable_loop_none.
Qed.

(** Scans that see the target as their second network, and scans that do
    not see it, in both programs; and a list whose second entry is the
    target. *)
Lemma isNetworkAvailable_first_match_wins_witness :
  (fst (MainGo.isNetworkAvailable (Some fileLogger) "home_5G" "WLAN"
          (always (ok (scanOf "WLAN" "neighbor_ap" "home_5G"))) []) = (true, None)
   /\ fst (MainGo.isNetworkAvailable (Some fileLogger) "home_5G" "WLAN"
             (always (ok (scanOf "WLAN" "neighbor_ap" "guest"))) []) = (false, None))
  /\ (fst (Slog.isNetworkAvailable quotePlain "home_5G" "WLAN"
             (always (ok (scanOf "WLAN" "neighbor_ap" "home_5G"))) []) = (true, None)
      /\ fst (Slog.isNetworkAvailable quotePlain "home_5G" "WLAN"
                (always (ok (scanOf "WLAN" "neighbor_ap" "guest"))) []) = (false, None))
  /\ Slog.isNetworkAvailable_loop "home_5G" "WLAN"
       (["SSID 1 : neighbor_ap"] ++ "SSID 2 : home_5G" :: ["SSID 3 : guest"])%list
       (always killed) []
     = (true, [scannedRecord "neighbor_ap"; scannedRecord "home_5G";
               visibleRecord "home_5G" "WLAN"]).
Proof.
  destruct isNetworkAvailable_first_match_wins as (HM & HS & _ & HF & _).
  split; [split|split; [split|]].
  - exact (proj2 (HM (always (ok (scanOf "WLAN" "neighbor_ap" "home_5G"))) [] fileLogger
                     "home_5G" "WLAN") eq_refl).
  - exact (proj2 (HM (always (ok (scanOf "WLAN" "neighbor_ap" "guest"))) [] fileLogger
                     "home_5G" "WLAN") eq_refl).
  - exact (proj2 (HS quotePlain (always (ok (scanOf "WLAN" "neighbor_ap" "home_5G"))) []
                     "home_5G" "WLAN") (conj eq_refl eq_refl)).
  - exact (proj2 (HS quotePlain (always (ok (scanOf "WLAN" "neighbor_ap" "guest"))) []
                     "home_5G" "WLAN") (conj eq_refl eq_refl)).
  - apply (HF "home_5G" "WLAN" "SSID 2 : home_5G" ["SSID 1 : neighbor_ap"] ["SSID 3 : guest"]
              (always killed) []); vm_compute; reflexivity.
Defined.

(* ===================================================================== *)
(** * The Command Runner                                                  *)
(* ===================================================================== *)

(** C7: every call of [runNetshCommand] runs one command, [netsh] with the
    given arguments under the given deadline, and returns what the
    environment answered to that command: the two captured texts together
    with one of three outcomes, which the returned error tells apart: no
    error when the command came back in time with exit code zero; the error
    "执行超时" when the deadline had passed, whatever the run itself
    reported; the error "执行失败", which wraps the error of the run,
    otherwise.  [errors.As] finds an exit error in the third only.  The
    default deadline [commandTimeout] is 10 seconds. *)
Theorem runNetshCommand_three_outcomes :
  forall (env : Env) (h : list Event) (timeout : Duration) (args : list string),
    let c := mkCommand (Some timeout) "netsh" args true in
    let r := respond env h c in
    snd (Slog.runNetshCommand timeout args env h) = [EvExec c r]
    /\ fst (fst (fst (Slog.runNetshCommand timeout args env h))) = procStdout r
    /\ snd (fst (fst (Slog.runNetshCommand timeout args env h))) = procStderr r
    /\ outcomeRead (snd (fst (Slog.runNetshCommand timeout args env h))) = outcomeOf r
    /\ match outcomeOf r with
       | OutcomeSuccess => snd (fst (Slog.runNetshCommand timeout args env h)) = None
       | OutcomeTimeout =>
           snd (fst (Slog.runNetshCommand timeout args env h))
           = Some (Errorf "命令 '%s' 执行超时 (%v)"
                     [ArgString (Join args " "); ArgDuration timeout])
           /\ asExitError (Errorf "命令 '%s' 执行超时 (%v)"
                             [ArgString (Join args " "); ArgDuration timeout]) = None
       | OutcomeFailure =>
           exists cause,
             procErr r = Some cause
             /\ snd (fst (Slog.runNetshCommand timeout args env h))
                = Some (Errorf "命令 '%s' 执行失败: %w, stderr: %s"
                          [ArgString (Join args " "); ArgWrap (OfRun cause);
                           ArgString (TrimSpace (procStderr r))])
             /\ asExitError (Errorf "命令 '%s' 执行失败: %w, stderr: %s"
                               [ArgString (Join args " "); ArgWrap (OfRun cause);
                                ArgString (TrimSpace (procStderr r))])
                = asExitError (OfRun cause)
       end
    /\ Slog.commandTimeout = (10 * 1000000000)%Z.
Proof.
  intros env h timeout args c r.
  rewrite Slog_runNetshCommand_run. cbn [fst snd]. unfold outcomeOf.
  fold c. fold r. clearbody r.
  split; [reflexivity|]. split; [reflexivity|]. split; [reflexivity|].
  destruct (procDeadlineExceeded r).
  - split; [reflexivity|]. split; [|reflexivity]. split; reflexivity.
  - destruct (procErr r) as [cause|]; cbn [isSome].
    + split; [reflexivity|]. split; [|reflexivity]. exists cause. repeat split.
    + split; [reflexivity|]. split; reflexivity.
Qed.

Example runNetshCommand_killed_is_a_timeout :
  snd (fst (Slog.runNetshCommand Slog.commandTimeout ["wlan"; "show"; "interfaces"]
              (always killed) []))
  = Some (Errorf "命令 '%s' 执行超时 (%v)"
            [ArgString "wlan show interfaces"; ArgDuration 10000000000%Z]).
Proof. reflexivity. Qed.

Example runNetshCommand_exit_1_is_a_failure :
  snd (fst (Slog.runNetshCommand Slog.commandTimeout ["wlan"; "show"; "interfaces"]
              (always (exited 1 "" serviceStopped)) []))
  = Some (Errorf "命令 '%s' 执行失败: %w, stderr: %s"
            [ArgString "wlan show interfaces"; ArgWrap (OfRun (ExitError 1));
             ArgString "The Wireless AutoConfig Service (wlansvc) is not running."]).
Proof. vm_compute. reflexivity. Qed.

(* ===================================================================== *)
(** * The Reconnector                                                     *)
(* ===================================================================== *)

Lemma Slog_connectToWifi_run (Quote : string -> string) (env : Env) (h : list Event)
    (ssid iface : string) :
  let c := mkCommand (Some (Slog.commandTimeout * 2)%Z) "netsh"
             (Slog.connectArgs Quote ssid iface) true in
  let r := respond env (h ++ [EvSlog LevelInfo "尝试连接到WiFi..."
                                [("SSID", VString ssid); ("接口", VString iface)]])%list c in
  execs (snd (Slog.connectToWifi Quote ssid iface env h)) = [(c, r)]
  /\ isNone (fst (Slog.connectToWifi Quote ssid iface env h)) = negb (failedRun r).
Proof.
  intros c r. unfold Slog.connectToWifi, failedRun, isNone.
  cbv beta iota delta [bind emit]. rewrite Slog_runNetshCommand_run.
  match goal with |- context [respond env ?hh ?cc] => change (respond env hh cc) with r end.
  match goal with |- context [EvExec ?cc r] => change cc with c end.
  clearbody r. cbv beta iota.
  destruct (procDeadlineExceeded r); [run_m; split; reflexivity|].
  destruct (procErr r); run_m; split; reflexivity.
Qed.

Lemma MainGo_connectToWifi_run (env : Env) (h : list Event) (lg : Logger)
    (ssid iface : string) :
  let c := MainGo.netsh (MainGo.connectArgs ssid iface) in
  let r := respond env (h ++ [EvLogf lg "INFO: Attempting to connect to Wi-Fi: '%s' (Interface: '%s')"
                                [ArgString ssid; ArgString iface]])%list c in
  execs (snd (MainGo.connectToWifi (Some lg) ssid iface env h)) = [(c, r)]
  /\ isNone (fst (MainGo.connectToWifi (Some lg) ssid iface env h)) = isNone (procErr r).
Proof.
  intros c r. unfold MainGo.connectToWifi, isNone. run_m. fold c. fold r. clearbody r.
  destruct (procErr r); run_m; split; reflexivity.
Qed.

(** C8, as amended: [connectToWifi] runs one command, the connect command
    for the network and the interface, and nothing else: it does not query
    the status.  In the program of [src/README.md] the command runs under
    twice the default deadline, that is 20 seconds, and the function
    returns [nil] exactly when the command came back in time with exit code
    zero.  In [src/main.go] (and [src/unnamed/part_000], which has the same
    text) the command runs without any deadline and the function returns
    [nil] exactly when the run reported no error. *)
Theorem connectToWifi_runs_the_connect_command :
  (forall Quote env h ssid iface,
      exists r,
        execs (snd (Slog.connectToWifi Quote ssid iface env h))
        = [(mkCommand (Some (2 * Slog.commandTimeout)%Z) "netsh"
              ["wlan"; "connect"; "name=" ++ Quote ssid; "interface=" ++ Quote iface] true, r)]
        /\ (fst (Slog.connectToWifi Quote ssid iface env h) = None <-> succeeded r)
        /\ (2 * Slog.commandTimeout = 20 * Second)%Z)
  /\
  (forall env h lg ssid iface,
      exists r,
        execs (snd (MainGo.connectToWifi (Some lg) ssid iface env h))
        = [(mkCommand None "netsh"
              ["wlan"; "connect"; "name=" ++ dquote ++ ssid ++ dquote;
               "interface=" ++ dquote ++ iface ++ dquote] false, r)]
        /\ (fst (MainGo.connectToWifi (Some lg) ssid iface env h) = None <-> procErr r = None)
        /\ Part000.connectToWifi = MainGo.connectToWifi).
Proof.
  split.
  - intros Quote env h ssid iface.
    destruct (Slog_connectToWifi_run Quote env h ssid iface) as (Hev & Hres).
    eexists. split; [exact Hev|]. split; [|reflexivity].
    unfold isNone, failedRun, succeeded in *.
    destruct (fst (Slog.connectToWifi Quote ssid iface env h)); cbn [isSome negb] in Hres;
      destruct (procDeadlineExceeded _), (procErr _); cbn in Hres; try discriminate;
      split; try discriminate; try (intros [? ?]; discriminate); auto.
  - intros env h lg ssid iface.
    destruct (MainGo_connectToWifi_run env h lg ssid iface) as (Hev & Hres).
    eexists. split; [exact Hev|]. split; [|reflexivity].
    unfold isNone in Hres.
    destruct (fst (MainGo.connectToWifi (Some lg) ssid iface env h)); cbn [isSome negb] in Hres;
      destruct (procErr _); cbn in Hres; try discriminate; split; auto; discriminate.
Qed.

(** C8 as it is stated fails in [src/main.go]: its connect command runs
    without a deadline, in a window that is not hidden, while that of the
    program of [src/README.md] runs under 20 seconds. *)
Lemma connectToWifi_deadline_counterexample :
  map (fun cr => cmdTimeout (fst cr))
      (execs (snd (MainGo.connectToWifi (Some fileLogger) "home_5G" "WLAN" (always (ok "")) [])))
  = [None]
  /\ map (fun cr => cmdTimeout (fst cr))
         (execs (snd (Slog.connectToWifi quotePlain "home_5G" "WLAN" (always (ok "")) [])))
     = [Some 20000000000%Z].
Proof. split; vm_compute; reflexivity. Qed.

Example connectToWifi_scenario_exit_0 :
  fst (Slog.connectToWifi quotePlain "home_5G" "WLAN" (always (ok "")) []) = None
  /\ fst (MainGo.connectToWifi (Some fileLogger) "home_5G" "WLAN" (always (ok "")) []) = None
  /\ cmdArgs (fst (hd (MainGo.netsh [], ok "")
                      (execs (snd (Slog.connectToWifi quotePlain "home_5G" "WLAN"
                                     (always (ok "")) [])))))
     = ["wlan"; "connect"; "name=" ++ dquote ++ "home_5G" ++ dquote;
        "interface=" ++ dquote ++ "WLAN" ++ dquote].
Proof. repeat split. Qed.

(* ===================================================================== *)
(** * One pass of the Poll Loop                                           *)
(* ===================================================================== *)

Lemma connectRan_app (a b : list Event) :
  connectRan (a ++ b) = connectRan a || connectRan b.
Proof. unfold connectRan. now rewrite execs_app, existsb_app. Qed.

Lemma scanRan_app (a b : list Event) :
  scanRan (a ++ b) = scanRan a || scanRan b.
Proof. unfold scanRan. now rewrite execs_app, existsb_app. Qed.

Lemma connectRan_MainGo_isConnected (env : Env) (h : list Event) (lg : Logger)
    (target iface : string) :
  connectRan (snd (MainGo.isConnected (Some lg) target iface env h)) = false.
Proof.
  unfold connectRan.
  destruct (MainGo_isConnected_run env h lg target iface) as (-> & _). reflexivity.
Qed.

Lemma connectRan_MainGo_isNetworkAvailable (env : Env) (h : list Event) (lg : Logger)
    (target iface : string) :
  connectRan (snd (MainGo.isNetworkAvailable (Some lg) target iface env h)) = false.
Proof.
  unfold connectRan.
  destruct (MainGo_isNetworkAvailable_run env h lg target iface) as (-> & _). reflexivity.
Qed.

Lemma connectRan_MainGo_connectToWifi (env : Env) (h : list Event) (lg : Logger)
    (ssid iface : string) :
  connectRan (snd (MainGo.connectToWifi (Some lg) ssid iface env h)) = true.
Proof.
  unfold connectRan.
  destruct (MainGo_connectToWifi_run env h lg ssid iface) as (-> & _). reflexivity.
Qed.

Lemma connectRan_Slog_isConnected (env : Env) (h : list Event) (target iface : string) :
  connectRan (snd (Slog.isConnected target iface env h)) = false.
Proof.
  unfold connectRan.
  destruct (Slog_isConnected_run env h target iface) as (-> & _). reflexivity.
Qed.

Lemma connectRan_Slog_isNetworkAvailable (Quote : string -> string) (env : Env)
    (h : list Event) (target iface : string) :
  connectRan (snd (Slog.isNetworkAvailable Quote target iface env h)) = false.
Proof.
  unfold connectRan.
  destruct (Slog_isNetworkAvailable_run Quote env h target iface) as (-> & _). reflexivity.
Qed.

Lemma connectRan_Slog_connectToWifi (Quote : string -> string) (env : Env)
    (h : list Event) (ssid iface : string) :
  connectRan (snd (Slog.connectToWifi Quote ssid iface env h)) = true.
Proof.
  unfold connectRan.
  destruct (Slog_connectToWifi_run Quote env h ssid iface) as (-> & _). reflexivity.
Qed.

Lemma connectRan_slog lvl msg attrs (es : list Event) :
  connectRan (EvSlog lvl msg attrs :: es) = connectRan es.
Proof. reflexivity. Qed.

Lemma connectRan_logf lg format args (es : list Event) :
  connectRan (EvLogf lg format args :: es) = connectRan es.
Proof. reflexivity. Qed.

Lemma connectRan_nil : connectRan [] = false.
Proof. reflexivity. Qed.

Lemma scanRan_logf lg format args (es : list Event) :
  scanRan (EvLogf lg format args :: es) = scanRan es.
Proof. reflexivity. Qed.

Lemma scanRan_nil : scanRan [] = false.
Proof. reflexivity. Qed.

(** Whether a command ran, event by event. *)
Ltac ran :=
  cbn [fst snd app negb];
  repeat first [ rewrite connectRan_app | rewrite connectRan_slog
               | rewrite connectRan_logf | rewrite connectRan_nil
               | rewrite scanRan_app | rewrite scanRan_logf | rewrite scanRan_nil ].

Ltac ran_done :=
  ran;
  repeat match goal with
         | H : connectRan _ = _ |- _ => rewrite H; clear H
         | H : scanRan _ = _ |- _ => rewrite H; clear H
         end;
  cbn [isNone isSome negb andb orb];
  rewrite ?andb_false_r, ?orb_true_r; try reflexivity.

(** Whether the pass of the program of [src/README.md] runs the connect
    command, from what its two checks return. *)
Lemma Slog_pass_connects (Quote : string -> string) (env : Env) (h : list Event)
    (target iface : string) :
  let h1 := (h ++ [EvSlog LevelInfo "开始检查WiFi连接状态..."
                     [("SSID", VString target); ("接口", VString iface)]])%list in
  let status := Slog.isConnected target iface env h1 in
  let h2 := (h1 ++ snd status
             ++ [EvSlog LevelWarn "未连接到目标WiFi，开始处理..."
                   [("目标SSID", VString target)]])%list in
  let avail := Slog.isNetworkAvailable Quote target iface env h2 in
  connectRan (snd (Slog.performCheckAndConnect Quote target iface env h))
  = negb (fst (fst status)) && isNone (snd (fst status))
    && (fst (fst avail) && isNone (snd (fst avail))).
Proof.
  intros h1 status h2 avail. unfold Slog.performCheckAndConnect.
  cbv beta iota zeta delta [bind emit]. fold h1. fold status.
  pose proof (connectRan_Slog_isConnected env h1 target iface) as Cs. fold status in Cs.
  destruct status as [[connected err] es1] eqn:Est. cbn [fst snd] in *.
  destruct err as [e|]; [solve [ran_done]|].
  destruct connected; [solve [ran_done]|].
  cbn [negb isNone isSome andb].
  rewrite <- app_assoc in *.
  change ((h1 ++ es1 ++ [EvSlog LevelWarn "未连接到目标WiFi，开始处理..."
                           [("目标SSID", VString target)]])%list) with h2.
  fold avail.
  pose proof (connectRan_Slog_isNetworkAvailable Quote env h2 target iface) as Ca.
  fold avail in Ca.
  destruct avail as [[visible availErr] es2] eqn:Eav. cbn [fst snd] in *.
  destruct availErr as [e|]; [solve [ran_done]|].
  destruct visible; [|solve [ran_done]].
  cbn [isNone isSome negb andb].
  match goal with
  | |- context [Slog.connectToWifi Quote target iface env ?hh] =>
      pose proof (connectRan_Slog_connectToWifi Quote env hh target iface) as Cc;
      destruct (Slog.connectToWifi Quote target iface env hh) as [connectErr es3]
  end.
  cbn [snd] in Cc.
  destruct connectErr; solve [ran_done].
Qed.

Lemma MainGo_onTick_connects (env : Env) (h : list Event) (lg : Logger)
    (iface : string) (now : Z) :
  let h1 := (h ++ [EvLogf lg "INFO: Tick at %s. Checking Wi-Fi status..." [ArgTime now]])%list in
  let status := MainGo.isConnected (Some lg) MainGo.targetSSID iface env h1 in
  let h2 := (h1 ++ snd status
             ++ [EvLogf lg "INFO: Not connected to target SSID '%s'. Checking if network is visible..."
                   [ArgString MainGo.targetSSID]])%list in
  let avail := MainGo.isNetworkAvailable (Some lg) MainGo.targetSSID iface env h2 in
  connectRan (snd (MainGo.onTick lg iface now env h))
  = negb (fst (fst status)) && isNone (snd (fst status))
    && (fst (fst avail) && isNone (snd (fst avail))).
Proof.
  intros h1 status h2 avail. unfold MainGo.onTick.
  cbv beta iota zeta delta [bind emit ret]. fold h1. fold status.
  pose proof (connectRan_MainGo_isConnected env h1 lg MainGo.targetSSID iface) as Cs.
  fold status in Cs.
  destruct status as [[connected err] es1] eqn:Est. cbn [fst snd] in *.
  destruct err as [e|]; [solve [ran_done]|].
  destruct connected; [solve [ran_done]|].
  cbn [negb isNone isSome andb].
  rewrite <- app_assoc in *.
  change ((h1 ++ es1 ++ [EvLogf lg "INFO: Not connected to target SSID '%s'. Checking if network is visible..."
                           [ArgString MainGo.targetSSID]])%list) with h2.
  fold avail.
  pose proof (connectRan_MainGo_isNetworkAvailable env h2 lg MainGo.targetSSID iface) as Ca.
  fold avail in Ca.
  destruct avail as [[visible availErr] es2] eqn:Eav. cbn [fst snd] in *.
  destruct availErr as [e|]; [solve [ran_done]|].
  destruct visible; [|solve [ran_done]].
  cbn [isNone isSome negb andb].
  match goal with
  | |- context [MainGo.connectToWifi (Some lg) MainGo.targetSSID iface env ?hh] =>
      pose proof (connectRan_MainGo_connectToWifi env hh lg MainGo.targetSSID iface) as Cc;
      destruct (MainGo.connectToWifi (Some lg) MainGo.targetSSID iface env hh)
        as [connectErr es3]
  end.
  cbn [snd] in Cc.
  destruct connectErr; solve [ran_done].
Qed.

Lemma Part000_onTick_connects (env : Env) (h : list Event) (lg : Logger)
    (iface : string) (now : Z) :
  let h1 := (h ++ [EvLogf lg "INFO: Tick at %s. Checking Wi-Fi status..." [ArgTime now]])%list in
  let status := Part000.isConnected (Some lg) Part000.targetSSID iface env h1 in
  connectRan (snd (Part000.onTick lg iface now env h))
  = negb (fst (fst status)) && isNone (snd (fst status))
  /\ scanRan (snd (Part000.onTick lg iface now env h)) = false.
Proof.
  intros h1 status. unfold Part000.onTick.
  cbv beta iota zeta delta [bind emit ret]. fold h1. fold status.
  pose proof (connectRan_MainGo_isConnected env h1 lg Part000.targetSSID iface) as Cs.
  assert (Ss : scanRan (snd status) = false).
  { unfold scanRan, status, Part000.isConnected.
    destruct (MainGo_isConnected_run env h1 lg Part000.targetSSID iface) as (-> & _).
    reflexivity. }
  change (MainGo.isConnected (Some lg) Part000.targetSSID iface env h1) with status in Cs.
  destruct status as [[connected err] es1] eqn:Est. cbn [fst snd] in *.
  destruct err as [e|]; [split; solve [ran_done]|].
  destruct connected; [split; solve [ran_done]|].
  cbn [negb isNone isSome andb].
  match goal with
  | |- context [Part000.connectToWifi (Some lg) Part000.targetSSID iface env ?hh] =>
      pose proof (connectRan_MainGo_connectToWifi env hh lg Part000.targetSSID iface) as Cc;
      assert (Sc : scanRan (snd (Part000.connectToWifi (Some lg) Part000.targetSSID iface env hh))
                   = false)
        by (unfold scanRan, Part000.connectToWifi;
            destruct (MainGo_connectToWifi_run env hh lg Part000.targetSSID iface) as (-> & _);
            reflexivity);
      change (MainGo.connectToWifi (Some lg) Part000.targetSSID iface env hh)
        with (Part000.connectToWifi (Some lg) Part000.targetSSID iface env hh) in Cc;
      destruct (Part000.connectToWifi (Some lg) Part000.targetSSID iface env hh)
        as [connectErr es3]
  end.
  cbn [snd] in Cc, Sc.
  destruct connectErr; split; solve [ran_done].
Qed.

Lemma returned_false_nil (p : bool * option error) :
  negb (fst p) && isNone (snd p) = true <-> p = (false, None).
Proof.
  destruct p as [[|] [e|]]; cbn; split; intros H; try discriminate; reflexivity.
Qed.

Lemma returned_true_nil (p : bool * option error) :
  fst p && isNone (snd p) = true <-> p = (true, None).
Proof.
  destruct p as [[|] [e|]]; cbn; split; intros H; try discriminate; reflexivity.
Qed.

(** C2, as amended: in a pass of the program of [src/README.md] and in the
    work [src/main.go] does at a tick, the connect command is run exactly
    when the status check of that pass returned [(false, nil)] and the
    visibility check that then follows returned [(true, nil)].  In
    [src/unnamed/part_000], which has no visibility check and never runs
    the scan command, the connect command is run exactly when the status
    check returned [(false, nil)].  In all three no connect command is run
    in a pass whose status check reported "connected". *)
Theorem connect_runs_when_not_connected_and_visible :
  (forall Quote env h target iface,
      let h1 := (h ++ [EvSlog LevelInfo "开始检查WiFi连接状态..."
                         [("SSID", VString target); ("接口", VString iface)]])%list in
      let status := Slog.isConnected target iface env h1 in
      let h2 := (h1 ++ snd status
                 ++ [EvSlog LevelWarn "未连接到目标WiFi，开始处理..."
                       [("目标SSID", VString target)]])%list in
      let avail := Slog.isNetworkAvailable Quote target iface env h2 in
      (connectRan (snd (Slog.performCheckAndConnect Quote target iface env h)) = true
       <-> fst status = (false, None) /\ fst avail = (true, None))
      /\ (fst (fst status) = true ->
          connectRan (snd (Slog.performCheckAndConnect Quote target iface env h)) = false))
  /\
  (forall env h lg iface now,
      let h1 := (h ++ [EvLogf lg "INFO: Tick at %s. Checking Wi-Fi status..."
                         [ArgTime now]])%list in
      let status := MainGo.isConnected (Some lg) MainGo.targetSSID iface env h1 in
      let h2 := (h1 ++ snd status
                 ++ [EvLogf lg "INFO: Not connected to target SSID '%s'. Checking if network is visible..."
                       [ArgString MainGo.targetSSID]])%list in
      let avail := MainGo.isNetworkAvailable (Some lg) MainGo.targetSSID iface env h2 in
      (connectRan (snd (MainGo.onTick lg iface now env h)) = true
       <-> fst status = (false, None) /\ fst avail = (true, None))
      /\ (fst (fst status) = true ->
          connectRan (snd (MainGo.onTick lg iface now env h)) = false))
  /\
  (forall env h lg iface now,
      let h1 := (h ++ [EvLogf lg "INFO: Tick at %s. Checking Wi-Fi status..."
                         [ArgTime now]])%list in
      let status := Part000.isConnected (Some lg) Part000.targetSSID iface env h1 in
      (connectRan (snd (Part000.onTick lg iface now env h)) = true
       <-> fst status = (false, None))
      /\ scanRan (snd (Part000.onTick lg iface now env h)) = false
      /\ (fst (fst status) = true ->
          connectRan (snd (Part000.onTick lg iface now env h)) = false)).
Proof.
  split; [|split].
  - intros Quote env h target iface h1 status h2 avail.
    pose proof (Slog_pass_connects Quote env h target iface) as E. cbv zeta in E.
    fold h1 in E. fold status in E. fold h2 in E. fold avail in E. rewrite E. split.
    + now rewrite andb_true_iff, returned_false_nil, returned_true_nil.
    + intros ->. reflexivity.
  - intros env h lg iface now h1 status h2 avail.
    pose proof (MainGo_onTick_connects env h lg iface now) as E. cbv zeta in E.
    fold h1 in E. fold status in E. fold h2 in E. fold avail in E. rewrite E. split.
    + now rewrite andb_true_iff, returned_false_nil, returned_true_nil.
    + intros ->. reflexivity.
  - intros env h lg iface now h1 status.
    destruct (Part000_onTick_connects env h lg iface now) as (E & Hscan).
    fold h1 in E. fold status in E. rewrite E. split; [|split].
    + apply returned_false_nil.
    + exact Hscan.
    + intros ->. reflexivity.
Qed.

(** C2 as it is stated fails in [src/unnamed/part_000]: at a tick whose
    status check finds the interface disconnected, the connect command is
    run although no visibility check is made, here with a scan that would
    have reported that no network is visible. *)
Lemma connect_without_visibility_counterexample :
  connectRan (snd (Part000.onTick fileLogger "WLAN" 0%Z
                     (scripted (ok (statusOf "WLAN" "" "已断开连接"))
                               (exited 1 "" noNetworksChinese) (ok "")) []))
  = true
  /\ scanRan (snd (Part000.onTick fileLogger "WLAN" 0%Z
                     (scripted (ok (statusOf "WLAN" "" "已断开连接"))
                               (exited 1 "" noNetworksChinese) (ok "")) []))
     = false
  /\ connectRan (snd (MainGo.onTick fileLogger "WLAN" 0%Z
                        (scripted (ok (statusOf "WLAN" "" "已断开连接"))
                                  (exited 1 "" noNetworksChinese) (ok "")) []))
     = false
  /\ scanRan (snd (MainGo.onTick fileLogger "WLAN" 0%Z
                     (scripted (ok (statusOf "WLAN" "" "已断开连接"))
                               (exited 1 "" noNetworksChinese) (ok "")) []))
     = true.
Proof. repeat split; vm_compute; reflexivity. Qed.

(** A pass in which the interface is on another network and the target is
    in range: the connect command is run; a pass in which the interface is
    on the target: it is not. *)
Lemma connect_runs_when_not_connected_and_visible_witness :
  connectRan (snd (Slog.performCheckAndConnect quotePlain "home_5G" "WLAN"
                     (scripted (ok (statusOf "WLAN" "neighbor_ap" "已连接"))
                               (ok (scanOf "WLAN" "neighbor_ap" "home_5G")) (ok "")) []))
  = true
  /\ connectRan (snd (MainGo.onTick fileLogger "WLAN" 0%Z
                        (scripted (ok (statusOf "WLAN" "qaz_5G" "已连接"))
                                  (ok (scanOf "WLAN" "neighbor_ap" "qaz_5G")) (ok "")) []))
     = false
  /\ connectRan (snd (Part000.onTick fileLogger "WLAN" 0%Z
                        (scripted (ok (statusOf "WLAN" "qaz_5G" "已连接"))
                                  (ok (scanOf "WLAN" "neighbor_ap" "qaz_5G")) (ok "")) []))
     = false.
Proof.
  destruct connect_runs_when_not_connected_and_visible as (HS & HM & HP).
  split; [|split].
  - apply (HS quotePlain (scripted (ok (statusOf "WLAN" "neighbor_ap" "已连接"))
                                   (ok (scanOf "WLAN" "neighbor_ap" "home_5G")) (ok "")) []
              "home_5G" "WLAN").
    split; vm_compute; reflexivity.
  - apply (HM (scripted (ok (statusOf "WLAN" "qaz_5G" "已连接"))
                        (ok (scanOf "WLAN" "neighbor_ap" "qaz_5G")) (ok "")) []
              fileLogger "WLAN" 0%Z).
    vm_compute; reflexivity.
  - apply (HP (scripted (ok (statusOf "WLAN" "qaz_5G" "已连接"))
                        (ok (scanOf "WLAN" "neighbor_ap" "qaz_5G")) (ok "")) []
              fileLogger "WLAN" 0%Z).
    vm_compute; reflexivity.
Defined.

(* ===================================================================== *)
(** * The Poll Loop                                                       *)
(* ===================================================================== *)

Lemma bind_snd {A B} (m : M A) (k : A -> M B) (env : Env) (h : list Event) :
  snd (bind m k env h)
  = (snd (m env h) ++ snd (k (fst (m env h)) env (h ++ snd (m env h))%list))%list.
Proof.
  unfold bind. destruct (m env h) as [a es]. cbn [fst snd].
  destruct (k a env (h ++ es)%list) as [b es']. reflexivity.
Qed.

Lemma bind_fst {A B} (m : M A) (k : A -> M B) (env : Env) (h : list Event) :
  fst (bind m k env h) = fst (k (fst (m env h)) env (h ++ snd (m env h))%list).
Proof.
  unfold bind. destruct (m env h) as [a es]. cbn [fst snd].
  destruct (k a env (h ++ es)%list) as [b es']. reflexivity.
Qed.

(** The loop of the two older generations ends when the process is ended,
    and one more tick adds the tick and the work done at it to the events
    of the ticks before. *)
Lemma MainGo_tickerLoop_killed (body : Z -> M unit) (n : nat) :
  forall env h, fst (MainGo.tickerLoop n body env h) = Killed.
Proof.
  induction n as [|n IH]; intros env h; [reflexivity|].
  cbn [MainGo.tickerLoop]. rewrite !bind_fst. apply IH.
Qed.

Lemma MainGo_tickerLoop_snoc (body : Z -> M unit) (n : nat) :
  forall env h,
    snd (MainGo.tickerLoop (S n) body env h)
    = (snd (MainGo.tickerLoop n body env h)
       ++ EvTick (tickTime env (h ++ snd (MainGo.tickerLoop n body env h))%list)
       :: snd (body (tickTime env (h ++ snd (MainGo.tickerLoop n body env h))%list) env
                 (h ++ snd (MainGo.tickerLoop n body env h)
                  ++ [EvTick (tickTime env (h ++ snd (MainGo.tickerLoop n body env h))%list)])%list))%list.
Proof.
  induction n as [|n IH]; intros env h.
  - cbn [MainGo.tickerLoop]. rewrite !bind_snd. cbn [tick ret fst snd app].
    now rewrite !app_nil_r.
  - change (MainGo.tickerLoop (S (S n)) body)
      with (bind tick (fun currentTime =>
              bind (body currentTime) (fun _ => MainGo.tickerLoop (S n) body))).
    change (MainGo.tickerLoop (S n) body env h)
      with (bind tick (fun currentTime =>
              bind (body currentTime) (fun _ => MainGo.tickerLoop n body)) env h).
    rewrite !bind_snd. cbn [tick fst snd]. rewrite IH.
    rewrite <- ?app_assoc. cbn [app]. rewrite <- ?app_assoc. cbn [app]. reflexivity.
Qed.

Lemma Slog_tickerLoop_killed (Quote : string -> string) (target iface : string) (n : nat) :
  forall env h, fst (Slog.tickerLoop Quote n target iface env h) = Killed.
Proof.
  induction n as [|n IH]; intros env h; [reflexivity|].
  cbn [Slog.tickerLoop]. rewrite !bind_fst. apply IH.
Qed.

Lemma Slog_tickerLoop_snoc (Quote : string -> string) (target iface : string) (n : nat) :
  forall env h,
    snd (Slog.tickerLoop Quote (S n) target iface env h)
    = (snd (Slog.tickerLoop Quote n target iface env h)
       ++ EvTick (tickTime env (h ++ snd (Slog.tickerLoop Quote n target iface env h))%list)
       :: snd (Slog_atTick Quote target iface
                 (tickTime env (h ++ snd (Slog.tickerLoop Quote n target iface env h))%list) env
                 (h ++ snd (Slog.tickerLoop Quote n target iface env h)
                  ++ [EvTick (tickTime env
                                (h ++ snd (Slog.tickerLoop Quote n target iface env h))%list)])%list))%list.
Proof.
  assert (Hstep : forall k env h,
    snd (Slog.tickerLoop Quote (S k) target iface env h)
    = (EvTick (tickTime env h)
       :: snd (Slog_atTick Quote target iface (tickTime env h) env (h ++ [EvTick (tickTime env h)])%list)
       ++ snd (Slog.tickerLoop Quote k target iface env
                 (h ++ EvTick (tickTime env h)
                  :: snd (Slog_atTick Quote target iface (tickTime env h) env
                            (h ++ [EvTick (tickTime env h)])%list))%list))%list).
  { intros k env h. cbn [Slog.tickerLoop]. unfold Slog_atTick.
    rewrite !bind_snd. cbn [tick emit fst snd app].
    rewrite <- ?app_assoc. cbn [app]. reflexivity. }
  induction n as [|n IH]; intros env h.
  - rewrite Hstep. cbn [Slog.tickerLoop ret snd app]. now rewrite !app_nil_r.
  - rewrite Hstep, IH, (Hstep n env h).
    cbn [app]. rewrite <- ?app_assoc. cbn [app]. rewrite <- ?app_assoc. cbn [app]. reflexivity.
Qed.

Lemma MainGo_main_events (n : nat) (env : Env) (h : list Event) :
  snd (MainGo.main n env h)
  = (MainGo_startup env h
     ++ snd (MainGo.tickerLoop n (MainGo.onTick (fst (MainGo.setupLogger env h))
                                    MainGo.wifiInterfaceName)
               env (h ++ MainGo_startup env h)))%list
  /\ fst (MainGo.main n env h) = Killed.
Proof.
  unfold MainGo.main, MainGo_startup.
  change (MainGo.wifiInterfaceName =? "") with false. cbv iota.
  split.
  - repeat progress (rewrite ?bind_snd, ?bind_fst; cbn [emit ret fst snd app]).
    repeat progress (rewrite <- ?app_assoc; cbn [app]). reflexivity.
  - repeat progress (rewrite ?bind_fst; cbn [emit ret fst snd app]).
    apply MainGo_tickerLoop_killed.
Qed.

Lemma Part000_main_events (n : nat) (env : Env) (h : list Event) :
  snd (Part000.main n env h)
  = (Part000_startup env h
     ++ snd (MainGo.tickerLoop n (Part000.onTick (fst (Part000.setupLogger env h))
                                    Part000.wifiInterfaceName)
               env (h ++ Part000_startup env h)))%list
  /\ fst (Part000.main n env h) = Killed.
Proof.
  unfold Part000.main, Part000_startup.
  change (Part000.wifiInterfaceName =? "") with false. cbv iota.
  split.
  - repeat progress (rewrite ?bind_snd, ?bind_fst; cbn [emit ret fst snd app]).
    repeat progress (rewrite <- ?app_assoc; cbn [app]). reflexivity.
  - repeat progress (rewrite ?bind_fst; cbn [emit ret fst snd app]).
    apply MainGo_tickerLoop_killed.
Qed.

Lemma Slog_main_events (Quote : string -> string) (flags : Slog.Flags) (n : nat)
    (env : Env) (h : list Event) :
  (Slog.targetSSIDFlag flags =? "") = false ->
  (Slog.wifiInterfaceFlag flags =? "") = false ->
  (0 < Slog.checkIntervalFlag flags)%Z ->
  snd (Slog.main Quote flags n env h)
  = (Slog_startup flags env h
     ++ snd (Slog.performCheckAndConnect Quote (Slog.targetSSIDFlag flags)
               (Slog.wifiInterfaceFlag flags) env (h ++ Slog_startup flags env h))
     ++ snd (Slog.tickerLoop Quote n (Slog.targetSSIDFlag flags) (Slog.wifiInterfaceFlag flags)
               env
               (h ++ Slog_startup flags env h
                ++ snd (Slog.performCheckAndConnect Quote (Slog.targetSSIDFlag flags)
                          (Slog.wifiInterfaceFlag flags) env (h ++ Slog_startup flags env h)))))%list
  /\ fst (Slog.main Quote flags n env h) = Killed.
Proof.
  intros Hs Hi Hp. apply Z.leb_gt in Hp.
  unfold Slog.main, Slog_startup. rewrite Hs, Hi, Hp.
  split.
  - repeat progress (rewrite ?bind_snd, ?bind_fst; cbn [emit ret fst snd app]).
    repeat progress (rewrite <- ?app_assoc; cbn [app]). reflexivity.
  - repeat progress (rewrite ?bind_fst; cbn [emit ret fst snd app]).
    apply Slog_tickerLoop_killed.
Qed.

Lemma execs_setupLogger (env : Env) (h : list Event) :
  execs (snd (MainGo.setupLogger env h)) = [].
Proof.
  unfold MainGo.setupLogger. change (MainGo.logFilePath =? "") with false. cbv iota.
  run_m. destruct (opens env h MainGo.logFilePath); reflexivity.
Qed.

Lemma execs_setupSlog (path : string) (lvl : Level) (env : Env) (h : list Event) :
  execs (snd (Slog.setupSlog path lvl env h)) = [].
Proof.
  unfold Slog.setupSlog. destruct (path =? ""); cbn [negb]; run_m; [reflexivity|].
  destruct (opens env h path); reflexivity.
Qed.

Lemma execs_MainGo_startup (env : Env) (h : list Event) :
  execs (MainGo_startup env h) = [].
Proof.
  unfold MainGo_startup. cbv zeta. rewrite execs_app, execs_setupLogger. reflexivity.
Qed.

Lemma execs_Part000_startup (env : Env) (h : list Event) :
  execs (Part000_startup env h) = [].
Proof.
  unfold Part000_startup, Part000.setupLogger. cbv zeta.
  rewrite execs_app, execs_setupLogger. reflexivity.
Qed.

Lemma execs_Slog_startup (flags : Slog.Flags) (env : Env) (h : list Event) :
  execs (Slog_startup flags env h) = [].
Proof.
  unfold Slog_startup. rewrite execs_app, execs_setupSlog. reflexivity.
Qed.

(** With an interval that is not positive, [time.NewTicker] panics: [main]
    ends there, before any pass. *)
Lemma Slog_main_panics (Quote : string -> string) (flags : Slog.Flags) (n : nat)
    (env : Env) (h : list Event) :
  (Slog.targetSSIDFlag flags =? "") = false ->
  (Slog.wifiInterfaceFlag flags =? "") = false ->
  (Slog.checkIntervalFlag flags <= 0)%Z ->
  fst (Slog.main Quote flags n env h) = Panicked
  /\ execs (snd (Slog.main Quote flags n env h)) = [].
Proof.
  intros Hs Hi Hp. apply Z.leb_le in Hp.
  unfold Slog.main. rewrite Hs, Hi, Hp.
  split.
  - repeat progress (rewrite ?bind_fst; cbn [emit ret fst snd app]). reflexivity.
  - repeat progress (rewrite ?bind_snd, ?bind_fst; cbn [emit ret fst snd app]).
    rewrite execs_app, execs_setupSlog. reflexivity.
Qed.





(** Without a target the program of [src/README.md] logs the error, prints
    the usage and exits with code 1, having run no command. *)
Lemma Slog_main_without_target (Quote : string -> string) (flags : Slog.Flags) (n : nat)
    (env : Env) (h : list Event) :
  (Slog.targetSSIDFlag flags =? "") = true ->
  fst (Slog.main Quote flags n env h) = Exited 1
  /\ execs (snd (Slog.main Quote flags n env h)) = [].
Proof.
  intros Hs. unfold Slog.main. rewrite Hs. split.
  - repeat progress (rewrite ?bind_fst; cbn [emit ret fst snd app]). reflexivity.
  - repeat progress (rewrite ?bind_snd, ?bind_fst; cbn [emit ret fst snd app]).
    rewrite execs_app, execs_setupSlog. reflexivity.
Qed.

(* ===================================================================== *)
(** * The readers of the generations compared                             *)
(* ===================================================================== *)

(** On a non-empty target the two rules of judgement are one, so the two
    loops read every text alike. *)
Lemma loops_read_alike (target iface : string) (lines : list string) :
  target <> "" ->
  stepSlog (Slog.isConnected_loop target iface lines Slog.scanStart)
  = stepMainGo (MainGo.isConnected_loop target iface lines MainGo.scanStart).
Proof.
  intros Ht.
  rewrite Slog_loop_reads by apply judgePopulated_start.
  rewrite MainGo_loop_reads by apply judge_start.
  apply readLines_ext. intros s u. now apply judgePopulated_judge.
Qed.

(** X1: for a target that is not empty, the [isConnected] of the program
    of [src/README.md] answers as that of [src/main.go] on every status
    text: their loops stop at the same line with the same answer or reach
    the end in the same state, and when both status commands succeeded with
    the same standard output the two functions return the same pair. *)
Theorem isConnected_generations_agree (target : string) :
  target <> "" ->
  (forall iface lines,
      stepSlog (Slog.isConnected_loop target iface lines Slog.scanStart)
      = stepMainGo (MainGo.isConnected_loop target iface lines MainGo.scanStart))
  /\ (forall lg iface env h env' h' c r c' r',
         execs (snd (MainGo.isConnected (Some lg) target iface env h)) = [(c, r)] ->
         execs (snd (Slog.isConnected target iface env' h')) = [(c', r')] ->
         procErr r = None -> succeeded r' -> procStdout r' = procStdout r ->
         fst (Slog.isConnected target iface env' h')
         = fst (MainGo.isConnected (Some lg) target iface env h)).
Proof.
  intros Ht. split; [intros; now apply loops_read_alike|].
  intros lg iface env h env' h' c r c' r' Hm Hs Hok Hok' Hout.
  destruct (MainGo_isConnected_run env h lg target iface) as (Hev & Hrun & _).
  rewrite Hev in Hm. cbn [execs] in Hm. injection Hm as <- <-.
  destruct (Slog_isConnected_run env' h' target iface) as (Hev' & Hrun' & _).
  rewrite Hev' in Hs. injection Hs as <- <-.
  rewrite (Hrun Hok), (Hrun' Hok'), Hout. f_equal. f_equal.
  apply readLines_ext. intros s u. now apply judgePopulated_judge.
Qed.

(** The two functions on the status text of an interface that is on
    another network. *)
Lemma isConnected_generations_agree_witness :
  fst (Slog.isConnected "home_5G" "WLAN" (always (ok (statusOf "WLAN" "guest" "已连接"))) [])
  = fst (MainGo.isConnected (Some fileLogger) "home_5G" "WLAN"
           (always (ok (statusOf "WLAN" "guest" "已连接"))) []).
Proof.
  refine (proj2 (isConnected_generations_agree "home_5G" _) fileLogger "WLAN"
            (always (ok (statusOf "WLAN" "guest" "已连接"))) []
            (always (ok (statusOf "WLAN" "guest" "已连接"))) []
            MainGo_status (ok (statusOf "WLAN" "guest" "已连接"))
            Slog_status (ok (statusOf "WLAN" "guest" "已连接")) _ _ _ _ _);
    try discriminate; try (vm_compute; reflexivity).
  split; reflexivity.
Defined.

(* ===================================================================== *)
(** * The detection of the interface                                      *)
(* ===================================================================== *)

(** What the three [getWlanInterface] return, from the result of their
    command: the first name of the text that is not empty and no error, or
    the empty name and an error. *)
Lemma MainGo_getWlanInterface_result (env : Env) (h : list Event) (lg : Logger) :
  let r := respond env h MainGo_status in
  execs (snd (MainGo.getWlanInterface (Some lg) env h)) = [(MainGo_status, r)]
  /\ match procErr r, firstNonEmpty nameValue (Split (procStdout r) LF) with
     | None, Some name => fst (MainGo.getWlanInterface (Some lg) env h) = (name, None)
     | _, _ => exists e, fst (MainGo.getWlanInterface (Some lg) env h) = ("", Some e)
     end.
Proof.
  intros r. unfold MainGo.getWlanInterface. run_m. fold MainGo_status. fold r.
  split; [destruct (procErr r); [|destruct (_ =? _)]; reflexivity|].
  destruct (procErr r) as [err|]; [run_m; eexists; reflexivity|].
  rewrite (MainGo_getWlanInterface_loop_first _ "" eq_refl).
  destruct (firstNonEmpty nameValue (Split (procStdout r) LF)) as [v|] eqn:E; cbn [orElse].
  - rewrite (firstNonEmpty_Some_not_empty _ _ _ E). reflexivity.
  - run_m. eexists; reflexivity.
Qed.

Lemma Part000_getWlanInterface_result (env : Env) (h : list Event) (lg : Logger) :
  let r := respond env h MainGo_status in
  execs (snd (Part000.getWlanInterface (Some lg) env h)) = [(MainGo_status, r)]
  /\ match procErr r, firstNonEmpty nameValue (Split (procStdout r) LF) with
     | None, Some name => fst (Part000.getWlanInterface (Some lg) env h) = (name, None)
     | _, _ => exists e, fst (Part000.getWlanInterface (Some lg) env h) = ("", Some e)
     end.
Proof.
  intros r. unfold Part000.getWlanInterface. run_m. fold MainGo_status. fold r.
  split; [destruct (procErr r); [|destruct (_ =? _)]; reflexivity|].
  destruct (procErr r) as [err|]; [run_m; eexists; reflexivity|].
  rewrite (MainGo_getWlanInterface_loop_first _ "" eq_refl).
  destruct (firstNonEmpty nameValue (Split (procStdout r) LF)) as [v|] eqn:E; cbn [orElse].
  - rewrite (firstNonEmpty_Some_not_empty _ _ _ E). reflexivity.
  - run_m. eexists; reflexivity.
Qed.

Lemma Slog_getWlanInterface_result (env : Env) (h : list Event) :
  let r := respond env (h ++ [EvSlog LevelDebug "开始自动检测无线网络接口..." []])%list
             Slog_status in
  execs (snd (Slog.getWlanInterface env h)) = [(Slog_status, r)]
  /\ match failedRun r, firstNonEmpty nameValue (Split (procStdout r) LF) with
     | false, Some name => fst (Slog.getWlanInterface env h) = (name, None)
     | _, _ => exists e, fst (Slog.getWlanInterface env h) = ("", Some e)
     end.
Proof.
  intros r. destruct (Slog_getWlanInterface_run env h "") as (Hev & _).
  split; [exact Hev|]. clear Hev.
  unfold Slog.getWlanInterface, failedRun.
  cbv beta iota delta [bind emit]. rewrite Slog_runNetshCommand_run.
  fold Slog_status. fold r. cbv beta iota.
  destruct (procDeadlineExceeded r); [run_m; eexists; reflexivity|].
  destruct (procErr r) as [err|]; [run_m; eexists; reflexivity|]. cbn [orb isSome].
  rewrite Slog_getWlanInterface_loop_first.
  destruct (firstNonEmpty nameValue (Split (procStdout r) LF)) as [v|]; run_m; [reflexivity | eexists; reflexivity].
Qed.

(** X2: none of the three [getWlanInterface] returns an empty name without
    an error, or a name with one: the result is a name that is not empty and
    [nil], or the empty name and an error; this with or without a logger,
    whatever the command printed and however it ended. *)
Theorem getWlanInterface_name_or_error :
  (forall logger env h,
      match fst (MainGo.getWlanInterface logger env h) with
      | (name, None) => name <> ""
      | (name, Some _) => name = ""
      end)
  /\ (forall logger env h,
         match fst (Part000.getWlanInterface logger env h) with
         | (name, None) => name <> ""
         | (name, Some _) => name = ""
         end)
  /\ (forall env h,
         match fst (Slog.getWlanInterface env h) with
         | (name, None) => name <> ""
         | (name, Some _) => name = ""
         end).
Proof.
  split; [|split].
  - intros [lg|] env h; [|reflexivity].
    destruct (MainGo_getWlanInterface_result env h lg) as (_ & H).
    destruct (procErr _); [destruct H as (e & ->); reflexivity|].
    destruct (firstNonEmpty _ _) as [v|] eqn:E; [|destruct H as (e & ->); reflexivity].
    rewrite H. apply firstNonEmpty_Some_not_empty in E. intros ->. discriminate.
  - intros [lg|] env h; [|reflexivity].
    destruct (Part000_getWlanInterface_result env h lg) as (_ & H).
    destruct (procErr _); [destruct H as (e & ->); reflexivity|].
    destruct (firstNonEmpty _ _) as [v|] eqn:E; [|destruct H as (e & ->); reflexivity].
    rewrite H. apply firstNonEmpty_Some_not_empty in E. intros ->. discriminate.
  - intros env h.
    destruct (Slog_getWlanInterface_result env h) as (_ & H).
    destruct (failedRun _); [destruct H as (e & ->); reflexivity|].
    destruct (firstNonEmpty _ _) as [v|] eqn:E; [|destruct H as (e & ->); reflexivity].
    rewrite H. apply firstNonEmpty_Some_not_empty in E. intros ->. discriminate.
Qed.

(** X3: the three [getWlanInterface] find the same interface.  Their loops
    give the same name on every text, and when the commands succeeded with
    the same standard output the three functions return the same name, with
    an error in the same cases. *)
Theorem getWlanInterface_generations_agree :
  (forall lines,
      MainGo.getWlanInterface_loop lines ""
      = match Slog.getWlanInterface_loop lines with Some name => name | None => "" end)
  /\ (forall lg env h env' h' env'' h'' c r c' r' c'' r'',
         execs (snd (MainGo.getWlanInterface (Some lg) env h)) = [(c, r)] ->
         execs (snd (Part000.getWlanInterface (Some lg) env' h')) = [(c', r')] ->
         execs (snd (Slog.getWlanInterface env'' h'')) = [(c'', r'')] ->
         procErr r = None -> procErr r' = None -> succeeded r'' ->
         procStdout r' = procStdout r -> procStdout r'' = procStdout r ->
         fst (fst (Part000.getWlanInterface (Some lg) env' h'))
         = fst (fst (MainGo.getWlanInterface (Some lg) env h))
         /\ fst (fst (Slog.getWlanInterface env'' h''))
            = fst (fst (MainGo.getWlanInterface (Some lg) env h))
         /\ isNone (snd (fst (Part000.getWlanInterface (Some lg) env' h')))
            = isNone (snd (fst (MainGo.getWlanInterface (Some lg) env h)))
         /\ isNone (snd (fst (Slog.getWlanInterface env'' h'')))
            = isNone (snd (fst (MainGo.getWlanInterface (Some lg) env h)))).
Proof.
  split.
  - intros lines. rewrite (MainGo_getWlanInterface_loop_first _ "" eq_refl).
    now rewrite Slog_getWlanInterface_loop_first.
  - intros lg env h env' h' env'' h'' c r c' r' c'' r'' Hm Hp Hs Hok Hok' [Hd Hok''] Hout' Hout''.
    destruct (MainGo_getWlanInterface_result env h lg) as (E & Hr).
    rewrite E in Hm. injection Hm as <- <-. clear E.
    destruct (Part000_getWlanInterface_result env' h' lg) as (E & Hr').
    rewrite E in Hp. injection Hp as <- <-. clear E.
    destruct (Slog_getWlanInterface_result env'' h'') as (E & Hr'').
    rewrite E in Hs. injection Hs as <- <-. clear E.
    unfold failedRun in Hr''. rewrite Hd, Hok'' in Hr''. cbn [orb isSome] in Hr''.
    rewrite Hok in Hr. rewrite Hok', Hout' in Hr'. rewrite Hout'' in Hr''.
    destruct (firstNonEmpty nameValue (Split (procStdout _) LF)) as [v|].
    + rewrite Hr, Hr', Hr''. repeat split.
    + destruct Hr as (e & ->), Hr' as (e' & ->), Hr'' as (e'' & ->). repeat split.
Qed.

(** The three functions on the status text of an English Windows. *)
Lemma getWlanInterface_generations_agree_witness :
  fst (fst (Slog.getWlanInterface (always (ok (statusEnglish "Wi-Fi" "home_5G"))) []))
  = fst (fst (MainGo.getWlanInterface (Some fileLogger)
                (always (ok (statusEnglish "Wi-Fi" "home_5G"))) [])).
Proof.
  refine (proj1 (proj2 (proj2 getWlanInterface_generations_agree fileLogger
            (always (ok (statusEnglish "Wi-Fi" "home_5G"))) []
            (always (ok (statusEnglish "Wi-Fi" "home_5G"))) []
            (always (ok (statusEnglish "Wi-Fi" "home_5G"))) []
            MainGo_status (ok (statusEnglish "Wi-Fi" "home_5G"))
            MainGo_status (ok (statusEnglish "Wi-Fi" "home_5G"))
            Slog_status (ok (statusEnglish "Wi-Fi" "home_5G")) _ _ _ _ _ _ _ _)));
    try (vm_compute; reflexivity).
  split; reflexivity.
Defined.

(** A line that gives a name under the Chinese label begins a block of
    that name in both loops of [isConnected]. *)
Lemma nameValue_starts_block (line v : string) :
  HasPrefix (TrimSpace line) "Name" = false ->
  nameValue line = Some v ->
  (forall target st,
      MainGo.isConnected_body target v line st = MainGo.Next (MainGo.mkScan true "" ""))
  /\ (forall target st,
         Slog.isConnected_body target v line st = Slog.Next (Slog.mkScan true "" "")).
Proof.
  unfold nameValue, MainGo.isConnected_body, Slog.isConnected_body. intros Hn.
  rewrite Hn, orb_false_r. cbv zeta. unfold Slog.keywordInterfaceName.
  destruct (HasPrefix (TrimSpace line) "名称"); [|discriminate].
  destruct (SplitN (TrimSpace line) colon 2) as [|a [|b [|? ?]]] eqn:E; try discriminate.
  intros [= <-]. rewrite String.eqb_refl.
  assert (Hc : Contains (TrimSpace line) ":" = true) by (apply SplitN_two_iff; eauto).
  rewrite Hc. split; reflexivity.
Qed.

Lemma firstNonEmpty_name_has_block (lines : list string) (v : string) :
  unlabelled "Name" lines = true ->
  firstNonEmpty nameValue lines = Some v ->
  exists line, In line lines /\ nameValue line = Some v
               /\ HasPrefix (TrimSpace line) "Name" = false.
Proof.
  unfold unlabelled.
  induction lines as [|line rest IH]; cbn [forallb firstNonEmpty]; [discriminate|].
  intros H. apply andb_true_iff in H as [Hl Hrest]. apply negb_true_iff in Hl.
  destruct (nameValue line) as [w|] eqn:E.
  - destruct (w =? "") eqn:Ew.
    + intros Hv. destruct (IH Hrest Hv) as (l & Hin & Hl'). exists l. split; [now right | exact Hl'].
    + intros [= ->]. exists line. split; [now left|]. now split.
  - intros Hv. destruct (IH Hrest Hv) as (l & Hin & Hl'). exists l. split; [now right | exact Hl'].
Qed.

(** X4: detection and status check fit together on a Chinese Windows.
    When no line of a status text begins with "Name", the name that the
    [getWlanInterface] of the program of [src/README.md] finds in it (the
    one of [src/main.go] finds the same) is a name under which both loops of
    [isConnected] enter a block in the same text: at some line of it, asked
    about that interface, their body sets [inTargetInterfaceBlock] and
    clears the two values, whatever the target and the state before. *)
Theorem detected_interface_has_a_block (lines : list string) (name : string) :
  unlabelled "Name" lines = true ->
  Slog.getWlanInterface_loop lines = Some name ->
  MainGo.getWlanInterface_loop lines "" = name
  /\ exists line,
       In line lines
       /\ (forall target st,
              MainGo.isConnected_body target name line st
              = MainGo.Next (MainGo.mkScan true "" ""))
       /\ (forall target st,
              Slog.isConnected_body target name line st
              = Slog.Next (Slog.mkScan true "" "")).
Proof.
  intros Hn. rewrite Slog_getWlanInterface_loop_first. intros Hv. split.
  - rewrite (MainGo_getWlanInterface_loop_first _ "" eq_refl). now rewrite Hv.
  - destruct (firstNonEmpty_name_has_block _ _ Hn Hv) as (line & Hin & Hval & Hl).
    exists line. split; [exact Hin|]. now apply nameValue_starts_block.
Qed.

(** The status text of a Chinese Windows for the interface "WLAN". *)
Lemma detected_interface_has_a_block_witness :
  MainGo.getWlanInterface_loop (Split (statusOf "WLAN" "home_5G" "已连接") LF) "" = "WLAN".
Proof.
  refine (proj1 (detected_interface_has_a_block
                   (Split (statusOf "WLAN" "home_5G" "已连接") LF) "WLAN" _ _));
    vm_compute; reflexivity.
Defined.

(* ===================================================================== *)
(** * The visibility scan of the two generations that have one            *)
(* ===================================================================== *)

(** X5: the [isNetworkAvailable] of the program of [src/README.md] answers
    as that of [src/main.go].  When the two scans ended alike (both with
    exit code zero or both without, the deadline not passed) with the same
    standard output and standard error, the two functions return the same
    visibility and an error in the same cases, for every target, the empty
    one too. *)
Theorem isNetworkAvailable_generations_agree :
  forall Quote lg target iface env h env' h' c r c' r',
    execs (snd (MainGo.isNetworkAvailable (Some lg) target iface env h)) = [(c, r)] ->
    execs (snd (Slog.isNetworkAvailable Quote target iface env' h')) = [(c', r')] ->
    procDeadlineExceeded r' = false ->
    isSome (procErr r') = isSome (procErr r) ->
    procStdout r' = procStdout r ->
    procStderr r' = procStderr r ->
    fst (fst (Slog.isNetworkAvailable Quote target iface env' h'))
    = fst (fst (MainGo.isNetworkAvailable (Some lg) target iface env h))
    /\ isNone (snd (fst (Slog.isNetworkAvailable Quote target iface env' h')))
       = isNone (snd (fst (MainGo.isNetworkAvailable (Some lg) target iface env h))).
Proof.
  intros Quote lg target iface env h env' h' c r c' r' Hm Hs Hd He Hout Herr.
  destruct (MainGo_isNetworkAvailable_run env h lg target iface) as (E & Hok & Hko).
  rewrite E in Hm. injection Hm as <- <-. clear E.
  destruct (Slog_isNetworkAvailable_run Quote env' h' target iface) as (E & Hok' & Hko').
  rewrite E in Hs. injection Hs as <- <-. clear E.
  unfold succeeded in Hok', Hko'. rewrite Hd, Hout, Herr in *.
  destruct (procErr (respond env h _)) as [err|] eqn:Em.
  - destruct (procErr (respond env' _ _)) as [err'|] eqn:Es; [|discriminate].
    assert (Hn : ~ (false = false /\ Some err' = None)) by (intros [_ H]; discriminate).
    specialize (Hko' Hn). assert (Hn' : Some err <> None (A:=RunError)) by discriminate.
    specialize (Hko Hn').
    destruct (saysNoNetworks _).
    + rewrite Hko, Hko'. split; reflexivity.
    + destruct Hko as (e & ->), Hko' as (e' & ->). split; reflexivity.
  - destruct (procErr (respond env' _ _)) as [err'|] eqn:Es; [discriminate|].
    rewrite (Hok eq_refl), (Hok' (conj eq_refl eq_refl)). split; reflexivity.
Qed.

(** The two functions on the text of a scan that sees the target. *)
Lemma isNetworkAvailable_generations_agree_witness :
  fst (fst (Slog.isNetworkAvailable quotePlain "home_5G" "WLAN"
              (always (ok (scanOf "WLAN" "guest" "home_5G"))) []))
  = fst (fst (MainGo.isNetworkAvailable (Some fileLogger) "home_5G" "WLAN"
                (always (ok (scanOf "WLAN" "guest" "home_5G"))) [])).
Proof.
  refine (proj1 (isNetworkAvailable_generations_agree quotePlain fileLogger "home_5G" "WLAN"
            (always (ok (scanOf "WLAN" "guest" "home_5G"))) []
            (always (ok (scanOf "WLAN" "guest" "home_5G"))) []
            (MainGo_scan "WLAN") (ok (scanOf "WLAN" "guest" "home_5G"))
            (Slog_scan quotePlain "WLAN") (ok (scanOf "WLAN" "guest" "home_5G")) _ _ _ _ _ _));
    vm_compute; reflexivity.
Defined.

(* ===================================================================== *)
(** * The errors the functions return                                     *)
(* ===================================================================== *)

(** The cases of a failed command: the deadline passed, or the run gave an
    error, an exit code or another one. *)
Ltac chain_cases :=
  unfold failedRun, exitCode; cbv beta iota;
  match goal with
  | |- context [procDeadlineExceeded ?r0] =>
      let r := fresh "r" in
      set (r := r0);
      repeat match goal with
             | |- context [respond ?e ?hh ?cc] => change (respond e hh cc) with r
             end;
      clearbody r;
      destruct (procDeadlineExceeded r);
      [ intros _; run_m; eexists; split; reflexivity
      | destruct (procErr r) as [[code|msg]|];
        [ intros _; run_m; eexists; split; reflexivity
        | intros _; run_m; eexists; split; reflexivity
        | discriminate ] ]
  end.

(** X6: the errors of the program of [src/README.md] are built with [%w],
    so that [errors.As] still finds the [*exec.ExitError] of the child in
    the error a function returns.  When its command failed, each of
    [runNetshCommand], [getWlanInterface], [isConnected], [connectToWifi]
    and (unless the standard error says that no network is visible)
    [isNetworkAvailable] returns an error whose chain holds the exit code of
    the child exactly when the child ended by itself with a code: a passed
    deadline hides the code.  The errors of [src/main.go] are built with
    [%v]: none of them holds an exit error. *)
Theorem errors_keep_the_exit_code :
  (forall timeout args env h c r,
      execs (snd (Slog.runNetshCommand timeout args env h)) = [(c, r)] ->
      failedRun r = true ->
      exists e, snd (fst (Slog.runNetshCommand timeout args env h)) = Some e
                /\ asExitError e = exitCode r)
  /\ (forall env h c r,
         execs (snd (Slog.getWlanInterface env h)) = [(c, r)] ->
         failedRun r = true ->
         exists e, snd (fst (Slog.getWlanInterface env h)) = Some e
                   /\ asExitError e = exitCode r)
  /\ (forall target iface env h c r,
         execs (snd (Slog.isConnected target iface env h)) = [(c, r)] ->
         failedRun r = true ->
         exists e, snd (fst (Slog.isConnected target iface env h)) = Some e
                   /\ asExitError e = exitCode r)
  /\ (forall Quote target iface env h c r,
         execs (snd (Slog.isNetworkAvailable Quote target iface env h)) = [(c, r)] ->
         failedRun r = true ->
         saysNoNetworks (procStderr r) = false ->
         exists e, snd (fst (Slog.isNetworkAvailable Quote target iface env h)) = Some e
                   /\ asExitError e = exitCode r)
  /\ (forall Quote target iface env h c r,
         execs (snd (Slog.connectToWifi Quote target iface env h)) = [(c, r)] ->
         failedRun r = true ->
         exists e, fst (Slog.connectToWifi Quote target iface env h) = Some e
                   /\ asExitError e = exitCode r)
  /\ (forall logger target iface env h e,
         (snd (fst (MainGo.getWlanInterface logger env h)) = Some e
          \/ snd (fst (MainGo.isConnected logger target iface env h)) = Some e
          \/ snd (fst (MainGo.isNetworkAvailable logger target iface env h)) = Some e
          \/ fst (MainGo.connectToWifi logger target iface env h) = Some e) ->
         asExitError e = None).
Proof.
  repeat match goal with |- _ /\ _ => split end.
  - intros timeout args env h c r Hex Hf.
    rewrite Slog_runNetshCommand_run in *. cbn [execs snd fst] in *.
    injection Hex as <- <-. revert Hf. chain_cases.
  - intros env h c r Hex Hf.
    destruct (Slog_getWlanInterface_run env h "") as (E & _).
    rewrite E in Hex. injection Hex as <- <-. clear E. revert Hf.
    unfold Slog.getWlanInterface. cbv beta iota delta [bind emit].
    rewrite Slog_runNetshCommand_run. chain_cases.
  - intros target iface env h c r Hex Hf.
    destruct (Slog_isConnected_run env h target iface) as (E & _).
    rewrite E in Hex. injection Hex as <- <-. clear E. revert Hf.
    unfold Slog.isConnected. cbv beta iota delta [bind emit].
    rewrite Slog_runNetshCommand_run. chain_cases.
  - intros Quote target iface env h c r Hex Hf Hs.
    destruct (Slog_isNetworkAvailable_run Quote env h target iface) as (E & _).
    rewrite E in Hex. injection Hex as <- <-. clear E. revert Hf Hs.
    unfold Slog.isNetworkAvailable, saysNoNetworks. cbv beta iota delta [bind emit].
    rewrite Slog_runNetshCommand_run. cbv beta iota.
    intros Hf ->. revert Hf. chain_cases.
  - intros Quote target iface env h c r Hex Hf.
    destruct (Slog_connectToWifi_run Quote env h target iface) as (E & _).
    rewrite E in Hex. injection Hex as <- <-. clear E. revert Hf.
    unfold Slog.connectToWifi. cbv beta iota delta [bind emit].
    rewrite Slog_runNetshCommand_run.
    change (Slog.commandTimeout * 2)%Z with 20000000000%Z. chain_cases.
  - intros [lg|] target iface env h e [H|[H|[H|H]]]; revert H;
      try (cbn; intros [= <-]; reflexivity).
    + unfold MainGo.getWlanInterface. run_m.
      destruct (procErr _); [|destruct (_ =? _)]; cbn; intros [= <-]; reflexivity.
    + unfold MainGo.isConnected. run_m.
      destruct (procErr _); [|destruct (MainGo.isConnected_loop _ _ _ _)];
        cbn; intros [= <-]; reflexivity.
    + destruct (MainGo_isNetworkAvailable_run env h lg target iface) as (_ & Hok & _).
      destruct (procErr (respond env h _)) eqn:E; [|rewrite (Hok eq_refl); discriminate].
      clear Hok. unfold MainGo.isNetworkAvailable. run_m.
      match goal with
      | |- context [respond env h ?cc] => change (respond env h cc) with (respond env h (MainGo_scan iface))
      end.
      change (MainGo.netsh ["wlan"; "show"; "networks"; "interface=" ++ dquote ++ iface ++ dquote;
                            "mode=bssid"]) with (MainGo_scan iface) in E.
      rewrite E. destruct (_ || _); cbn; intros [= <-]; reflexivity.
    + unfold MainGo.connectToWifi. run_m.
      destruct (procErr _); cbn; intros [= <-]; reflexivity.
Qed.

(** The function [isConnected] of the program of [src/README.md] on a
    status command that ended with exit code 1. *)
Lemma errors_keep_the_exit_code_witness :
  exists e,
    snd (fst (Slog.isConnected "home_5G" "WLAN" (always (exited 1 "" serviceStopped)) []))
    = Some e
    /\ asExitError e = Some 1%Z.
Proof.
  exact (proj1 (proj2 (proj2 errors_keep_the_exit_code)) "home_5G" "WLAN"
           (always (exited 1 "" serviceStopped)) []
           Slog_status (exited 1 "" serviceStopped) eq_refl eq_refl).
Defined.

(* ===================================================================== *)
(** * The commands of a pass                                              *)
(* ===================================================================== *)

Lemma commands_app (a b : list Event) : commands (a ++ b) = (commands a ++ commands b)%list.
Proof. unfold commands. now rewrite execs_app, map_app. Qed.

Lemma commands_slog lvl msg attrs (es : list Event) :
  commands (EvSlog lvl msg attrs :: es) = commands es.
Proof. reflexivity. Qed.

Lemma commands_logf lg format args (es : list Event) :
  commands (EvLogf lg format args :: es) = commands es.
Proof. reflexivity. Qed.

Lemma commands_nil : commands [] = [].
Proof. reflexivity. Qed.

Lemma commands_Slog_isConnected (env : Env) (h : list Event) (target iface : string) :
  commands (snd (Slog.isConnected target iface env h)) = [Slog_status].
Proof.
  unfold commands.
  destruct (Slog_isConnected_run env h target iface) as (-> & _). reflexivity.
Qed.

Lemma commands_Slog_isNetworkAvailable (Quote : string -> string) (env : Env)
    (h : list Event) (target iface : string) :
  commands (snd (Slog.isNetworkAvailable Quote target iface env h)) = [Slog_scan Quote iface].
Proof.
  unfold commands.
  destruct (Slog_isNetworkAvailable_run Quote env h target iface) as (-> & _). reflexivity.
Qed.

Lemma commands_Slog_connectToWifi (Quote : string -> string) (env : Env)
    (h : list Event) (ssid iface : string) :
  commands (snd (Slog.connectToWifi Quote ssid iface env h)) = [Slog_connect Quote ssid iface].
Proof.
  unfold commands.
  destruct (Slog_connectToWifi_run Quote env h ssid iface) as (-> & _). reflexivity.
Qed.

Lemma commands_MainGo_isConnected (env : Env) (h : list Event) (lg : Logger)
    (target iface : string) :
  commands (snd (MainGo.isConnected (Some lg) target iface env h)) = [MainGo_status].
Proof.
  unfold commands.
  destruct (MainGo_isConnected_run env h lg target iface) as (-> & _). reflexivity.
Qed.

Lemma commands_MainGo_isNetworkAvailable (env : Env) (h : list Event) (lg : Logger)
    (target iface : string) :
  commands (snd (MainGo.isNetworkAvailable (Some lg) target iface env h)) = [MainGo_scan iface].
Proof.
  unfold commands.
  destruct (MainGo_isNetworkAvailable_run env h lg target iface) as (-> & _). reflexivity.
Qed.

Lemma commands_MainGo_connectToWifi (env : Env) (h : list Event) (lg : Logger)
    (ssid iface : string) :
  commands (snd (MainGo.connectToWifi (Some lg) ssid iface env h)) = [MainGo_connect ssid iface].
Proof.
  unfold commands.
  destruct (MainGo_connectToWifi_run env h lg ssid iface) as (-> & _). reflexivity.
Qed.

(** The commands of some events, event by event. *)
Ltac cmds :=
  cbn [fst snd app];
  repeat first [ rewrite commands_app | rewrite commands_slog
               | rewrite commands_logf | rewrite commands_nil ];
  repeat match goal with
         | H : commands _ = _ |- _ => rewrite H; clear H
         end;
  cbn [app].

(** The commands of a pass of the program of [src/README.md]. *)
Lemma Slog_pass_commands (Quote : string -> string) (target iface : string)
    (env : Env) (h : list Event) :
  let cs := commands (snd (Slog.performCheckAndConnect Quote target iface env h)) in
  cs = [Slog_status]
  \/ cs = [Slog_status; Slog_scan Quote iface]
  \/ cs = [Slog_status; Slog_scan Quote iface; Slog_connect Quote target iface].
Proof.
  unfold Slog.performCheckAndConnect. cbv beta iota zeta delta [bind emit].
  match goal with
  | |- context [Slog.isConnected target iface env ?hh] =>
      pose proof (commands_Slog_isConnected env hh target iface) as Cs;
      destruct (Slog.isConnected target iface env hh) as [[connected err] es1]
  end.
  cbn [fst snd] in *.
  destruct err as [e|]; [left; cmds; reflexivity|].
  destruct connected; [left; cmds; reflexivity|].
  match goal with
  | |- context [Slog.isNetworkAvailable Quote target iface env ?hh] =>
      pose proof (commands_Slog_isNetworkAvailable Quote env hh target iface) as Ca;
      destruct (Slog.isNetworkAvailable Quote target iface env hh) as [[visible availErr] es2]
  end.
  cbn [fst snd] in *.
  destruct availErr as [e|]; [right; left; cmds; reflexivity|].
  destruct visible; [|right; left; cmds; reflexivity].
  match goal with
  | |- context [Slog.connectToWifi Quote target iface env ?hh] =>
      pose proof (commands_Slog_connectToWifi Quote env hh target iface) as Cc;
      destruct (Slog.connectToWifi Quote target iface env hh) as [connectErr es3]
  end.
  cbn [snd] in Cc.
  destruct connectErr; right; right; cmds; reflexivity.
Qed.

Lemma MainGo_onTick_commands (lg : Logger) (iface : string) (now : Z)
    (env : Env) (h : list Event) :
  let cs := commands (snd (MainGo.onTick lg iface now env h)) in
  cs = [MainGo_status]
  \/ cs = [MainGo_status; MainGo_scan iface]
  \/ cs = [MainGo_status; MainGo_scan iface; MainGo_connect MainGo.targetSSID iface].
Proof.
  unfold MainGo.onTick. cbv beta iota zeta delta [bind emit ret].
  match goal with
  | |- context [MainGo.isConnected (Some lg) MainGo.targetSSID iface env ?hh] =>
      pose proof (commands_MainGo_isConnected env hh lg MainGo.targetSSID iface) as Cs;
      destruct (MainGo.isConnected (Some lg) MainGo.targetSSID iface env hh)
        as [[connected err] es1]
  end.
  cbn [fst snd] in *.
  destruct err as [e|]; [left; cmds; reflexivity|].
  destruct connected; cbn [negb]; [left; cmds; reflexivity|].
  match goal with
  | |- context [MainGo.isNetworkAvailable (Some lg) MainGo.targetSSID iface env ?hh] =>
      pose proof (commands_MainGo_isNetworkAvailable env hh lg MainGo.targetSSID iface) as Ca;
      destruct (MainGo.isNetworkAvailable (Some lg) MainGo.targetSSID iface env hh)
        as [[visible availErr] es2]
  end.
  cbn [fst snd] in *.
  destruct availErr as [e|]; [right; left; cmds; reflexivity|].
  destruct visible; [|right; left; cmds; reflexivity].
  match goal with
  | |- context [MainGo.connectToWifi (Some lg) MainGo.targetSSID iface env ?hh] =>
      pose proof (commands_MainGo_connectToWifi env hh lg MainGo.targetSSID iface) as Cc;
      destruct (MainGo.connectToWifi (Some lg) MainGo.targetSSID iface env hh)
        as [connectErr es3]
  end.
  cbn [snd] in Cc.
  destruct connectErr; right; right; cmds; reflexivity.
Qed.

Lemma Part000_onTick_commands (lg : Logger) (iface : string) (now : Z)
    (env : Env) (h : list Event) :
  let cs := commands (snd (Part000.onTick lg iface now env h)) in
  cs = [MainGo_status]
  \/ cs = [MainGo_status; MainGo_connect Part000.targetSSID iface].
Proof.
  unfold Part000.onTick, Part000.isConnected, Part000.connectToWifi.
  cbv beta iota zeta delta [bind emit ret].
  match goal with
  | |- context [MainGo.isConnected (Some lg) Part000.targetSSID iface env ?hh] =>
      pose proof (commands_MainGo_isConnected env hh lg Part000.targetSSID iface) as Cs;
      destruct (MainGo.isConnected (Some lg) Part000.targetSSID iface env hh)
        as [[connected err] es1]
  end.
  cbn [fst snd] in *.
  destruct err as [e|]; [left; cmds; reflexivity|].
  destruct connected; cbn [negb]; [left; cmds; reflexivity|].
  match goal with
  | |- context [MainGo.connectToWifi (Some lg) Part000.targetSSID iface env ?hh] =>
      pose proof (commands_MainGo_connectToWifi env hh lg Part000.targetSSID iface) as Cc;
      destruct (MainGo.connectToWifi (Some lg) Part000.targetSSID iface env hh)
        as [connectErr es3]
  end.
  cbn [snd] in Cc.
  destruct connectErr; right; cmds; reflexivity.
Qed.

(** X7: a pass runs its commands in one order and never twice.  The
    commands of a pass of the program of [src/README.md] are the status
    query alone, or the status query and the scan, or the status query, the
    scan and the connect command, each with its deadline (10 s, 10 s,
    20 s) and its window hidden; the work [src/main.go] does at a tick runs
    the same three or fewer, without deadline; that of
    [src/unnamed/part_000] runs the status query alone or followed by the
    connect command.  Whatever the commands answer, nothing else is run. *)
Theorem a_pass_runs_status_scan_connect :
  (forall Quote target iface env h,
      let cs := commands (snd (Slog.performCheckAndConnect Quote target iface env h)) in
      cs = [Slog_status]
      \/ cs = [Slog_status; Slog_scan Quote iface]
      \/ cs = [Slog_status; Slog_scan Quote iface; Slog_connect Quote target iface])
  /\ (forall lg iface now env h,
         let cs := commands (snd (MainGo.onTick lg iface now env h)) in
         cs = [MainGo_status]
         \/ cs = [MainGo_status; MainGo_scan iface]
         \/ cs = [MainGo_status; MainGo_scan iface; MainGo_connect MainGo.targetSSID iface])
  /\ (forall lg iface now env h,
         let cs := commands (snd (Part000.onTick lg iface now env h)) in
         cs = [MainGo_status]
         \/ cs = [MainGo_status; MainGo_connect Part000.targetSSID iface]).
Proof.
  split; [|split].
  - intros. apply Slog_pass_commands.
  - intros. apply MainGo_onTick_commands.
  - intros. apply Part000_onTick_commands.
Qed.

(* ===================================================================== *)
(** * The commands of a whole run                                         *)
(* ===================================================================== *)

(** What is counted in a run: the status queries, the connect commands and
    the commands altogether. *)
Lemma tally_app (a b : list Event) :
  statusQueries (a ++ b) = statusQueries a + statusQueries b
  /\ connects (a ++ b) = connects a + connects b
  /\ length (commands (a ++ b)) = length (commands a) + length (commands b).
Proof.
  unfold statusQueries, connects. rewrite commands_app, !filter_app, !length_app. auto.
Qed.

Lemma tally_of_commands (es : list Event) (cs : list Command) :
  commands es = cs ->
  statusQueries es = length (filter isStatusQuery cs)
  /\ connects es = length (filter isConnect cs).
Proof. intros <-. split; reflexivity. Qed.

Lemma Slog_pass_tally (Quote : string -> string) (target iface : string)
    (env : Env) (h : list Event) :
  statusQueries (snd (Slog.performCheckAndConnect Quote target iface env h)) = 1
  /\ connects (snd (Slog.performCheckAndConnect Quote target iface env h)) <= 1
  /\ length (commands (snd (Slog.performCheckAndConnect Quote target iface env h))) <= 3.
Proof.
  destruct (Slog_pass_commands Quote target iface env h) as [H|[H|H]];
    destruct (tally_of_commands _ _ H) as (-> & ->); rewrite H; cbn; lia.
Qed.

Lemma MainGo_onTick_tally (lg : Logger) (iface : string) (now : Z)
    (env : Env) (h : list Event) :
  statusQueries (snd (MainGo.onTick lg iface now env h)) = 1
  /\ connects (snd (MainGo.onTick lg iface now env h)) <= 1
  /\ length (commands (snd (MainGo.onTick lg iface now env h))) <= 3.
Proof.
  destruct (MainGo_onTick_commands lg iface now env h) as [H|[H|H]];
    destruct (tally_of_commands _ _ H) as (-> & ->); rewrite H; cbn; lia.
Qed.

Lemma Part000_onTick_tally (lg : Logger) (iface : string) (now : Z)
    (env : Env) (h : list Event) :
  statusQueries (snd (Part000.onTick lg iface now env h)) = 1
  /\ connects (snd (Part000.onTick lg iface now env h)) <= 1
  /\ length (commands (snd (Part000.onTick lg iface now env h))) <= 2.
Proof.
  destruct (Part000_onTick_commands lg iface now env h) as [H|H];
    destruct (tally_of_commands _ _ H) as (-> & ->); rewrite H; cbn; lia.
Qed.

(** The loop of the older generations, for a body that runs one status
    query and at most [k] commands at each tick. *)
Lemma MainGo_tickerLoop_tally (body : Z -> M unit) (k : nat) :
  (forall now env h,
      statusQueries (snd (body now env h)) = 1
      /\ connects (snd (body now env h)) <= 1
      /\ length (commands (snd (body now env h))) <= k) ->
  forall n env h,
    statusQueries (snd (MainGo.tickerLoop n body env h)) = n
    /\ connects (snd (MainGo.tickerLoop n body env h)) <= n
    /\ length (commands (snd (MainGo.tickerLoop n body env h))) <= k * n.
Proof.
  intros Hbody. induction n as [|n IH]; intros env h.
  - cbn. lia.
  - rewrite MainGo_tickerLoop_snoc.
    destruct (tally_app (snd (MainGo.tickerLoop n body env h))
                (EvTick (tickTime env (h ++ snd (MainGo.tickerLoop n body env h))%list)
                 :: snd (body (tickTime env (h ++ snd (MainGo.tickerLoop n body env h))%list) env
                           (h ++ snd (MainGo.tickerLoop n body env h)
                            ++ [EvTick (tickTime env
                                          (h ++ snd (MainGo.tickerLoop n body env h))%list)])%list)))
      as (-> & -> & ->).
    destruct (IH env h) as (-> & ? & ?).
    match goal with
    | |- context [body ?t env ?hh] => destruct (Hbody t env hh) as (Hs & Hc & Hl)
    end.
    change (statusQueries (EvTick ?t :: ?es)) with (statusQueries es).
    change (connects (EvTick ?t :: ?es)) with (connects es).
    change (commands (EvTick ?t :: ?es)) with (commands es).
    rewrite Hs. nia.
Qed.

Lemma Slog_tickerLoop_tally (Quote : string -> string) (target iface : string) :
  forall n env h,
    statusQueries (snd (Slog.tickerLoop Quote n target iface env h)) = n
    /\ connects (snd (Slog.tickerLoop Quote n target iface env h)) <= n
    /\ length (commands (snd (Slog.tickerLoop Quote n target iface env h))) <= 3 * n.
Proof.
  induction n as [|n IH]; intros env h.
  - cbn. lia.
  - rewrite Slog_tickerLoop_snoc.
    match goal with
    | |- context [(?a ++ ?b)%list] => destruct (tally_app a b) as (-> & -> & ->)
    end.
    destruct (IH env h) as (-> & ? & ?).
    unfold Slog_atTick. rewrite bind_snd. cbn [emit fst snd app].
    match goal with
    | |- context [Slog.performCheckAndConnect Quote target iface env ?hh] =>
        destruct (Slog_pass_tally Quote target iface env hh) as (Hs & Hc & Hl)
    end.
    change (statusQueries (EvTick ?t :: EvSlog ?l ?m ?a :: ?es)) with (statusQueries es).
    change (connects (EvTick ?t :: EvSlog ?l ?m ?a :: ?es)) with (connects es).
    change (commands (EvTick ?t :: EvSlog ?l ?m ?a :: ?es)) with (commands es).
    rewrite Hs. nia.
Qed.

Lemma tally_no_commands (es : list Event) :
  execs es = [] ->
  statusQueries es = 0 /\ connects es = 0 /\ length (commands es) = 0.
Proof. unfold statusQueries, connects, commands. intros ->. repeat split. Qed.

(** X8: the program polls at every tick, whatever the passes before did.
    When it is ended after [n] ticks, the program of [src/README.md]
    (started with a target, an interface and an interval that is positive)
    has run the status query [n + 1] times, the connect command at most
    [n + 1] times and at most [3 (n + 1)] commands; [src/main.go] has run
    the status query [n] times, the connect command at most [n] times and at
    most [3 n] commands; [src/unnamed/part_000] the status query [n] times
    and at most [2 n] commands.  No failed command, error or answer makes a
    later tick skip its status query or run a second one.  Started with an
    interval that is not positive, the program of [src/README.md] panics in
    [time.NewTicker] and never runs the status query. *)
Theorem every_tick_runs_one_status_query :
  (forall Quote flags n env h,
      (Slog.targetSSIDFlag flags =? "") = false ->
      (Slog.wifiInterfaceFlag flags =? "") = false ->
      (0 < Slog.checkIntervalFlag flags)%Z ->
      statusQueries (snd (Slog.main Quote flags n env h)) = S n
      /\ connects (snd (Slog.main Quote flags n env h)) <= S n
      /\ length (commands (snd (Slog.main Quote flags n env h))) <= 3 * S n)
  /\ (forall n env h,
         statusQueries (snd (MainGo.main n env h)) = n
         /\ connects (snd (MainGo.main n env h)) <= n
         /\ length (commands (snd (MainGo.main n env h))) <= 3 * n)
  /\ (forall n env h,
         statusQueries (snd (Part000.main n env h)) = n
         /\ connects (snd (Part000.main n env h)) <= n
         /\ length (commands (snd (Part000.main n env h))) <= 2 * n)
  /\ (forall Quote flags n env h,
         (Slog.targetSSIDFlag flags =? "") = false ->
         (Slog.wifiInterfaceFlag flags =? "") = false ->
         (Slog.checkIntervalFlag flags <= 0)%Z ->
         fst (Slog.main Quote flags n env h) = Panicked
         /\ statusQueries (snd (Slog.main Quote flags n env h)) = 0).
Proof.
  split; [|split; [|split]];
    [| | |intros Quote flags n env h Hs Hi Hp;
          destruct (Slog_main_panics Quote flags n env h Hs Hi Hp) as (Hf & He);
          split; [exact Hf | now apply tally_no_commands]].
  - intros Quote flags n env h Hs Hi Hp.
    rewrite (proj1 (Slog_main_events Quote flags n env h Hs Hi Hp)).
    repeat match goal with
           | |- context [statusQueries (?a ++ ?b)%list] =>
               destruct (tally_app a b) as (-> & -> & ->)
           end.
    destruct (tally_no_commands _ (execs_Slog_startup flags env h)) as (-> & -> & ->).
    match goal with
    | |- context [Slog.performCheckAndConnect Quote ?t ?i env ?hh] =>
        destruct (Slog_pass_tally Quote t i env hh) as (-> & ? & ?)
    end.
    match goal with
    | |- context [Slog.tickerLoop Quote n ?t ?i env ?hh] =>
        destruct (Slog_tickerLoop_tally Quote t i n env hh) as (-> & ? & ?)
    end.
    lia.
  - intros n env h. rewrite (proj1 (MainGo_main_events n env h)).
    match goal with
    | |- context [statusQueries (?a ++ ?b)%list] =>
        destruct (tally_app a b) as (-> & -> & ->)
    end.
    destruct (tally_no_commands _ (execs_MainGo_startup env h)) as (-> & -> & ->).
    match goal with
    | |- context [MainGo.tickerLoop n ?body env ?hh] =>
        destruct (MainGo_tickerLoop_tally body 3
                    (fun now env h => MainGo_onTick_tally _ _ now env h) n env hh)
          as (-> & ? & ?)
    end.
    lia.
  - intros n env h. rewrite (proj1 (Part000_main_events n env h)).
    match goal with
    | |- context [statusQueries (?a ++ ?b)%list] =>
        destruct (tally_app a b) as (-> & -> & ->)
    end.
    destruct (tally_no_commands _ (execs_Part000_startup env h)) as (-> & -> & ->).
    match goal with
    | |- context [MainGo.tickerLoop n ?body env ?hh] =>
        destruct (MainGo_tickerLoop_tally body 2
                    (fun now env h => Part000_onTick_tally _ _ now env h) n env hh)
          as (-> & ? & ?)
    end.
    lia.
Qed.

(** The program of [src/README.md], started with the flags of the example
    of the README, after three ticks on an interface whose status command
    fails every time: four status queries. *)
Lemma every_tick_runs_one_status_query_witness :
  statusQueries (snd (Slog.main quotePlain sampleFlags 3
                        (always (exited 1 "" serviceStopped)) [])) = 4.
Proof.
  exact (proj1 (proj1 every_tick_runs_one_status_query quotePlain sampleFlags 3
                  (always (exited 1 "" serviceStopped)) [] eq_refl eq_refl eq_refl)).
Defined.

(** ** Nothing else is ever run *)

Lemma Forall_commands_app (P : Command -> Prop) (a b : list Event) :
  Forall P (commands a) -> Forall P (commands b) -> Forall P (commands (a ++ b)).
Proof. intros Ha Hb. rewrite commands_app. apply Forall_app. now split. Qed.

Lemma Forall_no_commands (P : Command -> Prop) (es : list Event) :
  execs es = [] -> Forall P (commands es).
Proof. unfold commands. intros ->. constructor. Qed.

(** Each command of a list is one of those listed. *)
Ltac listed :=
  cbn [map fst];
  repeat first [apply Forall_nil | apply Forall_cons]; cbn [In]; auto 6.

Lemma Slog_pass_allowed (Quote : string -> string) (target iface : string)
    (env : Env) (h : list Event) :
  Forall (fun c => In c [Slog_status; Slog_scan Quote iface; Slog_connect Quote target iface])
         (commands (snd (Slog.performCheckAndConnect Quote target iface env h))).
Proof.
  destruct (Slog_pass_commands Quote target iface env h) as [H|[H|H]]; rewrite H; listed.
Qed.

Lemma Slog_tickerLoop_allowed (Quote : string -> string) (target iface : string) :
  forall n env h,
    Forall (fun c => In c [Slog_status; Slog_scan Quote iface; Slog_connect Quote target iface])
           (commands (snd (Slog.tickerLoop Quote n target iface env h))).
Proof.
  induction n as [|n IH]; intros env h; [constructor|].
  rewrite Slog_tickerLoop_snoc. apply Forall_commands_app; [apply IH|].
  unfold Slog_atTick. rewrite bind_snd. cbn [emit fst snd app].
  change (commands (EvTick ?t :: EvSlog ?l ?m ?a :: ?es)) with (commands es).
  apply Slog_pass_allowed.
Qed.

Lemma MainGo_tickerLoop_allowed (P : Command -> Prop) (body : Z -> M unit) :
  (forall now env h, Forall P (commands (snd (body now env h)))) ->
  forall n env h, Forall P (commands (snd (MainGo.tickerLoop n body env h))).
Proof.
  intros Hbody. induction n as [|n IH]; intros env h; [constructor|].
  rewrite MainGo_tickerLoop_snoc. apply Forall_commands_app; [apply IH|].
  change (commands (EvTick ?t :: ?es)) with (commands es). apply Hbody.
Qed.

(** The events of [main] in the program of [src/README.md] when the
    interface is to be detected, and how [main] ends. *)
Lemma Slog_main_detected_events (Quote : string -> string) (flags : Slog.Flags) (n : nat)
    (env : Env) (h : list Event) :
  (Slog.targetSSIDFlag flags =? "") = false ->
  (Slog.wifiInterfaceFlag flags =? "") = true ->
  let before := Slog_beforeDetection flags env h in
  execs before = []
  /\ match Slog.getWlanInterface env (h ++ before)%list with
     | (_, Some e, detection) =>
         fst (Slog.main Quote flags n env h) = Exited 1
         /\ snd (Slog.main Quote flags n env h)
            = (before ++ detection
               ++ [EvSlog LevelError "无法自动检测无线网络接口，请使用 -interface 参数指定。"
                     [("错误", VAny e)]])%list
     | (name, None, detection) =>
         if (Slog.checkIntervalFlag flags <=? 0)%Z then
           fst (Slog.main Quote flags n env h) = Panicked
           /\ snd (Slog.main Quote flags n env h)
              = (before ++ detection
                 ++ [EvSlog LevelInfo "将使用网络接口" [("接口名称", VString name)]])%list
         else
           let started :=
             (h ++ before ++ detection
              ++ [EvSlog LevelInfo "将使用网络接口" [("接口名称", VString name)];
                  EvNewTicker (Slog.checkIntervalFlag flags)])%list in
           fst (Slog.main Quote flags n env h) = Killed
           /\ snd (Slog.main Quote flags n env h)
              = (before ++ detection
                 ++ [EvSlog LevelInfo "将使用网络接口" [("接口名称", VString name)];
                     EvNewTicker (Slog.checkIntervalFlag flags)]
                 ++ snd (Slog.performCheckAndConnect Quote (Slog.targetSSIDFlag flags) name env
                           started)
                 ++ snd (Slog.tickerLoop Quote n (Slog.targetSSIDFlag flags) name env
                           (started
                            ++ snd (Slog.performCheckAndConnect Quote
                                      (Slog.targetSSIDFlag flags) name env started))))%list
     end.
Proof.
  intros Hs Hi before.
  split; [unfold before, Slog_beforeDetection; rewrite execs_app, execs_setupSlog; reflexivity|].
  unfold before, Slog_beforeDetection, Slog.main. rewrite Hs, Hi.
  repeat progress (rewrite ?bind_snd, ?bind_fst; cbn [emit ret fst snd app]).
  repeat progress (rewrite <- ?app_assoc; cbn [app]).
  match goal with
  | |- context [Slog.getWlanInterface env ?hh] =>
      destruct (Slog.getWlanInterface env hh) as [[name [e|]] detection]
  end; cbn [fst snd].
  - repeat progress (rewrite ?bind_snd, ?bind_fst; cbn [emit ret fst snd app]).
    repeat progress (rewrite <- ?app_assoc; cbn [app]). split; reflexivity.
  - destruct (Slog.checkIntervalFlag flags <=? 0)%Z.
    + repeat progress (rewrite ?bind_snd, ?bind_fst; cbn [emit ret fst snd app]).
      repeat progress (rewrite <- ?app_assoc; cbn [app]). rewrite ?app_nil_r.
      split; reflexivity.
    + repeat progress (rewrite ?bind_snd, ?bind_fst; cbn [emit ret fst snd app]).
      cbv zeta. repeat progress (rewrite <- ?app_assoc; cbn [app]).
      split; [apply Slog_tickerLoop_killed | reflexivity].
Qed.

(** X9: the program runs [netsh] with three argument vectors and nothing
    else.  Every command of a run of the program of [src/README.md],
    however it is started and however long it runs, is the status query,
    the scan of its interface or the connect command for the target on its
    interface, its interface being the one given with [-interface] or, when
    none is given, the one its detection returned; every command of a run of
    [src/main.go] is one of the three for "qaz_5G" on "WLAN", and every
    command of a run of [src/unnamed/part_000] is the status query or that
    connect command. *)
Theorem only_the_three_commands_are_run :
  (forall Quote flags n env h,
      Forall (fun c => In c [Slog_status;
                             Slog_scan Quote (Slog_effectiveInterface flags env h);
                             Slog_connect Quote (Slog.targetSSIDFlag flags)
                               (Slog_effectiveInterface flags env h)])
             (commands (snd (Slog.main Quote flags n env h))))
  /\ (forall n env h,
         Forall (fun c => In c [MainGo_status; MainGo_scan "WLAN"; MainGo_connect "qaz_5G" "WLAN"])
                (commands (snd (MainGo.main n env h))))
  /\ (forall n env h,
         Forall (fun c => In c [MainGo_status; MainGo_connect "qaz_5G" "WLAN"])
                (commands (snd (Part000.main n env h)))).
Proof.
  split; [|split].
  - intros Quote flags n env h.
    destruct (Slog.targetSSIDFlag flags =? "") eqn:Hs.
    { apply Forall_no_commands.
      apply (Slog_main_without_target Quote flags n env h Hs). }
    unfold Slog_effectiveInterface.
    destruct (Slog.wifiInterfaceFlag flags =? "") eqn:Hi.
    + destruct (Slog_main_detected_events Quote flags n env h Hs Hi) as (Hb & H).
      destruct (Slog_getWlanInterface_result env (h ++ Slog_beforeDetection flags env h)%list)
        as (Hd & _).
      destruct (Slog.getWlanInterface env (h ++ Slog_beforeDetection flags env h)%list)
        as [[name [e|]] detection]; cbn [fst snd] in *.
      * rewrite (proj2 H).
        apply Forall_commands_app; [now apply Forall_no_commands|].
        apply Forall_commands_app; [|now apply Forall_no_commands].
        unfold commands. rewrite Hd. listed.
      * destruct (Slog.checkIntervalFlag flags <=? 0)%Z.
        { rewrite (proj2 H).
          apply Forall_commands_app; [now apply Forall_no_commands|].
          apply Forall_commands_app; [|now apply Forall_no_commands].
          unfold commands. rewrite Hd. listed. }
        cbv zeta in H. rewrite (proj2 H).
        apply Forall_commands_app; [now apply Forall_no_commands|].
        apply Forall_commands_app; [unfold commands; rewrite Hd; listed|].
        apply Forall_commands_app; [now apply Forall_no_commands|].
        apply Forall_commands_app; [apply Slog_pass_allowed | apply Slog_tickerLoop_allowed].
    + destruct (Z.leb_spec (Slog.checkIntervalFlag flags) 0) as [Hp|Hp].
      { apply Forall_no_commands. now apply Slog_main_panics. }
      rewrite (proj1 (Slog_main_events Quote flags n env h Hs Hi Hp)).
      apply Forall_commands_app; [apply Forall_no_commands, execs_Slog_startup|].
      apply Forall_commands_app; [apply Slog_pass_allowed | apply Slog_tickerLoop_allowed].
  - intros n env h. rewrite (proj1 (MainGo_main_events n env h)).
    apply Forall_commands_app; [apply Forall_no_commands, execs_MainGo_startup|].
    apply MainGo_tickerLoop_allowed. intros now env' h'.
    destruct (MainGo_onTick_commands (fst (MainGo.setupLogger env h)) MainGo.wifiInterfaceName
                now env' h') as [H|[H|H]]; rewrite H; listed.
  - intros n env h. rewrite (proj1 (Part000_main_events n env h)).
    apply Forall_commands_app; [apply Forall_no_commands, execs_Part000_startup|].
    apply MainGo_tickerLoop_allowed. intros now env' h'.
    destruct (Part000_onTick_commands (fst (Part000.setupLogger env h)) Part000.wifiInterfaceName
                now env' h') as [H|H]; rewrite H; listed.
Qed.

(* ===================================================================== *)
(** * The start of the program of [src/README.md]                         *)
(* ===================================================================== *)

(** X10: how [main] can end before its loop.  Without a target ([-ssid]
    empty) it exits with code 1 and has run no command.  With a target and
    without an interface, its first command is the status query of the
    detection, answered by the environment: when that command failed or its
    text names no interface, [main] exits with code 1 and that command is
    the only one it ran; when an interface is found and the interval is not
    positive, [time.NewTicker] panics and that command is the only one that
    ran; otherwise [main] goes on to its loop, which only the end of the
    process stops.  With a target, an interface and an interval that is not
    positive, [main] panics having run no command. *)
Theorem main_exits_without_target_or_interface (Quote : string -> string)
    (flags : Slog.Flags) (n : nat) (env : Env) (h : list Event) :
  ((Slog.targetSSIDFlag flags =? "") = true ->
   fst (Slog.main Quote flags n env h) = Exited 1
   /\ commands (snd (Slog.main Quote flags n env h)) = [])
  /\ ((Slog.targetSSIDFlag flags =? "") = false ->
      (Slog.wifiInterfaceFlag flags =? "") = true ->
      let r := respond env
                 ((h ++ Slog_beforeDetection flags env h)
                  ++ [EvSlog LevelDebug "开始自动检测无线网络接口..." []])%list Slog_status in
      exists rest,
        execs (snd (Slog.main Quote flags n env h)) = (Slog_status, r) :: rest
        /\ match failedRun r, Slog.getWlanInterface_loop (Split (procStdout r) LF) with
           | false, Some name =>
               if (Slog.checkIntervalFlag flags <=? 0)%Z
               then fst (Slog.main Quote flags n env h) = Panicked /\ rest = []
               else fst (Slog.main Quote flags n env h) = Killed
           | _, _ => fst (Slog.main Quote flags n env h) = Exited 1 /\ rest = []
           end)
  /\ ((Slog.targetSSIDFlag flags =? "") = false ->
      (Slog.wifiInterfaceFlag flags =? "") = false ->
      (Slog.checkIntervalFlag flags <= 0)%Z ->
      fst (Slog.main Quote flags n env h) = Panicked
      /\ commands (snd (Slog.main Quote flags n env h)) = []).
Proof.
  split; [|split].
  - intros Hs. destruct (Slog_main_without_target Quote flags n env h Hs) as (-> & He).
    unfold commands. now rewrite He.
  - intros Hs Hi.
    destruct (Slog_main_detected_events Quote flags n env h Hs Hi) as (Hb & H).
    destruct (Slog_getWlanInterface_result env (h ++ Slog_beforeDetection flags env h)%list)
      as (Hd & Hr).
    rewrite <- Slog_getWlanInterface_loop_first in Hr.
    match type of Hd with _ = [(_, ?r0)] => set (r := r0) in * end. clearbody r.
    destruct (Slog.getWlanInterface env (h ++ Slog_beforeDetection flags env h)%list)
      as [[name [e|]] detection]; cbn [fst snd] in *.
    + destruct H as (Hfst & Hsnd). exists [].
      split; [rewrite Hsnd, !execs_app, Hb, Hd; reflexivity|].
      destruct (failedRun r); [now split|].
      destruct (Slog.getWlanInterface_loop _); [discriminate | now split].
    + destruct (failedRun r); [destruct Hr as (e & He); discriminate|].
      destruct (Slog.getWlanInterface_loop _); [|destruct Hr as (e & He); discriminate].
      destruct (Slog.checkIntervalFlag flags <=? 0)%Z.
      * destruct H as (Hfst & Hsnd). exists [].
        split; [rewrite Hsnd, !execs_app, Hb, Hd; reflexivity | now split].
      * cbv zeta in H. destruct H as (Hfst & Hsnd). rewrite Hsnd, !execs_app, Hb, Hd.
        cbn [app]. eexists. split; [reflexivity | exact Hfst].
  - intros Hs Hi Hp. destruct (Slog_main_panics Quote flags n env h Hs Hi Hp) as (-> & He).
    unfold commands. now rewrite He.
Qed.

(** The program started without [-ssid]; started without [-interface] on a
    machine whose status command fails; and started with an interval of
    zero. *)
Lemma main_exits_without_target_or_interface_witness :
  fst (Slog.main quotePlain (Slog.mkFlags "" "WLAN" (30 * Second)%Z "" LevelInfo) 5
         (onTarget "home_5G") []) = Exited 1
  /\ (fst (Slog.main quotePlain (Slog.mkFlags "home_5G" "WLAN" 0%Z "" LevelInfo) 5
            (onTarget "home_5G") []) = Panicked
      /\ commands (snd (Slog.main quotePlain (Slog.mkFlags "home_5G" "WLAN" 0%Z "" LevelInfo) 5
                         (onTarget "home_5G") [])) = [])
  /\ exists rest,
       execs (snd (Slog.main quotePlain (Slog.mkFlags "home_5G" "" (30 * Second)%Z "" LevelInfo) 5
                     (always (exited 1 "" serviceStopped)) []))
       = (Slog_status, exited 1 "" serviceStopped) :: rest
       /\ fst (Slog.main quotePlain (Slog.mkFlags "home_5G" "" (30 * Second)%Z "" LevelInfo) 5
                 (always (exited 1 "" serviceStopped)) []) = Exited 1
       /\ rest = [].
Proof.
  split; [|split].
  - exact (proj1 (proj1 (main_exits_without_target_or_interface quotePlain
                           (Slog.mkFlags "" "WLAN" (30 * Second)%Z "" LevelInfo) 5
                           (onTarget "home_5G") []) eq_refl)).
  - refine (proj2 (proj2 (main_exits_without_target_or_interface quotePlain
                            (Slog.mkFlags "home_5G" "WLAN" 0%Z "" LevelInfo) 5
                            (onTarget "home_5G") [])) eq_refl eq_refl _).
    discriminate.
  - exact (proj1 (proj2 (main_exits_without_target_or_interface quotePlain
                           (Slog.mkFlags "home_5G" "" (30 * Second)%Z "" LevelInfo) 5
                           (always (exited 1 "" serviceStopped)) [])) eq_refl eq_refl).
Defined.

(** X11: setting up the log never fails and runs no command.  [setupSlog]
    makes one logger the default, at the level asked for: it writes to the
    file when a path is given and the file opens, and to standard output
    when no path is given (no file is then opened) or when the file does not
    open.  [setupLogger] of [src/main.go] (the same text in
    [src/unnamed/part_000]) opens its fixed file and yields a logger on it, or, when the file does not
    open, a logger on standard output with the prefix "ERROR_LOGGER: ". *)
Theorem setting_up_the_log_falls_back_to_stdout :
  (forall path lvl env h,
      let es := snd (Slog.setupSlog path lvl env h) in
      setDefaults es
      = [(if path =? "" then ToStdout
          else match opens env h path with
               | None => ToFile path
               | Some _ => ToStdout
               end, lvl)]
      /\ openedFiles es = (if path =? "" then [] else [path])
      /\ execs es = [])
  /\ (forall env h,
         let es := snd (MainGo.setupLogger env h) in
         fst (MainGo.setupLogger env h)
         = match opens env h MainGo.logFilePath with
           | None => mkLogger (ToFile MainGo.logFilePath) "WIFI_RECONNECT: " (Z.lor Ldate Ltime)
           | Some _ => mkLogger ToStdout "ERROR_LOGGER: " (Z.lor Ldate Ltime)
           end
         /\ openedFiles es = [MainGo.logFilePath]
         /\ execs es = []).
Proof.
  split.
  - intros path lvl env h. cbv zeta. unfold Slog.setupSlog.
    destruct (path =? "") eqn:E; cbn [negb]; run_m; [repeat split; reflexivity|].
    destruct (opens env h path); repeat split; reflexivity.
  - intros env h. cbv zeta. unfold MainGo.setupLogger.
    change (MainGo.logFilePath =? "") with false. cbv iota. run_m.
    destruct (opens env h MainGo.logFilePath); repeat split; reflexivity.
Qed.

(* ===================================================================== *)
(** * The flag [-loglevel]                                                *)
(* ===================================================================== *)

Lemma isASCII_Level_String (l : Level) : isASCII (Slog.Level_String l) = true.
Proof. destruct l; reflexivity. Qed.

(** An accepted word is one of those listed. *)
Ltac accepted E :=
  apply String.eqb_eq in E; rewrite E; cbn [orb snd In];
  split; [intros _; auto 10 | reflexivity].

Section LogLevel.

Variable ToLower : string -> string.
Hypothesis ToLower_ASCII : forall s, isASCII s = true -> ToLower s = lowerASCII s.

(** X12: [String] and [Set] of [logLevelValue] fit together.  The text
    [String] prints for a flag value, the one with a [nil] [levelVar] too,
    is accepted by [Set] on any flag value, and [Get] then gives the level
    the printed value had. *)
Theorem logLevelValue_String_then_Set (v w : Slog.logLevelValue) :
  Slog.logLevelValue_Set ToLower v (Slog.logLevelValue_String w)
  = (Slog.mkLogLevelValue (Some (Slog.logLevelValue_Get w)), None)
  /\ Slog.logLevelValue_Get
       (fst (Slog.logLevelValue_Set ToLower v (Slog.logLevelValue_String w)))
     = Slog.logLevelValue_Get w.
Proof.
  assert (H : Slog.logLevelValue_Set ToLower v (Slog.logLevelValue_String w)
              = (Slog.mkLogLevelValue (Some (Slog.logLevelValue_Get w)), None)).
  { unfold Slog.logLevelValue_Set, Slog.logLevelValue_String, Slog.logLevelValue_Get.
    destruct w as [[l|]]; cbn [Slog.levelVar];
      rewrite ToLower_ASCII by apply isASCII_Level_String;
      [destruct l|]; reflexivity. }
  split; [exact H | now rewrite H].
Qed.

(** X13: what [Set] does to a flag value.  A word [Set] rejects leaves the
    value as it was, a [nil] [levelVar] too, and the error names the word;
    a word it accepts leaves a [levelVar] that is not [nil], whatever the
    value was before, so that [Get] no longer gives the default.  On ASCII
    words [Set] does not look at the case of the letters, and the words it
    accepts are, in lower case, "debug", "info", "warn", "warning", "error"
    and "err". *)
Theorem logLevelValue_Set_keeps_or_replaces :
  (forall v s,
      match Slog.logLevelValue_Set ToLower v s with
      | (v', Some e) =>
          v' = v
          /\ e = Errorf "invalid log level: %q (must be debug, info, warn, or error)"
                   [ArgString s]
      | (v', None) =>
          exists level, v' = Slog.mkLogLevelValue (Some level)
                        /\ forall v0, Slog.logLevelValue_Set ToLower v0 s = (v', None)
      end)
  /\ (forall v s s',
         isASCII s = true -> isASCII s' = true -> lowerASCII s = lowerASCII s' ->
         Slog.logLevelValue_Get (fst (Slog.logLevelValue_Set ToLower v s))
         = Slog.logLevelValue_Get (fst (Slog.logLevelValue_Set ToLower v s'))
         /\ isNone (snd (Slog.logLevelValue_Set ToLower v s))
            = isNone (snd (Slog.logLevelValue_Set ToLower v s')))
  /\ (forall v s,
         isASCII s = true ->
         (snd (Slog.logLevelValue_Set ToLower v s) = None
          <-> In (lowerASCII s) ["debug"; "info"; "warn"; "warning"; "error"; "err"])).
Proof.
  split; [|split].
  - intros v s. unfold Slog.logLevelValue_Set. cbv zeta.
    destruct (ToLower s =? "debug"); [eexists; split; reflexivity|].
    destruct (ToLower s =? "info"); [eexists; split; reflexivity|].
    destruct ((ToLower s =? "warn") || (ToLower s =? "warning")); [eexists; split; reflexivity|].
    destruct ((ToLower s =? "error") || (ToLower s =? "err")); [eexists; split; reflexivity|].
    split; reflexivity.
  - intros v s s' Hs Hs' E. unfold Slog.logLevelValue_Set. cbv zeta.
    rewrite (ToLower_ASCII s Hs), (ToLower_ASCII s' Hs'), E.
    destruct (lowerASCII s' =? "debug"); [split; reflexivity|].
    destruct (lowerASCII s' =? "info"); [split; reflexivity|].
    destruct ((lowerASCII s' =? "warn") || (lowerASCII s' =? "warning")); [split; reflexivity|].
    destruct ((lowerASCII s' =? "error") || (lowerASCII s' =? "err")); split; reflexivity.
  - intros v s Hs. unfold Slog.logLevelValue_Set. cbv zeta. rewrite (ToLower_ASCII s Hs).
    cbn [In].
    destruct (lowerASCII s =? "debug") eqn:E1; [accepted E1|].
    destruct (lowerASCII s =? "info") eqn:E2; [accepted E2|].
    destruct (lowerASCII s =? "warn") eqn:E3; [accepted E3|].
    destruct (lowerASCII s =? "warning") eqn:E4; [accepted E4|].
    destruct (lowerASCII s =? "error") eqn:E5; [accepted E5|].
    destruct (lowerASCII s =? "err") eqn:E6; [accepted E6|].
    cbn [orb snd]. apply String.eqb_neq in E1, E2, E3, E4, E5, E6.
    split; [discriminate|]. intros [H|[H|[H|[H|[H|[H|[]]]]]]]; symmetry in H; contradiction.
Qed.

End LogLevel.

(** The flag value of the program, set from "INFO", and from "Warning". *)
Lemma logLevelValue_String_then_Set_witness :
  Slog.logLevelValue_Get
    (fst (Slog.logLevelValue_Set lowerASCII (Slog.newLogLevelValue LevelError)
            (Slog.logLevelValue_String (Slog.mkLogLevelValue None))))
  = LevelInfo.
Proof.
  exact (proj2 (logLevelValue_String_then_Set lowerASCII (fun s _ => eq_refl)
                  (Slog.newLogLevelValue LevelError) (Slog.mkLogLevelValue None))).
Defined.

Lemma logLevelValue_Set_keeps_or_replaces_witness :
  snd (Slog.logLevelValue_Set lowerASCII (Slog.newLogLevelValue LevelInfo) "Warning") = None
  <-> In (lowerASCII "Warning") ["debug"; "info"; "warn"; "warning"; "error"; "err"].
Proof.
  exact (proj2 (proj2 (logLevelValue_Set_keeps_or_replaces lowerASCII (fun s _ => eq_refl)))
           (Slog.newLogLevelValue LevelInfo) "Warning" eq_refl).
Defined.

(* ===================================================================== *)
(** * Line endings and blanks                                             *)
(* ===================================================================== *)

(** A carriage return at the end of a line is trimmed away. *)
Lemma trimLeft_snoc_CR (n : nat) :
  forall l, length l <= n ->
  trimLeft (l ++ [ascii_of_nat 13])
  = match trimLeft l with
    | [] => []
    | _ :: _ => (trimLeft l ++ [ascii_of_nat 13])%list
    end.
Proof.
  induction n as [|n IH]; intros l Hl.
  - destruct l; [reflexivity | cbn in Hl; lia].
  - destruct l as [|a l1]; [reflexivity|].
    cbn [app trimLeft]. destruct (isSpace1 a) eqn:Ea.
    { apply IH. cbn in Hl. lia. }
    destruct l1 as [|b l2]; cbn [app].
    { replace (isSpace2 a (ascii_of_nat 13)) with false; [reflexivity|].
      unfold isSpace2. now rewrite andb_false_r. }
    destruct (isSpace2 a b) eqn:Eb.
    { apply IH. cbn in Hl. lia. }
    destruct l2 as [|c l3]; cbn [app].
    { replace (isSpace3 a b (ascii_of_nat 13)) with false; [reflexivity|].
      unfold isSpace3. cbn. now rewrite !andb_false_r. }
    destruct (isSpace3 a b c) eqn:Ec.
    { apply IH. cbn in Hl. lia. }
    reflexivity.
Qed.

Lemma list_ascii_of_string_app (s t : string) :
  list_ascii_of_string (s ++ t) = (list_ascii_of_string s ++ list_ascii_of_string t)%list.
Proof. induction s as [|c s IH]; [reflexivity|]. cbn. now rewrite IH. Qed.

Lemma TrimSpace_CR (s : string) : TrimSpace (s ++ bytes [13]) = TrimSpace s.
Proof.
  unfold TrimSpace. rewrite list_ascii_of_string_app.
  change (list_ascii_of_string (bytes [13])) with [ascii_of_nat 13].
  rewrite (trimLeft_snoc_CR (length (list_ascii_of_string s))) by lia.
  destruct (trimLeft (list_ascii_of_string s)) as [|a l] eqn:E; [reflexivity|].
  unfold trimRight. rewrite rev_app_distr. reflexivity.
Qed.

(** The loops look at a line through [strings.TrimSpace] only. *)
Lemma bodies_read_trimmed_lines (line line' : string) :
  TrimSpace line = TrimSpace line' ->
  (forall target iface st,
      MainGo.isConnected_body target iface line st
      = MainGo.isConnected_body target iface line' st)
  /\ (forall target iface st,
         Slog.isConnected_body target iface line st
         = Slog.isConnected_body target iface line' st).
Proof.
  intros E. unfold MainGo.isConnected_body, Slog.isConnected_body. rewrite E.
  split; reflexivity.
Qed.

Lemma loops_read_trimmed_lines (lines lines' : list string) :
  Forall2 (fun line line' => TrimSpace line = TrimSpace line') lines lines' ->
  (forall target iface st,
      MainGo.isConnected_loop target iface lines st
      = MainGo.isConnected_loop target iface lines' st)
  /\ (forall target iface st,
         Slog.isConnected_loop target iface lines st
         = Slog.isConnected_loop target iface lines' st)
  /\ (forall lg target iface env h,
         MainGo.isNetworkAvailable_loop lg target iface lines env h
         = MainGo.isNetworkAvailable_loop lg target iface lines' env h)
  /\ (forall target iface env h,
         Slog.isNetworkAvailable_loop target iface lines env h
         = Slog.isNetworkAvailable_loop target iface lines' env h)
  /\ (forall d, MainGo.getWlanInterface_loop lines d = MainGo.getWlanInterface_loop lines' d)
  /\ Slog.getWlanInterface_loop lines = Slog.getWlanInterface_loop lines'.
Proof.
  induction 1 as [|line line' lines lines' E _ (IH1 & IH2 & IH3 & IH4 & IH5 & IH6)].
  - repeat split.
  - destruct (bodies_read_trimmed_lines _ _ E) as (B1 & B2).
    split; [|split; [|split; [|split; [|split]]]].
    + intros. cbn [MainGo.isConnected_loop]. rewrite B1.
      destruct (MainGo.isConnected_body _ _ _ _); [apply IH1 | reflexivity].
    + intros. cbn [Slog.isConnected_loop]. rewrite B2.
      destruct (Slog.isConnected_body _ _ _ _); [apply IH2 | reflexivity].
    + intros. cbn [MainGo.isNetworkAvailable_loop]. rewrite E. cbv zeta.
      destruct (HasPrefix _ _); [|apply IH3].
      destruct (SplitN _ _ _) as [|a [|b [|? ?]]]; try apply IH3.
      destruct (_ =? _); [reflexivity | apply IH3].
    + intros. cbn [Slog.isNetworkAvailable_loop]. rewrite E. cbv zeta.
      destruct (HasPrefix _ _); [|apply IH4].
      destruct (SplitN _ _ _) as [|a [|b [|? ?]]]; try apply IH4.
      unfold bind. destruct (_ =? _); [reflexivity|].
      cbn [emit]. now rewrite IH4.
    + intros. cbn [MainGo.getWlanInterface_loop]. rewrite E. cbv zeta.
      destruct (_ || _); [|apply IH5].
      destruct (SplitN _ _ _) as [|a [|b [|? ?]]]; try apply IH5.
      destruct (negb _); [reflexivity | apply IH5].
    + cbn [Slog.getWlanInterface_loop]. rewrite E. cbv zeta.
      destruct (_ || _); [|apply IH6].
      destruct (SplitN _ _ _) as [|a [|b [|? ?]]]; try apply IH6.
      destruct (negb _); [reflexivity | apply IH6].
Qed.

Lemma Forall2_CR (lines : list string) :
  Forall2 (fun line line' => TrimSpace line = TrimSpace line')
          (map (fun line => line ++ bytes [13]) lines) lines.
Proof. induction lines; constructor; [apply TrimSpace_CR | assumption]. Qed.

(** X14: the ends of the lines do not matter.  Every loop of the three
    generations that reads a text of [netsh] gives the same result on two
    texts whose lines are the same once trimmed by [strings.TrimSpace]: the
    two loops of [isConnected] from every state, the two scan loops (with
    the same log records) and the two detection loops.  A text cut at the
    line feeds, whose lines still end with the carriage return of Windows,
    is such a text for the text without the carriage returns. *)
Theorem the_loops_read_trimmed_lines :
  (forall lines lines',
      Forall2 (fun line line' => TrimSpace line = TrimSpace line') lines lines' ->
      (forall target iface st,
          MainGo.isConnected_loop target iface lines st
          = MainGo.isConnected_loop target iface lines' st)
      /\ (forall target iface st,
             Slog.isConnected_loop target iface lines st
             = Slog.isConnected_loop target iface lines' st)
      /\ (forall lg target iface env h,
             MainGo.isNetworkAvailable_loop lg target iface lines env h
             = MainGo.isNetworkAvailable_loop lg target iface lines' env h)
      /\ (forall target iface env h,
             Slog.isNetworkAvailable_loop target iface lines env h
             = Slog.isNetworkAvailable_loop target iface lines' env h)
      /\ (forall d, MainGo.getWlanInterface_loop lines d = MainGo.getWlanInterface_loop lines' d)
      /\ Slog.getWlanInterface_loop lines = Slog.getWlanInterface_loop lines')
  /\ (forall lines,
         Forall2 (fun line line' => TrimSpace line = TrimSpace line')
                 (map (fun line => line ++ bytes [13]) lines) lines).
Proof.
  split.
  - exact loops_read_trimmed_lines.
  - exact Forall2_CR.
Qed.

(** The status text of a connected interface, with and without carriage
    returns: the loop of [isConnected] returns [true] on both. *)
Lemma the_loops_read_trimmed_lines_witness :
  MainGo.isConnected_loop "home_5G" "WLAN"
    (map (fun line => line ++ bytes [13]) beforeMarked) MainGo.scanStart
  = MainGo.isConnected_loop "home_5G" "WLAN" beforeMarked MainGo.scanStart.
Proof.
  exact (proj1 (proj1 the_loops_read_trimmed_lines _ _
                  (proj2 the_loops_read_trimmed_lines beforeMarked))
           "home_5G" "WLAN" MainGo.scanStart).
Defined.

(* ===================================================================== *)
(** * What the loop of [isConnected] does not read                        *)
(* ===================================================================== *)

Lemma MainGo_loop_app (target iface : string) (a b : list string) :
  forall st,
    MainGo.isConnected_loop target iface (a ++ b) st
    = match MainGo.isConnected_loop target iface a st with
      | MainGo.Next st' => MainGo.isConnected_loop target iface b st'
      | MainGo.Return connected => MainGo.Return connected
      end.
Proof.
  induction a as [|line a IH]; intros st; [reflexivity|].
  cbn [app MainGo.isConnected_loop].
  destruct (MainGo.isConnected_body target iface line st); [apply IH | reflexivity].
Qed.

Lemma Slog_loop_app (target iface : string) (a b : list string) :
  forall st,
    Slog.isConnected_loop target iface (a ++ b) st
    = match Slog.isConnected_loop target iface a st with
      | Slog.Next st' => Slog.isConnected_loop target iface b st'
      | Slog.Return connected ssid state => Slog.Return connected ssid state
      end.
Proof.
  induction a as [|line a IH]; intros st; [reflexivity|].
  cbn [app Slog.isConnected_loop].
  destruct (Slog.isConnected_body target iface line st); [apply IH | reflexivity].
Qed.

(** Lines without a block of the interface leave the loops where they
    started. *)
Lemma MainGo_loop_outside (target iface : string) (pre : list string) :
  blocksOf iface pre = 0 ->
  MainGo.isConnected_loop target iface pre MainGo.scanStart = MainGo.Next MainGo.scanStart.
Proof.
  intros Hn.
  pose proof (MainGo_loop_reads target iface pre MainGo.scanStart (judge_start target)) as H.
  destruct (readLines_outside (judge target) iface pre (ofMainGo MainGo.scanStart) eq_refl Hn)
    as (r' & Hr & Hi & Hs & Hu).
  rewrite Hr in H.
  destruct (MainGo.isConnected_loop target iface pre MainGo.scanStart) as [[i s u]|b];
    [|discriminate].
  cbn in H. injection H as <-. cbn in Hi, Hs, Hu. now subst.
Qed.

Lemma Slog_loop_outside (target iface : string) (pre : list string) :
  blocksOf iface pre = 0 ->
  Slog.isConnected_loop target iface pre Slog.scanStart = Slog.Next Slog.scanStart.
Proof.
  intros Hn.
  pose proof (Slog_loop_reads target iface pre Slog.scanStart (judgePopulated_start target)) as H.
  destruct (readLines_outside (judgePopulated target) iface pre (ofSlog Slog.scanStart)
              eq_refl Hn) as (r' & Hr & Hi & Hs & Hu).
  rewrite Hr in H.
  destruct (Slog.isConnected_loop target iface pre Slog.scanStart) as [[i s u]|b ? ?];
    [|discriminate].
  cbn in H. injection H as <-. cbn in Hi, Hs, Hu. now subst.
Qed.

(** Reading the lines of the interface alone gives the answer of reading
    the whole text. *)
Lemma readLines_ownLines rule (iface : string) (lines : list string) :
  forall r r',
    (inside r = true -> r' = r) ->
    answer (readLines rule iface lines r)
    = answer (readLines rule iface (ownLines iface (inside r) lines) r').
Proof.
  induction lines as [|line rest IH]; intros r r' Hr; [reflexivity|].
  cbn [readLines ownLines]. unfold readLine.
  destruct (blockStart line) as [name|] eqn:Eb.
  - destruct (name =? iface) eqn:En.
    + cbn [readLines]. unfold readLine. rewrite Eb, En.
      apply (IH (mkReading true "" "") (mkReading true "" "")). reflexivity.
    + apply (IH (mkReading false (ssid r) (state r)) r'). discriminate.
  - destruct (inside r) eqn:Ei.
    + rewrite (Hr eq_refl). cbn [readLines]. unfold readLine. rewrite Eb, Ei.
      destruct (rule _ _) as [b|]; [reflexivity|].
      apply (IH (mkReading true _ _) (mkReading true _ _)). reflexivity.
    + rewrite <- Ei. apply IH. rewrite Ei. discriminate.
Qed.

(** X15: what [isConnected] does not read.  Its answer depends on the
    blocks of the interface asked about and on nothing else: on a status
    text and on the text without every line that lies outside these blocks
    (the heading, the blocks of other interfaces with their SSID and state),
    the loop gives the same answer, in [src/main.go] and in the program of
    [src/README.md]; lines before the first block of the interface leave the
    loop in its first state.  And once the loop has returned at a line, the
    lines after it have no part in the result. *)
Theorem isConnected_reads_its_interface_only (target iface : string) (lines rest : list string) :
  answer (stepMainGo (MainGo.isConnected_loop target iface lines MainGo.scanStart))
  = answer (stepMainGo (MainGo.isConnected_loop target iface (ownLines iface false lines)
                          MainGo.scanStart))
  /\ answer (stepSlog (Slog.isConnected_loop target iface lines Slog.scanStart))
     = answer (stepSlog (Slog.isConnected_loop target iface (ownLines iface false lines)
                           Slog.scanStart))
  /\ (blocksOf iface lines = 0 ->
      MainGo.isConnected_loop target iface (lines ++ rest) MainGo.scanStart
      = MainGo.isConnected_loop target iface rest MainGo.scanStart
      /\ Slog.isConnected_loop target iface (lines ++ rest) Slog.scanStart
         = Slog.isConnected_loop target iface rest Slog.scanStart)
  /\ (forall st connected,
         MainGo.isConnected_loop target iface lines st = MainGo.Return connected ->
         MainGo.isConnected_loop target iface (lines ++ rest) st = MainGo.Return connected)
  /\ (forall st connected ssid state,
         Slog.isConnected_loop target iface lines st = Slog.Return connected ssid state ->
         Slog.isConnected_loop target iface (lines ++ rest) st
         = Slog.Return connected ssid state).
Proof.
  split; [|split; [|split; [|split]]].
  - rewrite !MainGo_loop_reads by apply judge_start.
    apply (readLines_ownLines (judge target) iface lines readingStart readingStart).
    discriminate.
  - rewrite !Slog_loop_reads by apply judgePopulated_start.
    apply (readLines_ownLines (judgePopulated target) iface lines readingStart readingStart).
    discriminate.
  - intros Hn. rewrite MainGo_loop_app, Slog_loop_app.
    now rewrite (MainGo_loop_outside target iface lines Hn),
      (Slog_loop_outside target iface lines Hn).
  - intros st connected H. now rewrite MainGo_loop_app, H.
  - intros st connected ssid state H. now rewrite Slog_loop_app, H.
Qed.

(** The block of another interface, connected to the target, before the
    block of "WLAN". *)
Lemma isConnected_reads_its_interface_only_witness :
  MainGo.isConnected_loop "home_5G" "WLAN"
    (Split (statusOf "Wi-Fi 2" "home_5G" "已连接") LF ++ beforeMarked) MainGo.scanStart
  = MainGo.isConnected_loop "home_5G" "WLAN" beforeMarked MainGo.scanStart.
Proof.
  refine (proj1 (proj1 (proj2 (proj2 (isConnected_reads_its_interface_only "home_5G" "WLAN"
                          (Split (statusOf "Wi-Fi 2" "home_5G" "已连接") LF) beforeMarked))) _)).
  vm_compute. reflexivity.
Defined.

(* ===================================================================== *)
(** * The guard on the logger in the older generations                    *)
(* ===================================================================== *)

Lemma printlns_app (a b : list Event) : printlns (a ++ b) = (printlns a ++ printlns b)%list.
Proof.
  induction a as [|e a IH]; [reflexivity|].
  destruct e; cbn [app printlns]; rewrite IH; reflexivity.
Qed.

Lemma printlns_MainGo_isConnected (env : Env) (h : list Event) (lg : Logger)
    (target iface : string) :
  printlns (snd (MainGo.isConnected (Some lg) target iface env h)) = [].
Proof. destruct (MainGo_isConnected_run env h lg target iface) as (-> & _). reflexivity. Qed.

Lemma printlns_MainGo_scan_loop (lg : Logger) (target iface : string) (lines : list string) :
  forall env h, printlns (snd (MainGo.isNetworkAvailable_loop lg target iface lines env h)) = [].
Proof.
  induction lines as [|line rest IH]; intros env h; [reflexivity|].
  cbn [MainGo.isNetworkAvailable_loop]. cbv zeta.
  destruct (HasPrefix _ _); [|apply IH].
  destruct (SplitN _ _ _) as [|a [|b [|? ?]]]; try apply IH.
  destruct (_ =? _); [reflexivity | apply IH].
Qed.

Lemma printlns_MainGo_isNetworkAvailable (env : Env) (h : list Event) (lg : Logger)
    (target iface : string) :
  printlns (snd (MainGo.isNetworkAvailable (Some lg) target iface env h)) = [].
Proof.
  unfold MainGo.isNetworkAvailable. rewrite bind_snd. cbn [run fst snd].
  rewrite printlns_app. cbn [printlns app].
  destruct (procErr _); [destruct (_ || _); reflexivity|].
  rewrite bind_snd, printlns_app, printlns_MainGo_scan_loop. cbn [app].
  destruct (fst _); reflexivity.
Qed.

Lemma printlns_MainGo_connectToWifi (env : Env) (h : list Event) (lg : Logger)
    (ssid iface : string) :
  printlns (snd (MainGo.connectToWifi (Some lg) ssid iface env h)) = [].
Proof.
  unfold MainGo.connectToWifi. run_m. destruct (procErr _); reflexivity.
Qed.

(** The lines printed among some events, event by event. *)
Ltac prints :=
  cbn [fst snd app printlns];
  repeat (rewrite printlns_app; cbn [app printlns]);
  repeat match goal with
         | H : printlns _ = _ |- _ => rewrite H; clear H; cbn [app printlns]
         end;
  repeat (rewrite printlns_app; cbn [app printlns]);
  try reflexivity.

Lemma printlns_MainGo_onTick (lg : Logger) (iface : string) (now : Z)
    (env : Env) (h : list Event) :
  printlns (snd (MainGo.onTick lg iface now env h)) = [].
Proof.
  unfold MainGo.onTick. cbv beta iota zeta delta [bind emit ret].
  match goal with
  | |- context [MainGo.isConnected (Some lg) MainGo.targetSSID iface env ?hh] =>
      pose proof (printlns_MainGo_isConnected env hh lg MainGo.targetSSID iface) as Ps;
      destruct (MainGo.isConnected (Some lg) MainGo.targetSSID iface env hh)
        as [[connected err] es1]
  end.
  cbn [fst snd] in *.
  destruct err as [e|]; [solve [prints]|].
  destruct connected; cbn [negb]; [solve [prints]|].
  match goal with
  | |- context [MainGo.isNetworkAvailable (Some lg) MainGo.targetSSID iface env ?hh] =>
      pose proof (printlns_MainGo_isNetworkAvailable env hh lg MainGo.targetSSID iface) as Pa;
      destruct (MainGo.isNetworkAvailable (Some lg) MainGo.targetSSID iface env hh)
        as [[visible availErr] es2]
  end.
  cbn [fst snd] in *.
  destruct availErr as [e|]; [solve [prints]|].
  destruct visible; [|solve [prints]].
  match goal with
  | |- context [MainGo.connectToWifi (Some lg) MainGo.targetSSID iface env ?hh] =>
      pose proof (printlns_MainGo_connectToWifi env hh lg MainGo.targetSSID iface) as Pc;
      destruct (MainGo.connectToWifi (Some lg) MainGo.targetSSID iface env hh)
        as [connectErr es3]
  end.
  cbn [snd] in Pc.
  destruct connectErr; solve [prints].
Qed.

Lemma printlns_Part000_onTick (lg : Logger) (iface : string) (now : Z)
    (env : Env) (h : list Event) :
  printlns (snd (Part000.onTick lg iface now env h)) = [].
Proof.
  unfold Part000.onTick, Part000.isConnected, Part000.connectToWifi.
  cbv beta iota zeta delta [bind emit ret].
  match goal with
  | |- context [MainGo.isConnected (Some lg) Part000.targetSSID iface env ?hh] =>
      pose proof (printlns_MainGo_isConnected env hh lg Part000.targetSSID iface) as Ps;
      destruct (MainGo.isConnected (Some lg) Part000.targetSSID iface env hh)
        as [[connected err] es1]
  end.
  cbn [fst snd] in *.
  destruct err as [e|]; [solve [prints]|].
  destruct connected; cbn [negb]; [solve [prints]|].
  match goal with
  | |- context [MainGo.connectToWifi (Some lg) Part000.targetSSID iface env ?hh] =>
      pose proof (printlns_MainGo_connectToWifi env hh lg Part000.targetSSID iface) as Pc;
      destruct (MainGo.connectToWifi (Some lg) Part000.targetSSID iface env hh)
        as [connectErr es3]
  end.
  cbn [snd] in Pc.
  destruct connectErr; solve [prints].
Qed.

Lemma printlns_MainGo_tickerLoop (body : Z -> M unit) :
  (forall now env h, printlns (snd (body now env h)) = []) ->
  forall n env h, printlns (snd (MainGo.tickerLoop n body env h)) = [].
Proof.
  intros Hbody. induction n as [|n IH]; intros env h; [reflexivity|].
  rewrite MainGo_tickerLoop_snoc, printlns_app, IH. cbn [app printlns]. apply Hbody.
Qed.

Lemma printlns_setupLogger (env : Env) (h : list Event) :
  printlns (snd (MainGo.setupLogger env h)) = [].
Proof.
  unfold MainGo.setupLogger. change (MainGo.logFilePath =? "") with false. cbv iota.
  run_m. destruct (opens env h MainGo.logFilePath); reflexivity.
Qed.

(** X16: the guard [logger == nil] of the older generations.  Called
    without a logger, each of [getWlanInterface], [isConnected],
    [isNetworkAvailable] and [connectToWifi] of [src/main.go] runs no
    command, prints one line with [fmt.Println] and returns an error.  In a
    run of [main] this never happens: [main] sets the logger up first, and
    no run of [main], of [src/main.go] or of [src/unnamed/part_000], calls
    [fmt.Println] (neither for a guard nor for the prompt before exiting),
    however long it runs and whatever the commands answer. *)
Theorem the_logger_is_never_nil_in_main :
  (forall target iface env h,
      (execs (snd (MainGo.getWlanInterface None env h)) = []
       /\ length (printlns (snd (MainGo.getWlanInterface None env h))) = 1
       /\ isSome (snd (fst (MainGo.getWlanInterface None env h))) = true)
      /\ (execs (snd (MainGo.isConnected None target iface env h)) = []
          /\ length (printlns (snd (MainGo.isConnected None target iface env h))) = 1
          /\ isSome (snd (fst (MainGo.isConnected None target iface env h))) = true)
      /\ (execs (snd (MainGo.isNetworkAvailable None target iface env h)) = []
          /\ length (printlns (snd (MainGo.isNetworkAvailable None target iface env h))) = 1
          /\ isSome (snd (fst (MainGo.isNetworkAvailable None target iface env h))) = true)
      /\ (execs (snd (MainGo.connectToWifi None target iface env h)) = []
          /\ length (printlns (snd (MainGo.connectToWifi None target iface env h))) = 1
          /\ isSome (fst (MainGo.connectToWifi None target iface env h)) = true))
  /\ (forall n env h, printlns (snd (MainGo.main n env h)) = [])
  /\ (forall n env h, printlns (snd (Part000.main n env h)) = []).
Proof.
  split; [|split].
  - intros. repeat split.
  - intros n env h. rewrite (proj1 (MainGo_main_events n env h)).
    rewrite printlns_app. unfold MainGo_startup. cbv zeta.
    rewrite printlns_app, printlns_setupLogger. cbn [app printlns].
    apply printlns_MainGo_tickerLoop. intros. apply printlns_MainGo_onTick.
  - intros n env h. rewrite (proj1 (Part000_main_events n env h)).
    rewrite printlns_app. unfold Part000_startup, Part000.setupLogger. cbv zeta.
    rewrite printlns_app, printlns_setupLogger. cbn [app printlns].
    apply printlns_MainGo_tickerLoop. intros. apply printlns_Part000_onTick.
Qed.

(* ===================================================================== *)
(** * Names with blanks around them                                       *)
(* ===================================================================== *)

(** [strings.TrimSpace] gives a string it leaves as it is. *)
Lemma trimLeft_length (n : nat) :
  forall l, length l <= n -> length (trimLeft l) <= length l.
Proof.
  induction n as [|n IH]; intros l Hl.
  - destruct l; [cbn; lia | cbn in Hl; lia].
  - destruct l as [|a l1]; [cbn; lia|]. cbn [length] in Hl.
    assert (H1 : length (trimLeft l1) <= length l1) by (apply IH; lia).
    cbn [trimLeft]. destruct (isSpace1 a); [cbn [length]; lia|].
    destruct l1 as [|b l2]; [cbn [length]; lia|]. cbn [length] in Hl.
    assert (H2 : length (trimLeft l2) <= length l2) by (apply IH; lia).
    destruct (isSpace2 a b); [cbn [length]; lia|].
    destruct l2 as [|c l3]; [cbn [length]; lia|]. cbn [length] in Hl.
    assert (H3 : length (trimLeft l3) <= length l3) by (apply IH; lia).
    destruct (isSpace3 a b c); cbn [length]; lia.
Qed.

Lemma trimLeft_shorter (t full : list ascii) :
  length t < length full -> trimLeft t <> full.
Proof.
  intros Hlen E. pose proof (trimLeft_length (length t) t (le_n _)) as H.
  rewrite E in H. lia.
Qed.

Lemma trimLeft_idempotent (n : nat) :
  forall l, length l <= n -> trimLeft (trimLeft l) = trimLeft l.
Proof.
  induction n as [|n IH]; intros l Hl.
  - destruct l; [reflexivity | cbn in Hl; lia].
  - destruct l as [|a l1]; [reflexivity|]. cbn [length] in Hl.
    assert (H1 : trimLeft (trimLeft l1) = trimLeft l1) by (apply IH; lia).
    cbn [trimLeft]. destruct (isSpace1 a) eqn:Ea; [exact H1|].
    destruct l1 as [|b l2]; [cbn [trimLeft]; now rewrite Ea|]. cbn [length] in Hl.
    assert (H2 : trimLeft (trimLeft l2) = trimLeft l2) by (apply IH; lia).
    destruct (isSpace2 a b) eqn:Eb; [exact H2|].
    destruct l2 as [|c l3]; [cbn [trimLeft]; now rewrite Ea, Eb|]. cbn [length] in Hl.
    assert (H3 : trimLeft (trimLeft l3) = trimLeft l3) by (apply IH; lia).
    destruct (isSpace3 a b c) eqn:Ec; [exact H3|].
    cbn [trimLeft]. now rewrite Ea, Eb, Ec.
Qed.

Lemma trimLeft_prefix_fixed (x z : list ascii) :
  trimLeft (x ++ z) = (x ++ z)%list -> trimLeft x = x.
Proof.
  destruct x as [|a [|b [|c x3]]]; [reflexivity|..]; cbn [app trimLeft]; intros H.
  - destruct (isSpace1 a); [|reflexivity].
    exfalso. apply (trimLeft_shorter z (a :: z)); [cbn; lia | exact H].
  - destruct (isSpace1 a).
    { exfalso. apply (trimLeft_shorter (b :: z) (a :: b :: z)); [cbn; lia | exact H]. }
    destruct (isSpace2 a b); [|reflexivity].
    exfalso. apply (trimLeft_shorter z (a :: b :: z)); [cbn; lia | exact H].
  - destruct (isSpace1 a).
    { exfalso. apply (trimLeft_shorter (b :: c :: x3 ++ z) (a :: b :: c :: x3 ++ z));
        [cbn; lia | exact H]. }
    destruct (isSpace2 a b).
    { exfalso. apply (trimLeft_shorter (c :: x3 ++ z) (a :: b :: c :: x3 ++ z));
        [cbn; lia | exact H]. }
    destruct (isSpace3 a b c); [|reflexivity].
    exfalso. apply (trimLeft_shorter (x3 ++ z) (a :: b :: c :: x3 ++ z)); [cbn; lia | exact H].
Qed.

Lemma trimLeftRev_idempotent (n : nat) :
  forall l, length l <= n -> trimLeftRev (trimLeftRev l) = trimLeftRev l.
Proof.
  induction n as [|n IH]; intros l Hl.
  - destruct l; [reflexivity | cbn in Hl; lia].
  - destruct l as [|a l1]; [reflexivity|]. cbn [length] in Hl.
    assert (H1 : trimLeftRev (trimLeftRev l1) = trimLeftRev l1) by (apply IH; lia).
    cbn [trimLeftRev]. destruct (isSpace1 a) eqn:Ea; [exact H1|].
    destruct l1 as [|b l2]; [cbn [trimLeftRev]; now rewrite Ea|]. cbn [length] in Hl.
    assert (H2 : trimLeftRev (trimLeftRev l2) = trimLeftRev l2) by (apply IH; lia).
    destruct (isSpace2 b a) eqn:Eb; [exact H2|].
    destruct l2 as [|c l3]; [cbn [trimLeftRev]; now rewrite Ea, Eb|]. cbn [length] in Hl.
    assert (H3 : trimLeftRev (trimLeftRev l3) = trimLeftRev l3) by (apply IH; lia).
    destruct (isSpace3 c b a) eqn:Ec; [exact H3|].
    cbn [trimLeftRev]. now rewrite Ea, Eb, Ec.
Qed.

Lemma trimLeftRev_suffix (n : nat) :
  forall l, length l <= n -> exists p, l = (p ++ trimLeftRev l)%list.
Proof.
  induction n as [|n IH]; intros l Hl.
  - destruct l; [now exists [] | cbn in Hl; lia].
  - destruct l as [|a l1]; [now exists []|]. cbn [length] in Hl.
    destruct (IH l1) as (p1 & H1); [lia|].
    cbn [trimLeftRev]. destruct (isSpace1 a).
    { exists (a :: p1). cbn [app]. now rewrite <- H1. }
    destruct l1 as [|b l2]; [now exists []|]. cbn [length] in Hl.
    destruct (IH l2) as (p2 & H2); [lia|].
    destruct (isSpace2 b a).
    { exists (a :: b :: p2). cbn [app]. now rewrite <- H2. }
    destruct l2 as [|c l3]; [now exists []|]. cbn [length] in Hl.
    destruct (IH l3) as (p3 & H3); [lia|].
    destruct (isSpace3 c b a); [|now exists []].
    exists (a :: b :: c :: p3). cbn [app]. now rewrite <- H3.
Qed.

Lemma TrimSpace_idempotent (s : string) : TrimSpace (TrimSpace s) = TrimSpace s.
Proof.
  unfold TrimSpace. rewrite list_ascii_of_string_of_list_ascii. f_equal.
  set (y := trimLeft (list_ascii_of_string s)).
  assert (Hy : trimLeft y = y) by (apply (trimLeft_idempotent (length (list_ascii_of_string s))); lia).
  destruct (trimLeftRev_suffix (length (rev y)) (rev y) (le_n _)) as (p & Hp).
  assert (Hx : y = (trimRight y ++ rev p)%list).
  { unfold trimRight. rewrite <- rev_app_distr, <- Hp. now rewrite rev_involutive. }
  rewrite (trimLeft_prefix_fixed (trimRight y) (rev p)) by (rewrite <- Hx; exact Hy).
  unfold trimRight. rewrite rev_involutive.
  now rewrite (trimLeftRev_idempotent (length (rev y))) by lia.
Qed.

(** The values the loops read off a line are trimmed. *)
Lemma labelled_trimmed (label line v : string) :
  labelled label line = Some v -> TrimSpace v = v.
Proof.
  unfold labelled. destruct (HasPrefix _ _); [|discriminate].
  destruct (SplitN _ _ _) as [|a [|b [|? ?]]]; try discriminate.
  intros [= <-]. apply TrimSpace_idempotent.
Qed.

Lemma ssidValue_trimmed (line v : string) : ssidValue line = Some v -> TrimSpace v = v.
Proof.
  unfold ssidValue. destruct (Contains _ _); [discriminate|]. apply labelled_trimmed.
Qed.

(** A reading never judges a target that is not trimmed as connected. *)
Lemma readLines_never_true rule (target iface : string) :
  (forall s u, rule s u = Some true -> s = target) ->
  TrimSpace target <> target ->
  forall lines r, TrimSpace (ssid r) = ssid r ->
  answer (readLines rule iface lines r) = false.
Proof.
  intros Hrule Ht. induction lines as [|line rest IH]; intros r Hr; [reflexivity|].
  cbn [readLines]. unfold readLine.
  destruct (blockStart line) as [name|].
  - destruct (name =? iface); apply IH; [reflexivity | exact Hr].
  - destruct (inside r); [|now apply IH].
    assert (Hs : TrimSpace (orElse (ssidValue line) (ssid r))
                 = orElse (ssidValue line) (ssid r)).
    { destruct (ssidValue line) as [v|] eqn:E; cbn [orElse];
        [now apply (ssidValue_trimmed line) | exact Hr]. }
    destruct (rule _ _) as [[|]|] eqn:E.
    + exfalso. apply Ht. rewrite <- (Hrule _ _ E). exact Hs.
    + reflexivity.
    + apply IH. exact Hs.
Qed.

Lemma judge_true (target s u : string) : judge target s u = Some true -> s = target.
Proof.
  unfold judge. destruct (s =? target) eqn:E; [intros _; now apply String.eqb_eq|].
  cbn [andb]. discriminate.
Qed.

Lemma judgePopulated_true (target s u : string) :
  judgePopulated target s u = Some true -> s = target.
Proof.
  unfold judgePopulated. destruct (negb (s =? "") && negb (u =? "")); [|discriminate].
  destruct (s =? target) eqn:E; [intros _; now apply String.eqb_eq|].
  cbn [andb]. discriminate.
Qed.

(** No line begins a block of an interface whose name is not trimmed. *)
Lemma blocksOf_untrimmed (iface : string) (lines : list string) :
  TrimSpace iface <> iface -> blocksOf iface lines = 0.
Proof.
  intros Hi. induction lines as [|line rest IH]; [reflexivity|].
  cbn [blocksOf]. rewrite IH. unfold startsBlockOf.
  destruct (blockStart line) as [name|] eqn:E; [|reflexivity].
  destruct (name =? iface) eqn:En; [|reflexivity].
  exfalso. apply Hi. apply String.eqb_eq in En. subst name.
  now apply (labelled_trimmed "名称" line).
Qed.

Lemma entryIs_trimmed (target line : string) :
  entryIs target line = true -> TrimSpace target = target.
Proof.
  unfold entryIs, listEntrySSID. destruct (labelled "SSID " line) as [v|] eqn:E; [|discriminate].
  intros H. apply String.eqb_eq in H. subst v. now apply (labelled_trimmed "SSID " line).
Qed.

Lemma no_entry_untrimmed (target : string) (lines : list string) :
  TrimSpace target <> target -> existsb (entryIs target) lines = false.
Proof.
  intros Ht. induction lines as [|line rest IH]; [reflexivity|].
  cbn [existsb]. rewrite IH, orb_false_r.
  destruct (entryIs target line) eqn:E; [|reflexivity].
  exfalso. apply Ht. now apply (entryIs_trimmed target line).
Qed.

(** What the four functions answer, from the reading of the text. *)
Lemma MainGo_isConnected_answer (logger : option Logger) (target iface : string)
    (env : Env) (h : list Event) :
  (forall lines, answer (readLines (judge target) iface lines readingStart) = false) ->
  fst (fst (MainGo.isConnected logger target iface env h)) = false.
Proof.
  intros H. destruct logger as [lg|]; [|reflexivity].
  destruct (MainGo_isConnected_run env h lg target iface) as (_ & Hok & Hko).
  destruct (procErr (respond env h (MainGo.netsh ["wlan"; "show"; "interfaces"]))) as [e|].
  - destruct Hko as (e' & ->); [discriminate | reflexivity].
  - rewrite (Hok eq_refl). apply H.
Qed.

Lemma Slog_isConnected_answer (target iface : string) (env : Env) (h : list Event) :
  (forall lines, answer (readLines (judgePopulated target) iface lines readingStart) = false) ->
  fst (fst (Slog.isConnected target iface env h)) = false.
Proof.
  intros H. destruct (Slog_isConnected_run env h target iface) as (_ & Hok & Hko).
  unfold succeeded in *.
  destruct (procDeadlineExceeded _).
  { destruct Hko as (e' & ->); [intros [? _]; discriminate | reflexivity]. }
  destruct (procErr _).
  { destruct Hko as (e' & ->); [intros [_ ?]; discriminate | reflexivity]. }
  rewrite (Hok (conj eq_refl eq_refl)). apply H.
Qed.

Lemma MainGo_isNetworkAvailable_answer (logger : option Logger) (target iface : string)
    (env : Env) (h : list Event) :
  (forall lines, existsb (entryIs target) lines = false) ->
  fst (fst (MainGo.isNetworkAvailable logger target iface env h)) = false.
Proof.
  intros H. destruct logger as [lg|]; [|reflexivity].
  destruct (MainGo_isNetworkAvailable_run env h lg target iface) as (_ & Hok & Hko).
  destruct (procErr _) as [e|].
  - assert (Hn : Some e <> None) by discriminate. specialize (Hko Hn).
    destruct (saysNoNetworks _); [now rewrite Hko | now destruct Hko as (e' & ->)].
  - rewrite (Hok eq_refl). apply H.
Qed.

Lemma Slog_isNetworkAvailable_answer (Quote : string -> string) (target iface : string)
    (env : Env) (h : list Event) :
  (forall lines, existsb (entryIs target) lines = false) ->
  fst (fst (Slog.isNetworkAvailable Quote target iface env h)) = false.
Proof.
  intros H. destruct (Slog_isNetworkAvailable_run Quote env h target iface) as (_ & Hok & Hko).
  unfold succeeded in *.
  destruct (procDeadlineExceeded _).
  { assert (Hn : ~ (true = false /\ procErr
                      (respond env
                         (h ++ [EvSlog LevelDebug "检查网络是否可见..."
                                  [("目标SSID", VString target); ("接口", VString iface)]])%list
                         (mkCommand (Some Slog.commandTimeout) "netsh"
                            (Slog.scanArgs Quote iface) true)) = None))
      by (intros [? _]; discriminate).
    specialize (Hko Hn).
    destruct (saysNoNetworks _); [now rewrite Hko | now destruct Hko as (e' & ->)]. }
  destruct (procErr _) as [e|].
  { assert (Hn : ~ (false = false /\ Some e = None)) by (intros [_ ?]; discriminate).
    specialize (Hko Hn).
    destruct (saysNoNetworks _); [now rewrite Hko | now destruct Hko as (e' & ->)]. }
  rewrite (Hok (conj eq_refl eq_refl)). apply H.
Qed.

(** X17: names with blanks around them are never found.  The loops compare
    the names they are given with values trimmed by [strings.TrimSpace].
    So for a target that [TrimSpace] would change (a blank before or after
    it), [isConnected] never answers [true] and [isNetworkAvailable] never
    answers [true], in [src/main.go] and in the program of
    [src/README.md], whatever the commands print; a pass of that program
    then never runs the connect command.  And for an interface name that
    [TrimSpace] would change, [isConnected] never answers [true]. *)
Theorem a_name_with_blanks_is_never_found (target iface : string) :
  (TrimSpace target <> target ->
   (forall logger env h, fst (fst (MainGo.isConnected logger target iface env h)) = false)
   /\ (forall env h, fst (fst (Slog.isConnected target iface env h)) = false)
   /\ (forall logger env h,
          fst (fst (MainGo.isNetworkAvailable logger target iface env h)) = false)
   /\ (forall Quote env h,
          fst (fst (Slog.isNetworkAvailable Quote target iface env h)) = false)
   /\ (forall Quote env h,
          connectRan (snd (Slog.performCheckAndConnect Quote target iface env h)) = false))
  /\ (TrimSpace iface <> iface ->
      (forall logger env h, fst (fst (MainGo.isConnected logger target iface env h)) = false)
      /\ (forall env h, fst (fst (Slog.isConnected target iface env h)) = false)).
Proof.
  split.
  - intros Ht.
    assert (Hscan : forall lines, existsb (entryIs target) lines = false)
      by (intros; now apply no_entry_untrimmed).
    split; [|split; [|split; [|split]]].
    + intros. apply MainGo_isConnected_answer. intros lines.
      apply (readLines_never_true (judge target) target iface (judge_true target) Ht).
      reflexivity.
    + intros. apply Slog_isConnected_answer. intros lines.
      apply (readLines_never_true (judgePopulated target) target iface
               (judgePopulated_true target) Ht).
      reflexivity.
    + intros. now apply MainGo_isNetworkAvailable_answer.
    + intros. now apply Slog_isNetworkAvailable_answer.
    + intros Quote env h. rewrite Slog_pass_connects.
      rewrite (Slog_isNetworkAvailable_answer Quote target iface env _ Hscan).
      cbn [andb]. now rewrite andb_false_r.
  - intros Hi. split.
    + intros. apply MainGo_isConnected_answer. intros lines.
      now rewrite readLines_absent by now apply blocksOf_untrimmed.
    + intros. apply Slog_isConnected_answer. intros lines.
      now rewrite readLines_absent by now apply blocksOf_untrimmed.
Qed.

(** A target typed with a blank before it, on an interface that is on the
    network of that name. *)
Lemma a_name_with_blanks_is_never_found_witness :
  fst (fst (Slog.isConnected " home_5G" "WLAN" (onTarget "home_5G") [])) = false.
Proof.
  refine (proj1 (proj2 (proj1 (a_name_with_blanks_is_never_found " home_5G" "WLAN") _))
            (onTarget "home_5G") []).
  vm_compute. discriminate.
Defined.

(* ===================================================================== *)
(** * The grounds of the answer "connected"                               *)
(* ===================================================================== *)

(** A reading that judges "connected" has read the target and the
    connected state off lines of the text. *)
Lemma readLines_true_grounds rule (target iface : string) (all : list string) :
  (forall s u, rule s u = Some true -> s = target /\ u = "已连接") ->
  target <> "" ->
  forall lines r,
    (forall line, In line lines -> In line all) ->
    (ssid r = "" \/ exists line, In line all /\ ssidValue line = Some (ssid r)) ->
    (state r = "" \/ exists line, In line all /\ stateValue line = Some (state r)) ->
    readLines rule iface lines r = inr true ->
    (exists line, In line all /\ ssidValue line = Some target)
    /\ (exists line, In line all /\ stateValue line = Some "已连接").
Proof.
  intros Hrule Ht. induction lines as [|line rest IH]; intros r Hall Hs Hu; [discriminate|].
  cbn [readLines]. unfold readLine.
  assert (Hrest : forall l, In l rest -> In l all) by (intros l Hl; apply Hall; now right).
  assert (Hline : In line all) by (apply Hall; now left).
  destruct (blockStart line) as [name|].
  - destruct (name =? iface); apply IH; cbn [ssid state]; auto.
  - destruct (inside r); [|now apply IH].
    assert (Hs' : orElse (ssidValue line) (ssid r) = ""
                  \/ exists l, In l all /\ ssidValue l = Some (orElse (ssidValue line) (ssid r))).
    { destruct (ssidValue line) as [v|] eqn:E; cbn [orElse]; [right; eauto | exact Hs]. }
    assert (Hu' : orElse (stateValue line) (state r) = ""
                  \/ exists l, In l all /\ stateValue l = Some (orElse (stateValue line) (state r))).
    { destruct (stateValue line) as [v|] eqn:E; cbn [orElse]; [right; eauto | exact Hu]. }
    destruct (rule _ _) as [[|]|] eqn:E.
    + intros _. destruct (Hrule _ _ E) as (Es & Eu). rewrite Es in Hs'. rewrite Eu in Hu'.
      split.
      * destruct Hs' as [H|H]; [now contradiction Ht | exact H].
      * destruct Hu' as [H|H]; [discriminate | exact H].
    + discriminate.
    + apply IH; cbn [ssid state]; auto.
Qed.

Lemma judge_true_both (target s u : string) :
  judge target s u = Some true -> s = target /\ u = "已连接".
Proof.
  unfold judge. destruct (s =? target) eqn:Es; cbn [andb]; [|discriminate].
  destruct (u =? "已连接") eqn:Eu.
  - intros _. split; now apply String.eqb_eq.
  - destruct (negb (u =? "")); discriminate.
Qed.

Lemma judgePopulated_true_both (target s u : string) :
  judgePopulated target s u = Some true -> s = target /\ u = "已连接" /\ s <> "".
Proof.
  unfold judgePopulated. destruct (s =? "") eqn:E0; cbn [negb andb]; [discriminate|].
  destruct (negb (u =? "")); [|discriminate].
  destruct (s =? target) eqn:Es; cbn [andb]; [|discriminate].
  destruct (u =? "已连接") eqn:Eu; [|discriminate].
  intros _. repeat split; try now apply String.eqb_eq. now apply String.eqb_neq.
Qed.

(** X18: the answer "connected" has grounds in the text.  When
    [isConnected] returns [true], its status command has succeeded and the
    standard output has a line that gives the target as SSID and a line that
    gives the state "已连接": in the program of [src/README.md] for every
    target, in [src/main.go] for every target that is not empty and with a
    logger.  No text makes the program take itself for connected to a
    network the text does not name. *)
Theorem connected_has_grounds_in_the_text (target iface : string) :
  (forall env h,
      fst (fst (Slog.isConnected target iface env h)) = true ->
      exists c r,
        execs (snd (Slog.isConnected target iface env h)) = [(c, r)]
        /\ succeeded r
        /\ (exists line, In line (Split (procStdout r) LF) /\ ssidValue line = Some target)
        /\ (exists line, In line (Split (procStdout r) LF) /\ stateValue line = Some "已连接"))
  /\ (target <> "" ->
      forall logger env h,
        fst (fst (MainGo.isConnected logger target iface env h)) = true ->
        exists c r,
          execs (snd (MainGo.isConnected logger target iface env h)) = [(c, r)]
          /\ procErr r = None
          /\ (exists line, In line (Split (procStdout r) LF) /\ ssidValue line = Some target)
          /\ (exists line, In line (Split (procStdout r) LF)
                           /\ stateValue line = Some "已连接")).
Proof.
  split.
  - intros env h Htrue.
    destruct (Slog_isConnected_run env h target iface) as (Hex & Hok & Hko).
    eexists _, _. split; [exact Hex|].
    unfold succeeded in *.
    destruct (procDeadlineExceeded _).
    { destruct Hko as (e & He); [intros [? _]; discriminate|]. rewrite He in Htrue. discriminate. }
    destruct (procErr _).
    { destruct Hko as (e & He); [intros [_ ?]; discriminate|]. rewrite He in Htrue. discriminate. }
    split; [now split|]. rewrite (Hok (conj eq_refl eq_refl)) in Htrue. cbn [fst] in Htrue.
    destruct (readLines _ _ _ _) as [r'|[|]] eqn:E; try discriminate.
    destruct (String.eqb_spec target "") as [->|Ht].
    + exfalso. clear - E.
      assert (H : forall lines r, readLines (judgePopulated "") iface lines r <> inr true).
      { induction lines as [|line rest IH]; intros r; [discriminate|].
        cbn [readLines]. unfold readLine.
        destruct (blockStart line) as [name|]; [destruct (name =? iface); apply IH|].
        destruct (inside r); [|apply IH].
        destruct (judgePopulated _ _ _) as [[|]|] eqn:Ej; [|discriminate|apply IH].
        destruct (judgePopulated_true_both _ _ _ Ej) as (Hs & _ & Hn). now contradiction Hn. }
      exact (H _ _ E).
    + apply (readLines_true_grounds (judgePopulated target) target iface
               (Split (procStdout _) LF)
               (fun s u H => let '(conj a (conj b _)) := judgePopulated_true_both target s u H
                             in conj a b)
               Ht _ readingStart (fun _ H => H) (or_introl eq_refl) (or_introl eq_refl) E).
  - intros Ht [lg|] env h Htrue; [|discriminate].
    destruct (MainGo_isConnected_run env h lg target iface) as (Hex & Hok & Hko).
    eexists _, _. split; [rewrite Hex; reflexivity|].
    destruct (procErr _).
    { destruct Hko as (e & He); [discriminate|]. rewrite He in Htrue. discriminate. }
    split; [reflexivity|]. rewrite (Hok eq_refl) in Htrue. cbn [fst] in Htrue.
    destruct (readLines _ _ _ _) as [r'|[|]] eqn:E; try discriminate.
    apply (readLines_true_grounds (judge target) target iface (Split (procStdout _) LF)
             (judge_true_both target) Ht _ readingStart (fun _ H => H)
             (or_introl eq_refl) (or_introl eq_refl) E).
Qed.

(** The status text of an interface on the target network. *)
Lemma connected_has_grounds_in_the_text_witness :
  exists c r,
    execs (snd (Slog.isConnected "home_5G" "WLAN" (onTarget "home_5G") [])) = [(c, r)]
    /\ succeeded r
    /\ (exists line, In line (Split (procStdout r) LF) /\ ssidValue line = Some "home_5G")
    /\ (exists line, In line (Split (procStdout r) LF) /\ stateValue line = Some "已连接").
Proof.
  refine (proj1 (connected_has_grounds_in_the_text "home_5G" "WLAN") (onTarget "home_5G") [] _).
  vm_compute. reflexivity.
Defined.
